(** * GeoIPS test-data installation and plugin validation

    A shallow embedding of
      - [src/geoips/commandline/geoips_config.py]   ([GeoipsConfigInstall]),
      - [src/setup/download_test_data.py]           (ad-hoc URL downloader),
      - [src/geoips/commandline/geoips_validate.py] ([GeoipsValidate]),
      - [src/geoips/commandline/geoips_run.py]      ([GeoipsRun]),
    together with the parts of the Python runtime they call
    ([str] methods, [os.path], [os.listdir], [open], [requests.get],
    [tarfile], [glob]) and the properties of the containment check, the
    extraction loop, the idempotency guard, URL dispatch and error
    handling. *)

From Stdlib Require Import ZArith Ascii String DecimalString List Bool Lia.
From stdpp Require Import base option list strings gmap fin_maps sorting.

Open Scope string_scope.
Open Scope list_scope.

(** ** Python [str] operations used by the sources *)

Module Str.

(** [s.startswith(p)] *)
Definition startswith (s p : string) : bool := String.prefix p s.

(** [s.endswith(c)] for a one-character [c] *)
Fixpoint endswith_char (s : string) (c : ascii) : bool :=
  match s with
  | EmptyString => false
  | String a EmptyString => Ascii.eqb a c
  | String _ s' => endswith_char s' c
  end.

(** [sub in s] *)
Fixpoint contains (sub s : string) : bool :=
  String.prefix sub s ||
  match s with
  | EmptyString => false
  | String _ s' => contains sub s'
  end.

(** [s.split(c)] for a one-character separator: never returns [[]] *)
Fixpoint split (c : ascii) (s : string) : list string :=
  match s with
  | EmptyString => [EmptyString]
  | String a s' =>
      if Ascii.eqb a c then EmptyString :: split c s'
      else match split c s' with
           | [] => [String a EmptyString]
           | w :: ws => String a w :: ws
           end
  end.

(** [sep.join(l)] *)
Fixpoint join (sep : string) (l : list string) : string :=
  match l with
  | [] => EmptyString
  | [x] => x
  | x :: rest => x +:+ sep +:+ join sep rest
  end.

(** [c * n] for a one-character string [c] *)
Fixpoint replicate_char (c : ascii) (n : nat) : string :=
  match n with
  | O => EmptyString
  | S n' => String c (replicate_char c n')
  end.

(** [s[-n:]]: the last [n] characters, the whole of [s] when shorter *)
Definition last_chars (n : nat) (s : string) : string :=
  String.substring (String.length s - n) n s.

(** [str(n)] for an integer *)
Definition of_Z (n : Z) : string :=
  DecimalString.NilZero.string_of_int (Z.to_int n).

(** [s.replace(old, new)] for one-character [old] and [new] *)
Fixpoint replace_char (old new : ascii) (s : string) : string :=
  match s with
  | EmptyString => EmptyString
  | String a s' =>
      String (if Ascii.eqb a old then new else a) (replace_char old new s')
  end.

(** [s.endswith(suf)] *)
Fixpoint endswith (s suf : string) : bool :=
  String.eqb s suf ||
  match s with
  | EmptyString => false
  | String _ s' => endswith s' suf
  end.

Definition between (lo hi : nat) (a : ascii) : bool :=
  Nat.leb lo (nat_of_ascii a) && Nat.leb (nat_of_ascii a) hi.

(** Whether [b.decode("utf-8")] accepts the bytes [b]: every character
    is encoded in the shortest form, none is a surrogate, none lies
    above U+10FFFF.  A [str] is kept as its UTF-8 bytes, so decoding
    returns the bytes it accepts. *)
Fixpoint valid_utf8 (b : string) : bool :=
  match b with
  | EmptyString => true
  | String x b1 =>
      if between 0 127 x then valid_utf8 b1
      else
        match b1 with
        | EmptyString => false
        | String y b2 =>
            if between 194 223 x then between 128 191 y && valid_utf8 b2
            else
              match b2 with
              | EmptyString => false
              | String z b3 =>
                  if between 224 239 x then
                    (if between 224 224 x then between 160 191 y
                     else if between 237 237 x then between 128 159 y
                     else between 128 191 y)
                    && between 128 191 z && valid_utf8 b3
                  else
                    match b3 with
                    | EmptyString => false
                    | String w b4 =>
                        between 240 244 x
                        && (if between 240 240 x then between 144 191 y
                            else if between 244 244 x then between 128 143 y
                            else between 128 191 y)
                        && between 128 191 z && between 128 191 w
                        && valid_utf8 b4
                    end
              end
        end
  end.

End Str.

(** ** [os.path] on POSIX ([posixpath]) *)

Module posixpath.

Definition sep : ascii := "/"%char.

Definition isabs (s : string) : bool := Str.startswith s "/".

(** [join(a, b)]: an absolute [b] discards [a]; no [..] is resolved. *)
Definition join (a b : string) : string :=
  if Str.startswith b "/" then b
  else if String.eqb a "" || Str.endswith_char a sep then a +:+ b
  else a +:+ "/" +:+ b.

Definition is_nil {A} (l : list A) : bool :=
  match l with [] => true | _ => false end.

(** One iteration of the loop of [normpath] over the components:
    [new_comps] is the list being built, in order. *)
Definition normpath_step (initial_slashes : nat)
    (new_comps : list string) (comp : string) : list string :=
  if String.eqb comp "" || String.eqb comp "." then new_comps
  else if negb (String.eqb comp "..")
          || (Nat.eqb initial_slashes 0 && is_nil new_comps)
          || (negb (is_nil new_comps)
              && String.eqb (List.last new_comps "") "..")
  then new_comps ++ [comp]
  else if negb (is_nil new_comps) then removelast new_comps
  else new_comps.

Definition initial_slashes (path : string) : nat :=
  if Str.startswith path "/" then
    if Str.startswith path "//" && negb (Str.startswith path "///")
    then 2 else 1
  else 0.

Definition normpath (path : string) : string :=
  if String.eqb path "" then "."
  else
    let n := initial_slashes path in
    let comps := fold_left (normpath_step n) (Str.split sep path) [] in
    let path' := Str.replicate_char sep n +:+ Str.join "/" comps in
    if String.eqb path' "" then "." else path'.

(** [abspath(path)]; [cwd] is the value of [os.getcwd()]. *)
Definition abspath (cwd path : string) : string :=
  normpath (if isabs path then path else join cwd path).

(** [basename(p)]: what follows the last separator, [p[p.rfind("/")+1:]]. *)
Fixpoint basename (p : string) : string :=
  match p with
  | EmptyString => EmptyString
  | String a p' =>
      if Str.contains "/" p' then basename p'
      else if Ascii.eqb a sep then p' else p
  end.

End posixpath.

(** ** Exceptions and their classes *)

Inductive pyclass :=
| BaseException | SystemExit | Exception
| AttributeError | LookupError | KeyError | TypeError | ValueError
| UnicodeError | UnicodeDecodeError
| OSError | FileNotFoundError | FileExistsError
| IsADirectoryError | NotADirectoryError
| RequestException | HTTPError | ConnectionError
| TarError | ReadError
| SubprocessError | CalledProcessError.

#[global] Instance pyclass_eq_dec : EqDecision pyclass.
Proof. solve_decision. Defined.

(** The direct base class, as declared by the runtime and the libraries. *)
Definition base_class (c : pyclass) : option pyclass :=
  match c with
  | BaseException => None
  | SystemExit | Exception => Some BaseException
  | AttributeError | LookupError | TypeError | ValueError
  | OSError | TarError | SubprocessError => Some Exception
  | KeyError => Some LookupError
  | UnicodeError => Some ValueError
  | UnicodeDecodeError => Some UnicodeError
  | FileNotFoundError | FileExistsError
  | IsADirectoryError | NotADirectoryError | RequestException => Some OSError
  | HTTPError | ConnectionError => Some RequestException
  | ReadError => Some TarError
  | CalledProcessError => Some SubprocessError
  end.

Fixpoint issubclass_upto (fuel : nat) (c d : pyclass) : bool :=
  bool_decide (c = d) ||
  match fuel, base_class c with
  | S fuel', Some b => issubclass_upto fuel' b d
  | _, _ => false
  end.

(** The hierarchy above is four levels deep. *)
Definition issubclass (c d : pyclass) : bool := issubclass_upto 4 c d.

(** Class objects are truthy, so [a or b] on two classes is [a]. *)
Definition class_truthy (c : pyclass) : bool := true.
Definition py_or (a b : pyclass) : pyclass := if class_truthy a then a else b.

Inductive exn_arg := ArgNone | ArgStr (s : string) | ArgInt (n : Z).

(** The Python values a modelled function can return. *)
Inductive pyval := PyNone | PyInt (n : Z).

Record exn := Raise { exn_class : pyclass; exn_arg_of : exn_arg }.

(** ** Files, archives, HTTP *)

Inductive node := Dir | File (content : string).

Inductive member_kind := REGTYPE | DIRTYPE.

(** [tarfile.TarInfo] of a regular file or a directory whose data the
    stream holds in full; mode, owner and times are left out.  Archives
    with members of other kinds (links, devices) or with data cut short
    are outside the model. *)
Record TarInfo := { name : string; kind : member_kind; data : string }.

(** What iterating a [r|gz] stream yields, in archive order.  The
    iteration ends normally at [TarEnd]: at the end-of-archive marker,
    and also, after at least one member, where the stream stops at a
    block boundary or goes on with bytes that are no header, which
    [TarFile.next] passes over.  At [TarCorrupt] reading the next header
    raises [ReadError]: at the start, the stream is no gzip data, is
    empty or begins with bytes that are no header; after a member, the
    stream stops inside the member's last block or the compressed data
    is damaged. *)
Inductive tar_stream :=
| TarEnd
| TarMember (m : TarInfo) (rest : tar_stream)
| TarCorrupt.

Fixpoint stream_of (ms : list TarInfo) : tar_stream :=
  match ms with
  | [] => TarEnd
  | m :: rest => TarMember m (stream_of rest)
  end.

(** [content_length]: [None] when the header is absent, [Some None] when
    [int()] rejects its value. *)
Record response := {
  status_code : Z;
  content_length : option (option Z);
  raw : tar_stream
}.

Inductive yaml_doc :=
| YNull
| YScalar (s : string)
| YSequence (items : list string)
| YMapping (m : gmap string string).

(** The part of the world the programs only read. *)
Record host := {
  getcwd : string;
  environ : gmap string string;
  (** reply to a GET of a URL; [None] is a transport failure *)
  http : string -> option response;
  (** [git clone repo dest]: [None] on success, the bytes captured from
      the standard output of a failed run otherwise *)
  git_clone : string -> string -> option string;
  (** result of executing the Python file at a path: its attributes *)
  exec_module : string -> exn + gmap string string;
  (** result of [yaml.safe_load(open(path))] *)
  yaml_safe_load : string -> exn + yaml_doc;
  (** [geoips.interfaces]: attribute name to [plugin_is_valid] *)
  interfaces : gmap string (string -> bool)
}.

Inductive event :=
| EvPrint (msg : string)
| EvConsole (msg : string) (style : option string)
| EvStderr (msg : string)
| EvHttpGet (url : string) (stream : bool) (timeout : option Z)
| EvExtract (target : string)
| EvOpenWrite (path : string)
| EvGitClone (repo dest : string).

(** The part of the world the programs change. *)
Record state := State {
  fs : gmap string node;
  console : bool;
  trace : list event
}.

Definition set_fs (f : gmap string node) (s : state) : state :=
  State f (console s) (trace s).
Definition set_console (b : bool) (s : state) : state :=
  State (fs s) b (trace s).
Definition log (e : event) (s : state) : state :=
  State (fs s) (console s) (trace s ++ [e]).

(** ** State and exception monad *)

Inductive outcome (A : Type) :=
| Returns (a : A)
| Raises (e : exn).
Arguments Returns {A} a.
Arguments Raises {A} e.

Definition M (A : Type) : Type := state -> outcome A * state.

Definition ret {A} (a : A) : M A := fun s => (Returns a, s).
Definition raise {A} (c : pyclass) (arg : exn_arg) : M A :=
  fun s => (Raises (Raise c arg), s).
Definition reraise {A} (e : exn) : M A := fun s => (Raises e, s).
Definition bind {A B} (m : M A) (k : A -> M B) : M B :=
  fun s => match m s with
           | (Returns a, s') => k a s'
           | (Raises e, s') => (Raises e, s')
           end.
Definition get : M state := fun s => (Returns s, s).
Definition modify (f : state -> state) : M unit := fun s => (Returns tt, f s).
Definition emit (e : event) : M unit := modify (log e).

(** [try: body except cls as e: handler e] *)
Definition try_except {A} (body : M A) (cls : pyclass) (handler : exn -> M A)
  : M A :=
  fun s => match body s with
           | (Returns a, s') => (Returns a, s')
           | (Raises e, s') =>
               if issubclass (exn_class e) cls then handler e s'
               else (Raises e, s')
           end.

Declare Scope py_scope.
Delimit Scope py_scope with py.
Notation "'let*' x ':=' m 'in' k" := (bind m (fun x => k))
  (at level 10, x name, m at level 100, k at level 200) : py_scope.
Notation "m '>>' k" := (bind m (fun _ => k))
  (at level 100, k at level 200, right associativity) : py_scope.
Open Scope py_scope.

(** [print(msg)] *)
Definition print (msg : string) : M unit := emit (EvPrint msg).

(** [argparse]'s [parser.error(msg)]: the message goes to stderr and the
    process exits with status 2. *)
Definition parser_error {A} (msg : string) : M A :=
  emit (EvStderr msg) >> raise SystemExit (ArgInt 2).

(** ** [os] and [open]

    A path is resolved by string, as [abspath] does.  This is what the
    kernel finds when the path is absolute and normalized and its
    ancestors are directories; the statements that depend on what a
    path names say so. *)

Module os.

(** The proper ancestor directories of a normalized absolute path,
    outermost first, the root directory left out:
    ["/a/b/c"] gives [["/a"; "/a/b"]]. *)
Fixpoint upperdirs_from (acc s : string) : list string :=
  match s with
  | EmptyString => []
  | String a s' =>
      if Ascii.eqb a posixpath.sep then
        (if String.eqb acc "" then [] else [acc])
          ++ upperdirs_from (acc +:+ "/") s'
      else upperdirs_from (acc +:+ String a EmptyString) s'
  end.

Definition upperdirs (p : string) : list string := upperdirs_from "" p.

Fixpoint removeprefix (p s : string) : option string :=
  match p, s with
  | EmptyString, _ => Some s
  | String a p', String b s' =>
      if Ascii.eqb a b then removeprefix p' s' else None
  | String _ _, EmptyString => None
  end.

(** [Some n] when [key] is the entry named [n] directly in [dir]. *)
Definition child_name (dir key : string) : option string :=
  let pre := if Str.endswith_char dir posixpath.sep then dir
             else dir +:+ "/" in
  match removeprefix pre key with
  | Some n =>
      if negb (String.eqb n "") && negb (Str.contains "/" n)
      then Some n else None
  | None => None
  end.

Section Host.
Variable h : host.

(** [os.listdir(path)], in no particular order *)
Definition listdir (path : string) : M (list string) :=
  if String.eqb path "" then raise FileNotFoundError (ArgStr path)
  else
    let p := posixpath.abspath (getcwd h) path in
    let* s := get in
    match fs s !! p with
    | Some Dir =>
        ret (omap (fun kv => child_name p (fst kv)) (map_to_list (fs s)))
    | Some (File _) => raise NotADirectoryError (ArgStr path)
    | None => raise FileNotFoundError (ArgStr path)
    end.

(** [open(path, "wb")]: creates or truncates a regular file *)
Definition open_wb (path : string) : M unit :=
  if String.eqb path "" then raise FileNotFoundError (ArgStr path)
  else
    let p := posixpath.abspath (getcwd h) path in
    emit (EvOpenWrite p) >>
    let* s := get in
    match fs s !! p with
    | Some Dir => raise IsADirectoryError (ArgStr path)
    | _ =>
        match List.find (fun d => match fs s !! d with
                                  | Some Dir => false
                                  | _ => true
                                  end) (upperdirs p) with
        | None => modify (set_fs (<[p := File ""]> (fs s)))
        | Some d =>
            match fs s !! d with
            | Some (File _) => raise NotADirectoryError (ArgStr path)
            | _ => raise FileNotFoundError (ArgStr path)
            end
        end
    end.
End Host.

End os.

(** ** [requests] *)

Module requests.
Section Host.
Variable h : host.

(** [requests.get(url, stream=..., timeout=...)]; [timeout = None]
    waits for the server without bound.  When no response is obtained
    [requests] raises a subclass of [RequestException] that depends on
    the failure; [ConnectionError] stands for all of them. *)
Definition get (url : string) (stream : bool) (timeout : option Z)
  : M response :=
  emit (EvHttpGet url stream timeout) >>
  match http h url with
  | Some r => ret r
  | None => raise ConnectionError (ArgStr url)
  end.

(** [r.raise_for_status()] *)
Definition raise_for_status (r : response) : M unit :=
  if (400 <=? status_code r)%Z && (status_code r <? 600)%Z
  then raise HTTPError (ArgInt (status_code r))
  else ret tt.

(** [int(r.headers.get("content-length", 0))] *)
Definition int_content_length (r : response) : M Z :=
  match content_length r with
  | None => ret 0%Z
  | Some (Some n) => ret n
  | Some None => raise ValueError ArgNone
  end.
End Host.
End requests.

(** ** [tarfile]

    The sources call [tar.extract] and [tar.extractall] with no
    [filter=] argument: member names are used as they are stored, so an
    absolute name or one with [..] components is written where it
    points.  The file system holds regular files and directories, keyed
    by absolute normalized path; there are no symbolic links and no
    permissions: every directory can be written to. *)

Module tarfile.

(** Create each missing directory of [dirs], in order; a regular file
    in the way stops the walk with an error, the directories made so
    far staying. *)
Fixpoint makedirs (dirs : list string) (f : gmap string node)
  : gmap string node * option exn :=
  match dirs with
  | [] => (f, None)
  | d :: rest =>
      match f !! d with
      | Some (File _) => (f, Some (Raise NotADirectoryError (ArgStr d)))
      | Some Dir => makedirs rest f
      | None => makedirs rest (<[d := Dir]> f)
      end
  end.

Definition node_of (m : TarInfo) : node :=
  match kind m with
  | REGTYPE => File (data m)
  | DIRTYPE => Dir
  end.

(** [makefile] opens the target for writing, which a directory in its
    place refuses.  [makedir] calls [os.mkdir] and passes over
    [FileExistsError] (CPython 3.11.2), so a regular file already at the
    target stays as it is and the call returns. *)
Definition write_member (m : TarInfo) (target : string)
    (f : gmap string node) : exn + gmap string node :=
  match kind m, f !! target with
  | REGTYPE, Some Dir => inl (Raise IsADirectoryError (ArgStr target))
  | DIRTYPE, Some (File _) => inr f
  | _, _ => inr (<[target := node_of m]> f)
  end.

Section Host.
Variable h : host.

(** Where [tar.extract(m, path)] writes [m]: [join(path, m.name)],
    resolved by string.  For a name that is a normalized relative path
    this is [join(path, m.name)] itself. *)
Definition target_of (path : string) (m : TarInfo) : string :=
  posixpath.abspath (getcwd h) (posixpath.join path (name m)).

(** [tarfile.open(fileobj=raw, mode="r|gz")] reads the first header. *)
Definition open (raw : tar_stream) : M tar_stream :=
  match raw with
  | TarCorrupt => raise ReadError ArgNone
  | _ => ret raw
  end.

(** [tar.extract(m, path=path)] *)
Definition extract (m : TarInfo) (path : string) : M unit :=
  let target := target_of path m in
  emit (EvExtract target) >>
  let* s := get in
  let made := makedirs (os.upperdirs target) (fs s) in
  modify (set_fs (fst made)) >>
  match snd made with
  | Some e => reraise e
  | None =>
      match write_member m target (fst made) with
      | inl e => reraise e
      | inr f2 => modify (set_fs f2)
      end
  end.

(** [tar.extractall(path=path)] *)
Fixpoint extractall (tar : tar_stream) (path : string) : M unit :=
  match tar with
  | TarEnd => ret tt
  | TarCorrupt => raise ReadError ArgNone
  | TarMember m rest => extract m path >> extractall rest path
  end.
End Host.

End tarfile.

(** ** [src/geoips/commandline/geoips_config.py] *)

Module geoips_config.

(** Line 126: [abspath(join(download_dir, m.name)).startswith(download_dir)] *)
Definition isContained (cwd download_dir member_name : string) : bool :=
  Str.startswith
    (posixpath.abspath cwd (posixpath.join download_dir member_name))
    download_dir.

(** [GeoipsConfigInstall.test_dataset_dict] *)
Definition test_dataset_dict : gmap string string :=
  list_to_map
    [ ("test_data_viirs", "https://io.cira.colostate.edu/s/mQ2HbE2Js4E9rba/download/test_data_viirs.tgz");
      ("test_data_smap", "https://io.cira.colostate.edu/s/CezXWwXg4qR2b94/download/test_data_smap.tgz");
      ("test_data_scat", "https://io.cira.colostate.edu/s/HyHLZ9F8bnfcTcd/download/test_data_scat.tgz");
      ("test_data_sar", "https://io.cira.colostate.edu/s/snxx8S5sQL3AL7f/download/test_data_sar.tgz");
      ("test_data_noaa_aws", "https://io.cira.colostate.edu/s/fkiPS3jyrQGqgPN/download/test_data_noaa_aws.tgz");
      ("test_data_gpm", "https://io.cira.colostate.edu/s/LT92NiFSA8ZSNDP/download/test_data_gpm.tgz");
      ("test_data_fusion", "https://io.cira.colostate.edu/s/DSz2nZsiPMDeLEP/download/test_data_fusion.tgz");
      ("test_data_clavrx", "https://io.cira.colostate.edu/s/ACLKdS2Cpgd2qkc/download/test_data_clavrx.tgz");
      ("test_data_amsr2", "https://io.cira.colostate.edu/s/FmWwX2ft7KDQ8N9/download/test_data_amsr2.tgz") ].

Definition unsafe_msg : string := "Found unsafe filepath in tar, exiting now.".

Definition already_exists_msg (dir test_dataset_name : string) : string :=
  "Test dataset '" +:+ test_dataset_name +:+ "' already exists under "
  +:+ "'" +:+ posixpath.join dir test_dataset_name +:+ "'. See that "
  +:+ "location for the contents of the test dataset.".

Definition installing_msg (test_dataset_name : string) : string :=
  "Installing " +:+ test_dataset_name
  +:+ " test dataset. This may take a while...".

Definition installed_msg (dir test_dataset_name : string) : string :=
  "Test dataset '" +:+ test_dataset_name +:+ "' has been installed under "
  +:+ dir +:+ "/" +:+ test_dataset_name +:+ "/".

Definition retrieval_error_msg (url : string) (status : Z) : string :=
  "Error retrieving data from " +:+ url +:+ "; Status Code "
  +:+ Str.of_Z status +:+ ".".

Section GeoipsConfigInstall.
Variable h : host.

(** [GeoipsConfigInstall.geoips_testdata_dir]: the property caches
    [environ["GEOIPS_TESTDATA_DIR"]], which does not change. *)
Definition geoips_testdata_dir : M string :=
  match environ h !! "GEOIPS_TESTDATA_DIR" with
  | Some d => ret d
  | None => raise KeyError (ArgStr "GEOIPS_TESTDATA_DIR")
  end.

(** The body of [with tarfile.open(...) as tar: for m in tar: ...] *)
Fixpoint extract_members (tar : tar_stream) (download_dir : string)
  : M unit :=
  match tar with
  | TarEnd => ret tt
  | TarCorrupt => raise ReadError ArgNone
  | TarMember m rest =>
      (if negb (isContained (getcwd h) download_dir (name m))
       then raise SystemExit (ArgStr unsafe_msg)
       else ret tt) >>
      tarfile.extract h m download_dir >>
      extract_members rest download_dir
  end.

(** [GeoipsConfigInstall.extract_data_cautiously]; it has no
    [return] statement, so its value is [None]. *)
Definition extract_data_cautiously (resp : response)
    (download_dir : string) : M pyval :=
  let* tar := tarfile.open (raw resp) in
  extract_members tar download_dir >>
  ret PyNone.

(** [GeoipsConfigInstall.download_extract_test_data] *)
Definition download_extract_test_data (url download_dir : string)
  : M unit :=
  let* resp := requests.get h url true (Some 15%Z) in
  if (status_code resp =? 200)%Z
  then extract_data_cautiously resp download_dir >> ret tt
  else parser_error (retrieval_error_msg url (status_code resp)).

(** [GeoipsConfigInstall.__call__] *)
Definition __call__ (test_dataset_name : string) : M unit :=
  let* test_dataset_url :=
    match test_dataset_dict !! test_dataset_name with
    | Some u => ret u
    | None => raise KeyError (ArgStr test_dataset_name)
    end in
  let* dir := geoips_testdata_dir in
  let* entries := os.listdir h dir in
  if bool_decide (test_dataset_name ∈ entries) then
    print (already_exists_msg dir test_dataset_name)
  else
    print (installing_msg test_dataset_name) >>
    download_extract_test_data test_dataset_url dir >>
    print (installed_msg dir test_dataset_name).
End GeoipsConfigInstall.

End geoips_config.

(** ** [src/setup/download_test_data.py] *)

Module download_test_data.

Definition unsupported_msg : string :=
  "Error: Cannot handle non-git non-tgz urls.".
Definition failed_msg : string := "Failed to download or extract files.".
Definition success_msg : string :=
  "Files successfully downloaded and extracted.".
Definition downloading_msg (url dest : string) : string :=
  "Downloading and extracting " +:+ url +:+ " to " +:+ dest +:+ "...".

(** [setup_rich_console] *)
Definition setup_rich_console (use_rich : bool) : M unit :=
  modify (set_console use_rich).

(** [output_to_console].  The rich console prints a message without
    [[] as it stands; what it makes of markup is not modelled, and the
    statements about a message that carries a URL or a path are made
    for texts without [[] or for the plain mode. *)
Definition output_to_console (message : string) (style : option string)
  : M unit :=
  let* s := get in
  if console s then emit (EvConsole message style) else print message.

Section Host.
Variable h : host.

(** [subprocess.check_output(["git", "clone", repo_url, destination])] *)
Definition check_output_git_clone (repo_url destination : string)
  : M unit :=
  emit (EvGitClone repo_url destination) >>
  match git_clone h repo_url destination with
  | None => ret tt
  | Some out => raise CalledProcessError (ArgStr out)
  end.

(** [output.decode("utf-8")] *)
Definition decode_utf8 (output : string) : M string :=
  if Str.valid_utf8 output then ret output
  else raise UnicodeDecodeError ArgNone.

(** [download_from_git] *)
Definition download_from_git (repo_url destination : string) : M unit :=
  try_except
    (output_to_console
       ("Cloning repository from " +:+ repo_url +:+ " to "
        +:+ destination +:+ "...") (Some "bold cyan") >>
     check_output_git_clone repo_url destination >>
     output_to_console "Repository successfully cloned."
       (Some "bold green"))
    CalledProcessError
    (fun e =>
       let* output :=
         decode_utf8 (match exn_arg_of e with ArgStr out => out | _ => "" end)
       in
       output_to_console ("Failed to clone repository: " +:+ output)
         (Some "bold red")).

(** [download_and_extract_compressed_tar], with [comp="gz"] *)
Definition download_and_extract_compressed_tar (url dest : string)
  : M unit :=
  output_to_console (downloading_msg url dest) (Some "bold cyan") >>
  try_except
    ((let* r := requests.get h url true None in
      requests.raise_for_status r >>
      let* file_length := requests.int_content_length r in
      os.open_wb h dest >>
      let* tar := tarfile.open (raw r) in
      output_to_console
        "Downloading and extracting {file_length} bytes... "
        (Some "cyan") >>
      tarfile.extractall h tar dest) >>
     output_to_console success_msg (Some "green"))
    Exception
    (fun e =>
       output_to_console failed_msg (Some "bold red") >> reraise e).

(** [main], after argument parsing *)
Definition main (url output_dir : string) (no_rich : bool) : M unit :=
  setup_rich_console (negb no_rich) >>
  if Str.contains ".git" url then download_from_git url output_dir
  else if Str.contains ".tgz" url
  then download_and_extract_compressed_tar url output_dir
  else output_to_console unsupported_msg (Some "bold red").
End Host.

End download_test_data.

(** ** [src/geoips/commandline/geoips_validate.py] *)

Module geoips_validate.

Inductive plugin_obj :=
| ModulePlugin (attrs : gmap string string)
| YamlPlugin (doc : yaml_doc).

Definition err_str (fpath : string) : string :=
  "Plugin found at " +:+ fpath
  +:+ " doesn't have `interface` and/or `plugin` "
  +:+ "attribute[s]. This plugin is invalid.".

(** [plugin.attr] on a module *)
Definition getattr (attrs : gmap string string) (attr : string) : M string :=
  match attrs !! attr with
  | Some v => ret v
  | None => raise AttributeError (ArgStr attr)
  end.

(** [plugin[key]] on what [yaml.safe_load] returned *)
Definition getitem (doc : yaml_doc) (key : string) : M string :=
  match doc with
  | YMapping m =>
      match m !! key with
      | Some v => ret v
      | None => raise KeyError (ArgStr key)
      end
  | _ => raise TypeError ArgNone
  end.

Definition lift {A} (r : exn + A) : M A :=
  match r with
  | inl e => reraise e
  | inr a => ret a
  end.

(** [load_module_from_file], lines 67 to 69: the name under which the
    module is loaded; one is generated from the path when none is
    given. *)
Definition module_name (file_path : string) (given : option string)
  : string :=
  match given with
  | None =>
      "module_from_"
      +:+ Str.replace_char "." "_" (Str.replace_char "/" "_" file_path)
  | Some n => n
  end.

Section GeoipsValidate.
Variable h : host.

(** [GeoipsValidate.validate] *)
Definition validate (fpath : string) : M unit :=
  let* plugin :=
    if String.eqb ".py" (Str.last_chars 3 fpath)
    then let* md := lift (exec_module h fpath) in ret (ModulePlugin md)
    else let* y := lift (yaml_safe_load h fpath) in ret (YamlPlugin y) in
  let* names :=
    try_except
      (match plugin with
       | ModulePlugin attrs =>
           let* interface_name := getattr attrs "interface" in
           let* plugin_name := getattr attrs "name" in
           ret (interface_name, plugin_name)
       | YamlPlugin doc =>
           let* interface_name := getitem doc "interface" in
           let* plugin_name := getitem doc "name" in
           ret (interface_name, plugin_name)
       end)
      (py_or AttributeError KeyError)
      (fun _ => parser_error (err_str fpath)) in
  let* plugin_is_valid :=
    match interfaces h !! fst names with
    | Some i => ret i
    | None => raise AttributeError (ArgStr (fst names))
    end in
  if negb (plugin_is_valid (snd names)) then
    parser_error ("Plugin `" +:+ snd names +:+ "` found at " +:+ fpath
                  +:+ " is invalid.")
  else
    print ("Plugin `" +:+ snd names +:+ "` found at " +:+ fpath
           +:+ " is valid.").
End GeoipsValidate.

End geoips_validate.

(** ** [src/geoips/commandline/geoips_run.py] *)

Module geoips_run.

(** [glob.has_magic]: one of the characters [*], [?], [[] occurs. *)
Fixpoint has_magic (s : string) : bool :=
  match s with
  | EmptyString => false
  | String a s' =>
      Ascii.eqb a "*" || Ascii.eqb a "?" || Ascii.eqb a "[" || has_magic s'
  end.

(** [glob._ishidden] *)
Definition ishidden (n : string) : bool := Str.startswith n ".".

(** [fnmatch] of a name against [*.sh] on POSIX *)
Definition fnmatch_sh (n : string) : bool := Str.endswith n ".sh".

(** [a <= b] on [str]: lexicographic, character by character. *)
Definition str_le (a b : string) : Prop := String.leb a b = true.

#[global] Instance str_le_dec : RelDecision str_le.
Proof. intros a b. unfold str_le. solve_decision. Defined.

(** [sorted] on a list of [str] *)
Definition sorted (l : list string) : list string := merge_sort str_le l.

(** The message of line 51 to 53; [listing] is what the f-string makes
    of [available_scripts]. *)
Definition err_str (script_name script_dir listing : string) : string :=
  "Script name: " +:+ script_name +:+ " doesn't exist under '"
  +:+ script_dir +:+ ". "
  +:+ "If you want to try again with this package, try one of these "
  +:+ "scripts instead: " +:+ String "010" " " +:+ listing.

Section GeoipsRun.
Variable h : host.
(** [str(resources.files(pkg_name))]: the directory of the package as
    an absolute path, or the error of importing it *)
Variable files : string -> exn + string.
(** [glob(pattern)] for a pattern whose directory part holds pattern
    characters *)
Variable glob_magic_dir : string -> M (list string).
(** [str] of a list of strings, as an f-string renders it *)
Variable repr : list string -> string.
(** [subprocess.call(cmd, shell=True)]: runs [cmd] in a shell, which may
    do anything, and returns its exit status *)
Variable call : string -> M Z.

(** [glob(f"{script_dir}/*.sh")] for a non-empty [script_dir]: the
    entries of the directory whose names end in [.sh] and do not start
    with a dot, each joined to [script_dir]; a directory that cannot be
    listed gives no path. *)
Definition glob_sh (script_dir : string) : M (list string) :=
  if has_magic script_dir then glob_magic_dir (script_dir +:+ "/*.sh")
  else
    let* names :=
      try_except (os.listdir h script_dir) OSError (fun _ => ret []) in
    ret (map (posixpath.join script_dir)
           (List.filter (fun n => negb (ishidden n) && fnmatch_sh n) names)).

(** [GeoipsRun.__call__]; for an absolute package directory the path
    [resources.files(pkg_name) / "../tests/scripts"] is the [join] of
    the two. *)
Definition __call__ (pkg_name script_name : string) : M Z :=
  let* pkg_dir := geoips_validate.lift (files pkg_name) in
  let script_dir := posixpath.join pkg_dir "../tests/scripts" in
  let* paths := glob_sh script_dir in
  let available_scripts := sorted (map posixpath.basename paths) in
  (if negb (bool_decide (script_name ∈ available_scripts))
   then parser_error
          (err_str script_name script_dir (repr available_scripts))
   else ret tt) >>
  let script_path := script_dir +:+ "/" +:+ script_name in
  call script_path.
End GeoipsRun.

End geoips_run.

(** ** Observing a run *)

(** The events a run from [s] to [s'] appended. *)
Definition new_events (s s' : state) : list event :=
  drop (length (trace s)) (trace s').

Definition is_get (e : event) : bool :=
  match e with EvHttpGet _ _ _ => true | _ => false end.
Definition is_extract (e : event) : bool :=
  match e with EvExtract _ => true | _ => false end.
Definition is_clone (e : event) : bool :=
  match e with EvGitClone _ _ => true | _ => false end.

(** [report s msg style]: what [output_to_console] appends in [s]. *)
Definition report (s : state) (msg : string) (style : option string) : event :=
  if console s then EvConsole msg style else EvPrint msg.

(** Containment by path segments, for a normalized [root]: [p] is
    [root] or lies below it. *)
Definition inside (root p : string) : bool :=
  String.eqb p root ||
  Str.startswith p
    (if Str.endswith_char root posixpath.sep then root else root +:+ "/").

(** The members an iteration over the stream yields. *)
Fixpoint members_of (tar : tar_stream) : list TarInfo :=
  match tar with
  | TarMember m rest => m :: members_of rest
  | _ => []
  end.

(** ** Predicates used in the statements *)

(** [m] only appends events satisfying [P] and keeps the console flag. *)
Definition appends {A : Type} (P : event -> Prop) (m : M A) : Prop :=
  forall s, exists l, trace (snd (m s)) = trace s ++ l /\ Forall P l
                      /\ console (snd (m s)) = console s.

Definition not_get (e : event) : Prop := is_get e = false.
Definition not_clone (e : event) : Prop := is_clone e = false.
Definition not_extract (e : event) : Prop := is_extract e = false.

(** Number of leading separators. *)
Fixpoint lead (s : string) : nat :=
  match s with
  | String a s' => if Ascii.eqb a posixpath.sep then S (lead s') else 0
  | EmptyString => 0
  end.

(** A component that the loop of [normpath] keeps. *)
Definition clean (c : string) : bool :=
  negb (String.eqb c "" || String.eqb c ".").

(** Components of a normalized path contain no separator. *)
Fixpoint has_char (c : ascii) (s : string) : bool :=
  match s with
  | EmptyString => false
  | String a s' => Ascii.eqb a c || has_char c s'
  end.

Definition comp_ok (w : string) : Prop :=
  w <> "" /\ has_char posixpath.sep w = false.

(** A name that is a normalized relative path: no empty component, no
    [.] and no [..]. *)
Definition normal_name (n : string) : bool :=
  forallb (fun c => clean c && negb (String.eqb c ".."))
    (Str.split posixpath.sep n).

Definition is_dir (n : option node) : bool :=
  match n with Some Dir => true | _ => false end.

(** [p] is an absolute normalized path and its proper ancestors are
    directories of [f]: the kernel then finds at [p] what [f] holds
    under the key [p]. *)
Definition reachable (f : gmap string node) (p : string) : bool :=
  posixpath.isabs p && String.eqb (posixpath.normpath p) p
  && forallb (fun d => is_dir (f !! d)) (os.upperdirs p).


(** A text the rich console prints as it stands. *)
Definition no_markup (s : string) : bool := negb (Str.contains "[" s).

(** ** Archives built from a list of members *)

(** The stream that yields [ms] and then goes on as [tl]. *)
Fixpoint prepend (ms : list TarInfo) (tl : tar_stream) : tar_stream :=
  match ms with
  | [] => tl
  | m :: rest => TarMember m (prepend rest tl)
  end.

(** What a path names: nothing, a directory, or a regular file. *)
Definition is_file (n : option node) : bool :=
  match n with Some (File _) => true | _ => false end.

Definition is_console (e : event) : bool :=
  match e with EvConsole _ _ => true | _ => false end.
Definition is_print (e : event) : bool :=
  match e with EvPrint _ => true | _ => false end.

(** Started with the console flag [b], [m] only appends events
    satisfying [P] and keeps the flag. *)
Definition appends_in {A : Type} (b : bool) (P : event -> Prop) (m : M A)
  : Prop :=
  forall s, console s = b ->
    exists l, trace (snd (m s)) = trace s ++ l /\ Forall P l
              /\ console (snd (m s)) = b.

(** The events that do not belong to the reporting mode [b]: plain
    [print] when the rich console is on, console output when it is off. *)
Definition in_mode (b : bool) (e : event) : Prop :=
  (if b then is_print e else is_console e) = false.


(** The plugin at [fpath] loads, as a module or as a YAML mapping by
    its suffix, and carries the interface name [iname] and the plugin
    name [pname]. *)
Definition well_formed_plugin (h : host) (fpath iname pname : string)
  : Prop :=
  if String.eqb ".py" (Str.last_chars 3 fpath)
  then exists attrs, exec_module h fpath = inr attrs
                     /\ attrs !! "interface" = Some iname
                     /\ attrs !! "name" = Some pname
  else exists m, yaml_safe_load h fpath = inr (YMapping m)
                 /\ m !! "interface" = Some iname
                 /\ m !! "name" = Some pname.

(** ** Concrete scenarios *)

Definition file_member (n c : string) : TarInfo :=
  {| name := n; kind := REGTYPE; data := c |}.

Definition ok_response (ms : list TarInfo) : response :=
  {| status_code := 200; content_length := None; raw := stream_of ms |}.

Definition not_found_response : response :=
  {| status_code := 404; content_length := None; raw := TarCorrupt |}.

(** A host in [/] whose test-data directory is [/data] and whose server
    answers every GET with [reply]. *)
Definition demo_host (reply : option response) : host :=
  {| getcwd := "/";
     environ := {[ "GEOIPS_TESTDATA_DIR" := "/data" ]};
     http := fun _ => reply;
     git_clone := fun _ _ => None;
     exec_module := fun _ => inr {[ "interface" := "readers" ]};
     yaml_safe_load := fun _ => inr (YMapping {[ "interface" := "readers" ]});
     interfaces := {[ "readers" := fun _ => true ]} |}.

(** Only the directory [/data] exists. *)
Definition data_only : state := State {[ "/data" := Dir ]} false [].

Definition sibling_archive : list TarInfo :=
  [file_member "a.txt" "A"; file_member "../data2/x" "X"].

Definition escape_archive : list TarInfo :=
  [file_member "a.txt" "A"; file_member "../escape" "E"].

Definition absolute_archive : list TarInfo := [file_member "/tmp/evil" "E"].

Definition two_files (ca cb : string) : list TarInfo :=
  [file_member "a.txt" ca; file_member "sub/b.txt" cb].

Definition viirs_archive : list TarInfo :=
  [ {| name := "test_data_viirs"; kind := DIRTYPE; data := "" |};
    file_member "test_data_viirs/README" "viirs" ].

(** * Lemmas *)

(** ** The model agrees with CPython on examples *)

Example split_ex : Str.split "/" "/data/sub//b.txt" = [""; "data"; "sub"; ""; "b.txt"].
Proof. reflexivity. Qed.

Example normpath_ex1 : posixpath.normpath "/data/sub/../../etc" = "/etc".
Proof. reflexivity. Qed.

Example normpath_ex2 : posixpath.normpath "a/../../b/./c/" = "../b/c".
Proof. reflexivity. Qed.

Example normpath_ex3 : posixpath.normpath "//x/.." = "//"
                       /\ posixpath.normpath "///x/../y" = "/y"
                       /\ posixpath.normpath "/.." = "/"
                       /\ posixpath.normpath "a/.." = ".".
Proof. repeat split; reflexivity. Qed.

Example join_ex : posixpath.join "/data" "x" = "/data/x"
                  /\ posixpath.join "/data/" "x" = "/data/x"
                  /\ posixpath.join "/data" "/etc/passwd" = "/etc/passwd"
                  /\ posixpath.join "/data" "" = "/data/".
Proof. repeat split; reflexivity. Qed.

Example str_of_Z_ex : Str.of_Z 404 = "404" /\ Str.last_chars 3 "a/b.py" = ".py"
                      /\ Str.last_chars 3 "py" = "py".
Proof. repeat split; reflexivity. Qed.

(** ** Strings and [posixpath] *)

Lemma app_cons a (s t : string) : String a s +:+ t = String a (s +:+ t).
Proof. reflexivity. Qed.

Lemma app_empty_l (t : string) : "" +:+ t = t.
Proof. reflexivity. Qed.

Lemma app_empty_r (s : string) : s +:+ "" = s.
Proof. induction s as [|a s IH]; [done|]. by rewrite app_cons, IH. Qed.

Lemma app_assoc_s (s t u : string) : s +:+ (t +:+ u) = (s +:+ t) +:+ u.
Proof. induction s as [|a s IH]; [done|]. by rewrite !app_cons, IH. Qed.

Lemma removeprefix_app pre n : os.removeprefix pre (pre +:+ n) = Some n.
Proof.
  induction pre as [|a pre IH]; simpl; [by destruct n|].
  by rewrite Ascii.eqb_refl.
Qed.

Lemma normpath_nonempty path : posixpath.normpath path <> "".
Proof.
  unfold posixpath.normpath.
  destruct (String.eqb path ""); [done|].
  destruct (String.eqb _ "") eqn:He; [done|].
  by apply String.eqb_neq in He.
Qed.

Lemma join_simple p n :
  p <> "" -> Str.startswith n "/" = false ->
  posixpath.join p n
  = (if Str.endswith_char p posixpath.sep then p else p +:+ "/") +:+ n.
Proof.
  intros Hp Hn. unfold posixpath.join. rewrite Hn.
  apply String.eqb_neq in Hp. rewrite Hp. simpl.
  destruct (Str.endswith_char p posixpath.sep); [done|].
  apply app_assoc_s.
Qed.

Lemma contains_slash_startswith n :
  Str.contains "/" n = false -> Str.startswith n "/" = false.
Proof.
  destruct n as [|a n]; [done|]. simpl. unfold Str.startswith. simpl.
  by intros [? _]%orb_false_iff.
Qed.

Lemma child_name_join p n :
  p <> "" -> n <> "" -> Str.contains "/" n = false ->
  os.child_name p (posixpath.join p n) = Some n.
Proof.
  intros Hp Hn Hc. rewrite join_simple by auto using contains_slash_startswith.
  unfold os.child_name. rewrite removeprefix_app, Hc.
  apply String.eqb_neq in Hn. by rewrite Hn.
Qed.

Lemma prefix_spec (p s : string) :
  String.prefix p s = true <-> exists r, s = p +:+ r.
Proof.
  revert s. induction p as [|a p IH]; intros [|b s]; simpl.
  - split; [by exists ""|done].
  - split; [by exists (String b s)|done].
  - split; [done|]. by intros [r [=]].
  - destruct (Ascii.ascii_dec a b) as [->|Hne].
    + rewrite IH. split; intros [r Hr]; exists r.
      * by rewrite app_cons, Hr.
      * rewrite app_cons in Hr. by injection Hr.
    + split; [done|]. intros [r Hr]. rewrite app_cons in Hr.
      injection Hr as ? ?. congruence.
Qed.

Lemma startswith_app (p r : string) : Str.startswith (p +:+ r) p = true.
Proof. apply prefix_spec. by exists r. Qed.

Lemma startswith_trans (s p q : string) :
  Str.startswith s p = true -> Str.startswith p q = true ->
  Str.startswith s q = true.
Proof.
  unfold Str.startswith. rewrite !prefix_spec.
  intros [r ->] [r' ->]. exists (r' +:+ r). by rewrite app_assoc_s.
Qed.

Lemma split_cons c (s : string) : exists w ws, Str.split c s = w :: ws.
Proof.
  induction s as [|a s (w & ws & IH)]; simpl; [by eauto|].
  destruct (Ascii.eqb a c); [by eauto|]. rewrite IH. by eauto.
Qed.

Lemma split_app_sep c (a b : string) :
  Str.split c (a +:+ String c b) = Str.split c a ++ Str.split c b.
Proof.
  induction a as [|x a IH]; rewrite ?app_cons, ?app_empty_l; simpl.
  - rewrite Ascii.eqb_refl. reflexivity.
  - destruct (Ascii.eqb x c); rewrite IH; [reflexivity|].
    destruct (split_cons c a) as (w & ws & ->). reflexivity.
Qed.

Lemma endswith_char_inv (s : string) c :
  Str.endswith_char s c = true -> exists r, s = r +:+ String c "".
Proof.
  induction s as [|a s IH]; [done|]. simpl.
  destruct s as [|b s].
  - intros ->%Ascii.eqb_eq. by exists "".
  - intros [r Hr]%IH. exists (String a r). by rewrite app_cons, <- Hr.
Qed.

Lemma prefix_cons_eqb c (p : string) a (s : string) :
  String.prefix (String c p) (String a s)
  = Ascii.eqb a c && String.prefix p s.
Proof.
  simpl. destruct (Ascii.ascii_dec c a) as [->|Hne].
  - by rewrite Ascii.eqb_refl.
  - destruct (Ascii.eqb a c) eqn:H; [|done].
    apply Ascii.eqb_eq in H. congruence.
Qed.

Lemma prefix_nil_r c (p : string) : String.prefix (String c p) "" = false.
Proof. reflexivity. Qed.

Lemma prefix_nil_l (s : string) : String.prefix "" s = true.
Proof. by destruct s. Qed.

Lemma initial_slashes_lead s :
  posixpath.initial_slashes s
  = match lead s with 0 => 0 | 2 => 2 | _ => 1 end.
Proof.
  unfold posixpath.initial_slashes, Str.startswith, posixpath.sep.
  destruct s as [|a [|b [|c s]]];
    rewrite ?prefix_cons_eqb, ?prefix_nil_r, ?prefix_nil_l;
    cbn [lead]; unfold posixpath.sep;
    repeat match goal with
           | |- context [Ascii.eqb ?x "/"] => destruct (Ascii.eqb x "/")
           end; cbn [andb negb]; try reflexivity.
  all: by destruct (lead s).
Qed.

Lemma lead_le_length s : lead s <= String.length s.
Proof.
  induction s as [|a s IH]; simpl; [lia|].
  destruct (Ascii.eqb a posixpath.sep); simpl; lia.
Qed.

Lemma lead_app (a b : string) :
  lead (a +:+ b)
  = if Nat.eqb (lead a) (String.length a) then String.length a + lead b
    else lead a.
Proof.
  induction a as [|x a IH]; [done|]. rewrite app_cons. simpl.
  destruct (Ascii.eqb x posixpath.sep); [|done]. rewrite IH. simpl.
  by destruct (Nat.eqb (lead a) (String.length a)).
Qed.

Lemma lead_all_endswith s :
  s <> "" -> lead s = String.length s ->
  Str.endswith_char s posixpath.sep = true.
Proof.
  induction s as [|a s IH]; [done|]. intros _. simpl.
  destruct (Ascii.eqb a posixpath.sep) eqn:Ha.
  - intros [= Hl]. destruct s as [|b s]; [done|]. by apply IH.
  - pose proof (lead_le_length s). lia.
Qed.

Lemma lead_not_startswith m : Str.startswith m "/" = false -> lead m = 0.
Proof.
  destruct m as [|a m]; [done|]. unfold Str.startswith.
  rewrite prefix_cons_eqb, prefix_nil_l, andb_true_r. simpl.
  unfold posixpath.sep. by intros ->.
Qed.

Lemma length_app_s (a b : string) :
  String.length (a +:+ b) = String.length a + String.length b.
Proof. induction a as [|x a IH]; [done|]. rewrite app_cons. simpl. lia. Qed.

Lemma normpath_step_plain k st c :
  c <> ".." ->
  posixpath.normpath_step k st c = if clean c then st ++ [c] else st.
Proof.
  intros Hc. unfold posixpath.normpath_step, clean.
  destruct (String.eqb c "" || String.eqb c "."); [done|].
  apply String.eqb_neq in Hc. by rewrite Hc.
Qed.

Lemma fold_plain k l : forall st,
  ".." ∉ l ->
  fold_left (posixpath.normpath_step k) l st = st ++ List.filter clean l.
Proof.
  induction l as [|c l IH]; intros st Hl; simpl; [by rewrite app_nil_r|].
  apply not_elem_of_cons in Hl as [Hc Hl].
  rewrite normpath_step_plain by done. rewrite IH by done.
  destruct (clean c); [|done]. by rewrite <- app_assoc.
Qed.

Lemma initial_slashes_abs path :
  posixpath.isabs path = true ->
  exists k, posixpath.initial_slashes path = S k.
Proof.
  unfold posixpath.isabs, posixpath.initial_slashes. intros ->.
  destruct (_ && _); by eauto.
Qed.

Lemma normpath_abs path :
  posixpath.isabs path = true ->
  posixpath.normpath path
  = Str.replicate_char posixpath.sep (posixpath.initial_slashes path)
    +:+ Str.join "/"
          (fold_left (posixpath.normpath_step (posixpath.initial_slashes path))
             (Str.split posixpath.sep path) []).
Proof.
  intros Habs. unfold posixpath.normpath.
  destruct (initial_slashes_abs path Habs) as [k Hk].
  destruct path as [|a path]; [done|].
  change (String.eqb (String a path) "") with false. cbv iota zeta.
  rewrite Hk. by cbn [Str.replicate_char].
Qed.

Lemma isabs_app (a b : string) :
  posixpath.isabs a = true -> posixpath.isabs (a +:+ b) = true.
Proof.
  unfold posixpath.isabs, Str.startswith. rewrite !prefix_spec.
  intros [r ->]. exists (r +:+ b). by rewrite app_assoc_s.
Qed.

Lemma isabs_nonempty a : posixpath.isabs a = true -> a <> "".
Proof. by destruct a. Qed.

Lemma join_app_prefix (C E : list string) :
  exists r, Str.join "/" (C ++ E) = Str.join "/" C +:+ r.
Proof.
  induction C as [|x C IH]; [by exists (Str.join "/" E)|].
  destruct C as [|y C].
  - destruct E as [|e E]; [exists ""; by rewrite app_empty_r|].
    eexists. reflexivity.
  - destruct IH as [r Hr]. exists r.
    change (Str.join "/" ((x :: y :: C) ++ E))
      with (x +:+ "/" +:+ Str.join "/" ((y :: C) ++ E)).
    change (Str.join "/" (x :: y :: C))
      with (x +:+ "/" +:+ Str.join "/" (y :: C)).
    rewrite Hr. by rewrite <- !app_assoc_s.
Qed.

Lemma join_app_nonempty (C E : list string) :
  C <> [] -> E <> [] ->
  Str.join "/" (C ++ E) = Str.join "/" C +:+ "/" +:+ Str.join "/" E.
Proof.
  intros HC HE. induction C as [|x C IH]; [done|].
  destruct C as [|y C].
  - by destruct E.
  - change (Str.join "/" ((x :: y :: C) ++ E))
      with (x +:+ "/" +:+ Str.join "/" ((y :: C) ++ E)).
    change (Str.join "/" (x :: y :: C))
      with (x +:+ "/" +:+ Str.join "/" (y :: C)).
    rewrite IH by done. by rewrite <- !app_assoc_s.
Qed.

Lemma endswith_replicate c n :
  Str.endswith_char (Str.replicate_char c (S n)) c = true.
Proof.
  induction n as [|n IH]; simpl; [apply Ascii.eqb_refl|]. exact IH.
Qed.

Lemma startswith_refl (s : string) : Str.startswith s s = true.
Proof. apply prefix_spec. exists "". by rewrite app_empty_r. Qed.

Section NormJoin.
Variables root m : string.
Hypothesis Habs : posixpath.isabs root = true.
Hypothesis Hnorm : posixpath.normpath root = root.
Hypothesis Hrel : posixpath.isabs m = false.

Let k := posixpath.initial_slashes root.
Let C := fold_left (posixpath.normpath_step k)
           (Str.split posixpath.sep root) [].

Lemma root_shape : root = Str.replicate_char posixpath.sep k +:+ Str.join "/" C.
Proof. rewrite <- Hnorm at 1. by apply normpath_abs. Qed.

Lemma join_root_shape :
  posixpath.join root m
  = (if Str.endswith_char root posixpath.sep then root else root +:+ "/")
    +:+ m.
Proof. apply join_simple; [by apply isabs_nonempty|done]. Qed.

Lemma join_root_isabs : posixpath.isabs (posixpath.join root m) = true.
Proof.
  rewrite join_root_shape. apply isabs_app.
  destruct (Str.endswith_char root posixpath.sep); [done|].
  by apply isabs_app.
Qed.

Lemma join_root_initial_slashes :
  posixpath.initial_slashes (posixpath.join root m) = k.
Proof.
  subst k. rewrite !initial_slashes_lead.
  assert (lead (posixpath.join root m) = lead root) as ->; [|done].
  rewrite join_root_shape.
  pose proof (lead_not_startswith m Hrel) as Hm.
  pose proof (isabs_nonempty root Habs) as Hne.
  destruct (Str.endswith_char root posixpath.sep) eqn:Hend.
  - rewrite lead_app, Hm.
    destruct (Nat.eqb (lead root) (String.length root)) eqn:He; [|done].
    apply Nat.eqb_eq in He. lia.
  - assert (lead root <> String.length root) as Hlt.
    { intros He. by rewrite (lead_all_endswith root Hne He) in Hend. }
    rewrite <- app_assoc_s, lead_app.
    apply Nat.eqb_neq in Hlt. by rewrite Hlt.
Qed.

Lemma join_root_fold :
  fold_left (posixpath.normpath_step k)
    (Str.split posixpath.sep (posixpath.join root m)) []
  = fold_left (posixpath.normpath_step k) (Str.split posixpath.sep m) C.
Proof.
  rewrite join_root_shape. subst C.
  destruct (Str.endswith_char root posixpath.sep) eqn:Hend.
  - apply endswith_char_inv in Hend as [r0 Hr0]. rewrite Hr0.
    rewrite <- app_assoc_s.
    change (String posixpath.sep "" +:+ m) with (String posixpath.sep m).
    rewrite !split_app_sep, !fold_left_app. reflexivity.
  - rewrite <- app_assoc_s.
    change ("/" +:+ m) with (String posixpath.sep m).
    by rewrite split_app_sep, fold_left_app.
Qed.

Lemma normpath_join_root :
  posixpath.normpath (posixpath.join root m)
  = Str.replicate_char posixpath.sep k
    +:+ Str.join "/"
          (fold_left (posixpath.normpath_step k)
             (Str.split posixpath.sep m) C).
Proof.
  rewrite (normpath_abs _ join_root_isabs).
  by rewrite join_root_initial_slashes, join_root_fold.
Qed.

Hypothesis Hplain : ".." ∉ Str.split posixpath.sep m.

Lemma normpath_join_plain :
  posixpath.normpath (posixpath.join root m)
  = Str.replicate_char posixpath.sep k
    +:+ Str.join "/" (C ++ List.filter clean (Str.split posixpath.sep m)).
Proof. rewrite normpath_join_root. by rewrite fold_plain. Qed.

Lemma plain_member_startswith_root :
  Str.startswith (posixpath.normpath (posixpath.join root m)) root = true.
Proof.
  rewrite normpath_join_plain.
  destruct (join_app_prefix C
              (List.filter clean (Str.split posixpath.sep m))) as [r ->].
  rewrite app_assoc_s, <- root_shape. apply startswith_app.
Qed.

Lemma plain_member_inside :
  inside root (posixpath.normpath (posixpath.join root m)) = true.
Proof.
  rewrite normpath_join_plain. unfold inside. apply orb_true_iff.
  set (E := List.filter clean (Str.split posixpath.sep m)).
  destruct E as [|e E].
  { left. rewrite app_nil_r, <- root_shape. apply String.eqb_refl. }
  right. destruct C as [|c C'] eqn:HC.
  - pose proof root_shape as Hroot. rewrite HC in Hroot.
    cbn [Str.join] in Hroot. rewrite app_empty_r in Hroot.
    destruct (initial_slashes_abs root Habs) as [k' Hk'].
    assert (Str.endswith_char root posixpath.sep = true) as ->.
    { rewrite Hroot. subst k. rewrite Hk'. apply endswith_replicate. }
    eapply startswith_trans; [apply startswith_app|].
    rewrite <- Hroot. apply startswith_refl.
  - rewrite <- HC. rewrite join_app_nonempty by (by rewrite ?HC).
    rewrite app_assoc_s, <- root_shape.
    destruct (Str.endswith_char root posixpath.sep).
    + apply startswith_app.
    + rewrite app_assoc_s. apply startswith_app.
Qed.
End NormJoin.

Lemma inside_startswith root p :
  inside root p = true -> Str.startswith p root = true.
Proof.
  unfold inside. intros [->%String.eqb_eq|H]%orb_true_iff.
  - apply startswith_refl.
  - destruct (Str.endswith_char root posixpath.sep); [done|].
    eapply startswith_trans; [exact H|apply startswith_app].
Qed.

(** ** Components of a normalized path *)

Lemma split_no_sep c (s : string) :
  Forall (fun w => has_char c w = false) (Str.split c s).
Proof.
  induction s as [|a s IH]; simpl; [by repeat constructor|].
  destruct (Ascii.eqb a c) eqn:Ha; [by constructor|].
  destruct (split_cons c s) as (w & ws & Hs). rewrite Hs in *.
  apply Forall_cons in IH as [Hw Hws].
  constructor; [|done]. simpl. by rewrite Ha.
Qed.

Lemma Forall_removelast {A} (P : A -> Prop) (l : list A) :
  Forall P l -> Forall P (removelast l).
Proof.
  induction 1 as [|x l Hx Hl IH]; simpl; [done|].
  destruct l; [done|]. by constructor.
Qed.

Lemma normpath_step_ok k st c :
  Forall comp_ok st -> has_char posixpath.sep c = false ->
  Forall comp_ok (posixpath.normpath_step k st c).
Proof.
  intros Hst Hc. unfold posixpath.normpath_step.
  destruct (String.eqb c "") eqn:He; [done|]. apply String.eqb_neq in He.
  destruct (String.eqb c "."); [done|]. cbn [orb].
  destruct (_ || _).
  - apply Forall_app. split; [done|]. by repeat constructor.
  - destruct (negb _); [by apply Forall_removelast|done].
Qed.

Lemma normpath_fold_ok k l : forall st,
  Forall comp_ok st -> Forall (fun w => has_char posixpath.sep w = false) l ->
  Forall comp_ok (fold_left (posixpath.normpath_step k) l st).
Proof.
  induction l as [|c l IH]; intros st Hst Hl; simpl; [done|].
  apply Forall_cons in Hl as [Hc Hl].
  apply IH; [|done]. by apply normpath_step_ok.
Qed.

Lemma endswith_has_char (w : string) c :
  Str.endswith_char w c = true -> has_char c w = true.
Proof.
  induction w as [|a w IH]; [done|]. simpl.
  destruct w as [|b w]; [by intros ->|].
  intros H. rewrite (IH H). by rewrite orb_true_r.
Qed.

Lemma endswith_app (a b : string) c :
  b <> "" -> Str.endswith_char (a +:+ b) c = Str.endswith_char b c.
Proof.
  intros Hb. induction a as [|x a IH]; [done|]. rewrite app_cons. simpl.
  destruct (a +:+ b) eqn:Hab; [|done].
  destruct a; [|done]. by rewrite app_empty_l in Hab.
Qed.

Lemma join_ok_nonempty (C : list string) :
  C <> [] -> Forall comp_ok C -> Str.join "/" C <> "".
Proof.
  destruct C as [|x [|y C]]; [done| |].
  - intros _ [[Hx _] _]%Forall_cons. done.
  - intros _ [[Hx _] _]%Forall_cons.
    change (Str.join "/" (x :: y :: C))
      with (x +:+ "/" +:+ Str.join "/" (y :: C)).
    by destruct x.
Qed.

Lemma endswith_join_ok (C : list string) :
  C <> [] -> Forall comp_ok C ->
  Str.endswith_char (Str.join "/" C) posixpath.sep = false.
Proof.
  induction C as [|x C IH]; [done|]. intros _ [[Hx Hc] HC]%Forall_cons.
  destruct C as [|y C].
  - simpl. destruct (Str.endswith_char x posixpath.sep) eqn:He; [|done].
    apply endswith_has_char in He. congruence.
  - change (Str.join "/" (x :: y :: C))
      with (x +:+ "/" +:+ Str.join "/" (y :: C)).
    rewrite app_assoc_s, endswith_app; [by apply IH|].
    by apply join_ok_nonempty.
Qed.

Lemma join_split c (s : string) :
  Str.join (String c "") (Str.split c s) = s.
Proof.
  induction s as [|a s IH]; [done|]. simpl.
  destruct (split_cons c s) as (w & ws & Hs). rewrite Hs in *.
  destruct (Ascii.eqb a c) eqn:Ha.
  - apply Ascii.eqb_eq in Ha as ->.
    change (Str.join (String c "") ("" :: w :: ws))
      with ("" +:+ String c "" +:+ Str.join (String c "") (w :: ws)).
    by rewrite IH.
  - destruct ws as [|w' ws]; simpl in *; [by rewrite IH|].
    rewrite <- IH. reflexivity.
Qed.

Lemma filter_all_clean (l : list string) :
  Forall (fun c => clean c = true) l -> List.filter clean l = l.
Proof.
  induction 1 as [|c l Hc _ IH]; simpl; [done|]. by rewrite Hc, IH.
Qed.

Lemma normal_name_relative m :
  Forall (fun c => clean c = true /\ c <> "..") (Str.split posixpath.sep m) ->
  posixpath.isabs m = false.
Proof.
  intros Hm. destruct (split_cons posixpath.sep m) as (w & ws & Hs).
  rewrite Hs in Hm. apply Forall_cons in Hm as [[Hw _] _].
  destruct m as [|a m]; [done|]. unfold posixpath.isabs, Str.startswith.
  rewrite prefix_cons_eqb, prefix_nil_l, andb_true_r.
  destruct (Ascii.eqb a "/") eqn:Ha; [|done].
  simpl in Hs. unfold posixpath.sep in Hs. rewrite Ha in Hs.
  by injection Hs as <- _.
Qed.

(** A member whose name is a normalized relative path lands at
    [join(root, name)]. *)
Lemma normpath_join_normal root m :
  posixpath.isabs root = true -> posixpath.normpath root = root ->
  Forall (fun c => clean c = true /\ c <> "..") (Str.split posixpath.sep m) ->
  posixpath.normpath (posixpath.join root m) = posixpath.join root m.
Proof.
  intros Habs Hnorm Hm.
  pose proof (normal_name_relative m Hm) as Hrel.
  assert (".." ∉ Str.split posixpath.sep m) as Hplain.
  { intros Hin. rewrite Forall_forall in Hm. by destruct (Hm _ Hin). }
  rewrite (normpath_join_plain root m Habs Hrel Hplain).
  rewrite filter_all_clean
    by (eapply Forall_impl; [exact Hm|]; by intros ? [? _]).
  rewrite (join_root_shape root m Habs Hrel).
  pose proof (root_shape root Habs Hnorm) as Hroot.
  set (k := posixpath.initial_slashes root) in *.
  set (C := fold_left (posixpath.normpath_step k)
              (Str.split posixpath.sep root) []) in *.
  assert (Forall comp_ok C) as HC.
  { apply normpath_fold_ok; [done|apply split_no_sep]. }
  destruct (initial_slashes_abs root Habs) as [k' Hk']. fold k in Hk'.
  destruct C as [|c C'] eqn:HCeq.
  - cbn [Str.join] in Hroot. rewrite app_empty_r in Hroot.
    assert (Str.endswith_char root posixpath.sep = true) as ->.
    { rewrite Hroot, Hk'. apply endswith_replicate. }
    rewrite app_nil_l. change "/" with (String posixpath.sep "").
    by rewrite join_split, <- Hroot.
  - assert (Str.endswith_char root posixpath.sep = false) as ->.
    { rewrite Hroot, endswith_app; [by apply endswith_join_ok|].
      by apply join_ok_nonempty. }
    destruct (split_cons posixpath.sep m) as (w & ws & Hs).
    rewrite join_app_nonempty by (by rewrite ?Hs).
    change "/" with (String posixpath.sep "") at 3.
    rewrite join_split.
    by rewrite !app_assoc_s, <- Hroot.
Qed.

(** ** Executing the monad *)

Ltac run :=
  repeat (progress (cbn [fst snd];
    unfold bind, ret, raise, reraise, emit, modify, get, print,
           parser_error, try_except in *; cbn beta iota)).

Lemma new_events_app s s' (l : list event) :
  trace s' = trace s ++ l -> new_events s s' = l.
Proof.
  unfold new_events. intros ->. by rewrite drop_app_length.
Qed.

Lemma output_to_console_run msg style s :
  download_test_data.output_to_console msg style s
  = (Returns tt, log (report s msg style) s).
Proof.
  unfold download_test_data.output_to_console, report. run.
  by destruct (console s).
Qed.

(** ** [os.listdir] and the catalog *)

Lemma listdir_run (h : host) path (s : state) :
  path <> "" ->
  fs s !! posixpath.abspath (getcwd h) path = Some Dir ->
  exists entries,
    os.listdir h path s = (Returns entries, s)
    /\ forall n, n ∈ entries <->
         exists key, is_Some (fs s !! key)
                     /\ os.child_name (posixpath.abspath (getcwd h) path) key
                        = Some n.
Proof.
  intros Hp Hdir. unfold os.listdir.
  apply String.eqb_neq in Hp. rewrite Hp. run. rewrite Hdir.
  eexists. split; [reflexivity|].
  intros n. rewrite list_elem_of_omap. split.
  - intros ([key v] & Hkv & Hn). exists key. split; [|done].
    apply elem_of_map_to_list in Hkv. by eauto.
  - intros (key & [v Hv] & Hn). exists (key, v). split; [|done].
    by apply elem_of_map_to_list.
Qed.

Lemma catalog_name_simple name url :
  geoips_config.test_dataset_dict !! name = Some url ->
  name <> "" /\ Str.contains "/" name = false.
Proof.
  intros H. apply elem_of_list_to_map_2 in H.
  repeat (apply elem_of_cons in H as [[= -> ->]|H]; [by vm_compute|]).
  by apply elem_of_nil in H.
Qed.

(** ** Events of a run *)

Lemma appends_ret {A} P (a : A) : appends P (ret a).
Proof. intros s. exists []. simpl. by rewrite app_nil_r. Qed.

Lemma appends_raise {A} P c arg : appends P (@raise A c arg).
Proof. intros s. exists []. simpl. by rewrite app_nil_r. Qed.

Lemma appends_reraise {A} P e : appends P (@reraise A e).
Proof. intros s. exists []. simpl. by rewrite app_nil_r. Qed.

Lemma appends_get P : appends P get.
Proof. intros s. exists []. simpl. by rewrite app_nil_r. Qed.

Lemma appends_emit (P : event -> Prop) e : P e -> appends P (emit e).
Proof. intros He s. exists [e]. simpl. by repeat constructor. Qed.

Lemma appends_set_fs P f : appends P (modify (set_fs f)).
Proof. intros s. exists []. simpl. by rewrite app_nil_r. Qed.

Lemma appends_bind {A B} P (m : M A) (k : A -> M B) :
  appends P m -> (forall a, appends P (k a)) -> appends P (bind m k).
Proof.
  intros Hm Hk s. unfold bind. destruct (Hm s) as (l & Hl & HP & Hc).
  destruct (m s) as [[a|e] s1]; simpl in *.
  - destruct (Hk a s1) as (l' & Hl' & HP' & Hc').
    exists (l ++ l'). rewrite Hl', Hl, Hc', Hc, app_assoc.
    split_and!; [done| by apply Forall_app |done].
  - by exists l.
Qed.

Lemma appends_try_except {A} P (body : M A) cls handler :
  appends P body -> (forall e, appends P (handler e)) ->
  appends P (try_except body cls handler).
Proof.
  intros Hm Hk s. unfold try_except. destruct (Hm s) as (l & Hl & HP & Hc).
  destruct (body s) as [[a|e] s1]; simpl in *.
  - by exists l.
  - destruct (issubclass _ _); [|by exists l].
    destruct (Hk e s1) as (l' & Hl' & HP' & Hc').
    exists (l ++ l'). rewrite Hl', Hl, Hc', Hc, app_assoc.
    split_and!; [done| by apply Forall_app |done].
Qed.

Lemma appends_output_to_console (P : event -> Prop) msg style :
  P (EvConsole msg style) -> P (EvPrint msg) ->
  appends P (download_test_data.output_to_console msg style).
Proof.
  intros H1 H2. unfold download_test_data.output_to_console.
  apply appends_bind; [apply appends_get|]. intros s.
  destruct (console s); by apply appends_emit.
Qed.

Ltac appends_step :=
  lazymatch goal with
  | |- appends _ (bind _ _) => apply appends_bind; [|intros ?]
  | |- appends _ (try_except _ _ _) => apply appends_try_except; [|intros ?]
  | |- appends _ (match ?x with _ => _ end) => destruct x
  | |- appends _ (print _) => apply appends_emit
  | |- appends _ (emit _) => apply appends_emit
  | |- appends _ (parser_error _) => unfold parser_error
  | |- appends _ (download_test_data.output_to_console _ _) =>
      apply appends_output_to_console
  | |- appends _ (ret _) => apply appends_ret
  | |- appends _ (raise _ _) => apply appends_raise
  | |- appends _ (reraise _) => apply appends_reraise
  | |- appends _ get => apply appends_get
  | |- appends _ (modify (set_fs _)) => apply appends_set_fs
  end.

Section Traces.
Variable h : host.

Lemma appends_extract (P : event -> Prop) m path :
  (forall t, P (EvExtract t)) -> appends P (tarfile.extract h m path).
Proof. intros HP. unfold tarfile.extract. repeat appends_step; done. Qed.

Lemma appends_extractall (P : event -> Prop) tar path :
  (forall t, P (EvExtract t)) -> appends P (tarfile.extractall h tar path).
Proof.
  intros HP. induction tar; simpl; repeat appends_step;
    auto using appends_extract.
Qed.

Lemma appends_extract_members (P : event -> Prop) tar dir :
  (forall t, P (EvExtract t)) ->
  appends P (geoips_config.extract_members h tar dir).
Proof.
  intros HP. induction tar; simpl; repeat appends_step; auto using appends_extract.
Qed.

Lemma appends_open_wb (P : event -> Prop) path :
  (forall p, P (EvOpenWrite p)) -> appends P (os.open_wb h path).
Proof. intros HP. unfold os.open_wb. repeat appends_step; done. Qed.

Lemma appends_tarfile_open (P : event -> Prop) raw :
  appends P (tarfile.open raw).
Proof. unfold tarfile.open. repeat appends_step. Qed.
End Traces.

Section Timeouts.
Variable h : host.

Lemma raw_url_events url dest s :
  exists l,
    new_events s (snd (download_test_data.download_and_extract_compressed_tar h url dest s))
    = report s (download_test_data.downloading_msg url dest) (Some "bold cyan")
        :: EvHttpGet url true None :: l
    /\ Forall not_get l /\ Forall not_clone l.
Proof.
  unfold download_test_data.download_and_extract_compressed_tar.
  unfold bind at 1. rewrite output_to_console_run.
  set (s1 := log _ s).
  set (s2 := log (EvHttpGet url true None) s1).
  match goal with
  | |- context [try_except (bind (bind (requests.get h url true None) ?k) ?k') ?c ?hd s1] =>
      assert (appends (fun e => not_get e /\ not_clone e)
                (try_except (bind (bind (match http h url with
                                   | Some r => ret r
                                   | None => raise ConnectionError (ArgStr url)
                                   end) k) k') c hd)) as Happ;
      [| change (try_except (bind (bind (requests.get h url true None) k) k') c hd s1)
           with (try_except (bind (bind (match http h url with
                                   | Some r => ret r
                                   | None => raise ConnectionError (ArgStr url)
                                   end) k) k') c hd s2) ]
  end.
  { repeat appends_step; try done.
    - unfold requests.raise_for_status. repeat appends_step.
    - unfold requests.int_content_length. repeat appends_step.
    - by apply appends_open_wb.
    - apply appends_tarfile_open.
    - by apply appends_extractall. }
  destruct (Happ s2) as (l & Hl & HP & _).
  exists l. split.
  - apply new_events_app. rewrite Hl. subst s2 s1. simpl.
    by rewrite <- !app_assoc.
  - split; (eapply Forall_impl; [exact HP|]); by intros ? [? ?].
Qed.

Lemma catalog_events url dir s :
  exists l,
    new_events s (snd (geoips_config.download_extract_test_data h url dir s))
    = EvHttpGet url true (Some 15%Z) :: l
    /\ Forall not_get l /\ Forall not_clone l.
Proof.
  unfold geoips_config.download_extract_test_data.
  set (s2 := log (EvHttpGet url true (Some 15%Z)) s).
  match goal with
  | |- context [bind (requests.get h url true (Some 15%Z)) ?k s] =>
      assert (appends (fun e => not_get e /\ not_clone e)
                (bind (match http h url with
                       | Some r => ret r
                       | None => raise ConnectionError (ArgStr url)
                       end) k)) as Happ;
      [| change (bind (requests.get h url true (Some 15%Z)) k s)
           with (bind (match http h url with
                       | Some r => ret r
                       | None => raise ConnectionError (ArgStr url)
                       end) k s2) ]
  end.
  { repeat appends_step; try done.
    unfold geoips_config.extract_data_cautiously. repeat appends_step.
    - apply appends_tarfile_open.
    - by apply appends_extract_members. }
  destruct (Happ s2) as (l & Hl & HP & _).
  exists l. split.
  - apply new_events_app. rewrite Hl. subst s2. simpl.
    by rewrite <- !app_assoc.
  - split; (eapply Forall_impl; [exact HP|]); by intros ? [? ?].
Qed.
End Timeouts.

Arguments download_test_data.output_to_console : simpl never.

Ltac eval_issubclass :=
  repeat match goal with
         | |- context [issubclass ?a ?b] =>
             let v := eval vm_compute in (issubclass a b) in
             change (issubclass a b) with v
         end.

Ltac st := cbn beta iota delta [fst snd fs trace console log set_fs set_console].

Ltac no_new := unfold new_events; st; rewrite drop_all; by intros ?%elem_of_nil.

(** ** What [tarfile] does to the file system *)

Lemma makedirs_keeps dirs : forall (f : gmap string node) k v,
  f !! k = Some v -> fst (tarfile.makedirs dirs f) !! k = Some v.
Proof.
  induction dirs as [|d rest IH]; intros f k v Hk; simpl; [done|].
  destruct (f !! d) as [[|c]|] eqn:Hd; simpl; auto.
  apply IH. rewrite lookup_insert_ne; [done|]. congruence.
Qed.

Lemma makedirs_frame dirs : forall (f : gmap string node) k,
  k ∉ dirs -> fst (tarfile.makedirs dirs f) !! k = f !! k.
Proof.
  induction dirs as [|d rest IH]; intros f k Hk; simpl; [done|].
  apply not_elem_of_cons in Hk as [Hne Hk].
  destruct (f !! d) as [[|c]|] eqn:Hd; simpl; auto.
  rewrite IH by done. by rewrite lookup_insert_ne.
Qed.

Lemma makedirs_made dirs : forall (f : gmap string node) d,
  snd (tarfile.makedirs dirs f) = None -> d ∈ dirs ->
  fst (tarfile.makedirs dirs f) !! d = Some Dir.
Proof.
  induction dirs as [|d0 rest IH]; intros f d Hok Hd; simpl in *.
  { by apply elem_of_nil in Hd. }
  destruct (f !! d0) as [[|c]|] eqn:Hd0; simpl in *; [| done |].
  - apply elem_of_cons in Hd as [->|Hd]; [by apply makedirs_keeps|by apply IH].
  - apply elem_of_cons in Hd as [->|Hd]; [|by apply IH].
    apply makedirs_keeps. by rewrite lookup_insert_eq.
Qed.

Lemma makedirs_only_adds_dirs dirs : forall (f : gmap string node) k,
  fst (tarfile.makedirs dirs f) !! k = f !! k
  \/ (f !! k = None /\ k ∈ dirs
      /\ fst (tarfile.makedirs dirs f) !! k = Some Dir).
Proof.
  induction dirs as [|d rest IH]; intros f k; simpl; [by left|].
  destruct (f !! d) as [[|c]|] eqn:Hd; simpl.
  - destruct (IH f k) as [H|(H1 & H2 & H3)]; [by left|].
    right. split_and!; [done|by right|done].
  - by left.
  - destruct (IH (<[d := Dir]> f) k) as [H|(H1 & H2 & H3)].
    + destruct (decide (k = d)) as [->|Hne].
      * right. rewrite H, lookup_insert_eq. split_and!; [done|by left|done].
      * left. by rewrite H, lookup_insert_ne.
    + right. destruct (decide (k = d)) as [->|Hne].
      * by rewrite lookup_insert_eq in H1.
      * rewrite lookup_insert_ne in H1 by done.
        split_and!; [done|by right|done].
Qed.

Lemma write_member_target m t (f f' : gmap string node) :
  tarfile.write_member m t f = inr f' ->
  f' !! t = Some (tarfile.node_of m)
  \/ (kind m = DIRTYPE /\ is_file (f !! t) = true /\ f' = f).
Proof.
  unfold tarfile.write_member.
  destruct (kind m), (f !! t) as [[|c]|] eqn:Ht; intros [= <-];
    try (left; by rewrite lookup_insert_eq).
  by right.
Qed.

Lemma write_member_present m t (f f' : gmap string node) :
  tarfile.write_member m t f = inr f' -> is_Some (f' !! t).
Proof.
  intros Hw. destruct (write_member_target _ _ _ _ Hw) as [->|(_ & Hf & ->)];
    [by eauto|].
  by destruct (f !! t) as [[|c]|].
Qed.

Lemma write_member_frame m t (f f' : gmap string node) k :
  tarfile.write_member m t f = inr f' -> k <> t -> f' !! k = f !! k.
Proof.
  unfold tarfile.write_member.
  destruct (kind m), (f !! t) as [[|c]|]; intros [= <-] Hne;
    by rewrite ?lookup_insert_ne.
Qed.

Lemma write_member_keeps_dir m t (f f' : gmap string node) k :
  tarfile.write_member m t f = inr f' -> f !! k = Some Dir ->
  f' !! k = Some Dir.
Proof.
  intros Hw Hk. destruct (decide (k = t)) as [->|Hne].
  - revert Hw. unfold tarfile.write_member, tarfile.node_of. rewrite Hk.
    destruct (kind m); [done|]. intros [= <-]. by rewrite lookup_insert_eq.
  - by rewrite (write_member_frame _ _ _ _ _ Hw Hne).
Qed.

Section Extraction.
Variable h : host.

(** The three ways a call of [tar.extract] ends. *)
Lemma extract_cases m path s :
  let t := tarfile.target_of h path m in
  let made := tarfile.makedirs (os.upperdirs t) (fs s) in
  let tr := trace s ++ [EvExtract t] in
  match snd made, tarfile.write_member m t (fst made) with
  | Some e, _ =>
      tarfile.extract h m path s = (Raises e, State (fst made) (console s) tr)
  | None, inl e =>
      tarfile.extract h m path s = (Raises e, State (fst made) (console s) tr)
  | None, inr f2 =>
      tarfile.extract h m path s = (Returns tt, State f2 (console s) tr)
  end.
Proof.
  intros t made tr. unfold tarfile.extract. run. fold t.
  change (fs (log (EvExtract t) s)) with (fs s). fold made.
  destruct (snd made); [reflexivity|].
  destruct (tarfile.write_member m t (fst made)); reflexivity.
Qed.

Lemma extract_trace m path s :
  trace (snd (tarfile.extract h m path s))
  = trace s ++ [EvExtract (tarfile.target_of h path m)].
Proof.
  pose proof (extract_cases m path s) as H. cbv zeta in H.
  destruct (snd (tarfile.makedirs _ _)); [by rewrite H|].
  destruct (tarfile.write_member _ _ _); by rewrite H.
Qed.

(** Entries survive an extraction unless the member lands on them. *)
Lemma extract_keeps m path s k v :
  fs s !! k = Some v ->
  k <> tarfile.target_of h path m \/ v = Dir ->
  fs (snd (tarfile.extract h m path s)) !! k = Some v.
Proof.
  intros Hk Hor.
  pose proof (extract_cases m path s) as H. cbv zeta in H.
  pose proof (makedirs_keeps (os.upperdirs (tarfile.target_of h path m))
                _ _ _ Hk) as Hmade.
  destruct (snd (tarfile.makedirs _ _)); [by rewrite H|].
  destruct (tarfile.write_member _ _ _) as [e|f2] eqn:Hw; rewrite H; [done|].
  simpl. destruct Hor as [Hne| ->].
  - by rewrite (write_member_frame _ _ _ _ _ Hw Hne).
  - by eapply write_member_keeps_dir.
Qed.

Lemma extract_present m path s k :
  is_Some (fs s !! k) -> is_Some (fs (snd (tarfile.extract h m path s)) !! k).
Proof.
  intros [v Hk].
  destruct (decide (k = tarfile.target_of h path m)) as [->|Hne].
  2:{ exists v. apply extract_keeps; auto. }
  pose proof (extract_cases m path s) as H. cbv zeta in H.
  pose proof (makedirs_keeps (os.upperdirs (tarfile.target_of h path m))
                _ _ _ Hk) as Hmade.
  destruct (snd (tarfile.makedirs _ _)); [rewrite H; by eauto|].
  destruct (tarfile.write_member _ _ _) as [e|f2] eqn:Hw; rewrite H;
    [by eauto|].
  simpl. by eapply write_member_present.
Qed.

(** A successful extraction writes the member and its directories; a
    directory member leaves a regular file at its target alone. *)
Lemma extract_written m path s s' :
  tarfile.extract h m path s = (Returns tt, s') ->
  let t := tarfile.target_of h path m in
  (kind m = REGTYPE \/ is_file (fs s !! t) = false ->
   fs s' !! t = Some (tarfile.node_of m))
  /\ is_Some (fs s' !! t)
  /\ (forall d, d ∈ os.upperdirs t -> fs s' !! d = Some Dir)
  /\ (forall k, k <> t -> k ∉ os.upperdirs t -> fs s' !! k = fs s !! k).
Proof.
  intros Hex t.
  pose proof (extract_cases m path s) as H. cbv zeta in H. fold t in H.
  destruct (snd (tarfile.makedirs _ _)) eqn:Hmk; [congruence|].
  destruct (tarfile.write_member _ _ _) as [e|f2] eqn:Hw; [congruence|].
  rewrite H in Hex. injection Hex as <-. simpl. split_and!.
  - intros Hor.
    destruct (write_member_target _ _ _ _ Hw) as [Ht|(Hk & Hf & _)]; [done|].
    destruct Hor as [Hreg|Hnf]; [congruence|].
    destruct (makedirs_only_adds_dirs (os.upperdirs t) (fs s) t)
      as [Heq|(_ & _ & Hd)].
    + rewrite Heq in Hf. congruence.
    + by rewrite Hd in Hf.
  - by eapply write_member_present.
  - intros d Hd. eapply write_member_keeps_dir; [done|].
    by apply makedirs_made.
  - intros k Hk1 Hk2. rewrite (write_member_frame _ _ _ _ _ Hw Hk1).
    by apply makedirs_frame.
Qed.
End Extraction.

Section Loop.
Variable h : host.
Variable dir : string.

Lemma extract_members_cons m rest s :
  geoips_config.extract_members h (TarMember m rest) dir s
  = if geoips_config.isContained (getcwd h) dir (name m) then
      match tarfile.extract h m dir s with
      | (Returns _, s1) => geoips_config.extract_members h rest dir s1
      | (Raises e, s1) => (Raises e, s1)
      end
    else (Raises (Raise SystemExit (ArgStr geoips_config.unsafe_msg)), s).
Proof.
  simpl. run. destruct (geoips_config.isContained _ _ _); cbn [negb]; run;
    [|reflexivity].
  destruct (tarfile.extract h m dir s) as [[[]|e] s1]; reflexivity.
Qed.

(** A member that fails the test ends the run at once, before any
    write for it; what was extracted before stays. *)
Lemma extract_members_refuses m rest s :
  geoips_config.isContained (getcwd h) dir (name m) = false ->
  geoips_config.extract_members h (TarMember m rest) dir s
  = (Raises (Raise SystemExit (ArgStr geoips_config.unsafe_msg)), s).
Proof. intros Hc. by rewrite extract_members_cons, Hc. Qed.

Lemma extract_members_abort_after_first m1 m2 rest s s1 :
  geoips_config.isContained (getcwd h) dir (name m1) = true ->
  tarfile.extract h m1 dir s = (Returns tt, s1) ->
  geoips_config.isContained (getcwd h) dir (name m2) = false ->
  geoips_config.extract_members h (TarMember m1 (TarMember m2 rest)) dir s
  = (Raises (Raise SystemExit (ArgStr geoips_config.unsafe_msg)), s1).
Proof.
  intros H1 Hex H2. rewrite extract_members_cons, H1, Hex.
  by apply extract_members_refuses.
Qed.

(** Nothing the loop does removes an entry, whatever its outcome. *)
Lemma extract_members_present tar : forall s k,
  is_Some (fs s !! k) -> is_Some (fs (snd (geoips_config.extract_members h tar dir s)) !! k).
Proof.
  induction tar as [|m rest IH|]; intros s k Hk; [done| |done].
  rewrite extract_members_cons.
  destruct (geoips_config.isContained _ _ _); [|done].
  pose proof (extract_present h m dir s k Hk) as H1.
  destruct (tarfile.extract h m dir s) as [[[]|e] s1]; [by apply IH|done].
Qed.

Lemma extract_members_keeps tar : forall s k v,
  fs s !! k = Some v ->
  v = Dir \/ (forall m, m ∈ members_of tar -> tarfile.target_of h dir m <> k) ->
  fs (snd (geoips_config.extract_members h tar dir s)) !! k = Some v.
Proof.
  induction tar as [|m rest IH|]; intros s k v Hk Hor; [done| |done].
  rewrite extract_members_cons.
  destruct (geoips_config.isContained _ _ _); [|done].
  assert (fs (snd (tarfile.extract h m dir s)) !! k = Some v) as H1.
  { apply extract_keeps; [done|]. destruct Hor as [->|Hne]; [by right|].
    left. intros ->. eapply Hne; [|done]. simpl. by left. }
  destruct (tarfile.extract h m dir s) as [[[]|e] s1]; [|done].
  apply IH; [done|]. destruct Hor as [->|Hne]; [by left|].
  right. intros m' Hm'. apply Hne. simpl. by right.
Qed.

(** What a run that reaches the end of the archive has done. *)
Lemma extract_members_ok tar : forall s s',
  geoips_config.extract_members h tar dir s = (Returns tt, s') ->
  let ms := members_of tar in
  tar = stream_of ms
  /\ Forall (fun m => geoips_config.isContained (getcwd h) dir (name m) = true) ms
  /\ trace s' = trace s ++ map (fun m => EvExtract (tarfile.target_of h dir m)) ms
  /\ console s' = console s
  /\ (forall m, m ∈ ms ->
        is_Some (fs s' !! tarfile.target_of h dir m)
        /\ forall d, d ∈ os.upperdirs (tarfile.target_of h dir m) -> fs s' !! d = Some Dir)
  /\ (forall i m, ms !! i = Some m -> kind m = REGTYPE ->
        (forall j m', i < j -> ms !! j = Some m' -> tarfile.target_of h dir m' <> tarfile.target_of h dir m) ->
        fs s' !! tarfile.target_of h dir m = Some (File (data m)))
  /\ (forall k, (forall m, m ∈ ms ->
                   k <> tarfile.target_of h dir m /\ k ∉ os.upperdirs (tarfile.target_of h dir m)) ->
        fs s' !! k = fs s !! k).
Proof.
  induction tar as [|m rest IH|]; intros s s' Hrun; simpl.
  - injection Hrun as <-. rewrite app_nil_r.
    split_and!; try done.
    + intros m Hm. by apply elem_of_nil in Hm.
  - rewrite extract_members_cons in Hrun.
    destruct (geoips_config.isContained _ _ _) eqn:Hc; [|done].
    destruct (tarfile.extract h m dir s) as [[[]|e] s1] eqn:Hex; [|done].
    pose proof (extract_trace h m dir s) as Htr. rewrite Hex in Htr. cbn [snd] in Htr.
    pose proof (extract_cases h m dir s) as Hcase. cbv zeta in Hcase.
    assert (console s1 = console s) as Hcon.
    { destruct (snd (tarfile.makedirs _ _)); [congruence|].
      destruct (tarfile.write_member _ _ _); [congruence|].
      rewrite Hcase in Hex. by injection Hex as <-. }
    clear Hcase.
    destruct (extract_written h m dir s s1 Hex) as (Hw1 & Hw0 & Hw2 & Hw3).
    destruct (IH s1 s' Hrun) as (H1 & H2 & H3 & H4 & H5 & H6 & H7).
    split_and!.
    + by rewrite <- H1.
    + by constructor.
    + rewrite H3, Htr. simpl. by rewrite <- app_assoc.
    + congruence.
    + intros m' [->|Hm']%elem_of_cons; [|by apply H5].
      split.
      * replace s' with (snd (geoips_config.extract_members h rest dir s1)) by (by rewrite Hrun).
        by apply extract_members_present.
      * intros d Hd.
        replace s' with (snd (geoips_config.extract_members h rest dir s1)) by (by rewrite Hrun).
        apply extract_members_keeps; [by apply Hw2|by left].
    + intros [|i] m' Hi Hreg Hlater; simpl in Hi.
      * injection Hi as <-.
        replace s' with (snd (geoips_config.extract_members h rest dir s1)) by (by rewrite Hrun).
        apply extract_members_keeps.
        { rewrite Hw1 by (by left). unfold tarfile.node_of. by rewrite Hreg. }
        right.
        intros m' Hm'. apply list_elem_of_lookup in Hm' as [j Hj].
        apply (Hlater (S j)); [lia|done].
      * apply (H6 i); [done..|]. intros j m'' Hij Hj.
        apply (Hlater (S j)); [lia|done].
    + intros k Hk. rewrite H7.
      * apply Hw3; apply (Hk m); by left.
      * intros m' Hm'. apply Hk. by right.
  - done.
Qed.
End Loop.

Section Install.
Variable h : host.

(** A download that returns got status 200 and ran the whole loop. *)
Lemma download_extract_test_data_ok url dir s s' :
  geoips_config.download_extract_test_data h url dir s = (Returns tt, s') ->
  exists resp,
    http h url = Some resp /\ status_code resp = 200%Z
    /\ geoips_config.extract_members h (raw resp) dir
         (log (EvHttpGet url true (Some 15%Z)) s) = (Returns tt, s').
Proof.
  unfold geoips_config.download_extract_test_data, requests.get. run.
  destruct (http h url) as [resp|]; run; [|done].
  destruct (status_code resp =? 200)%Z eqn:Hst; run; [|done].
  apply Z.eqb_eq in Hst.
  unfold geoips_config.extract_data_cautiously, tarfile.open.
  intros Hrun. exists resp. split_and!; [done..|].
  destruct (raw resp) as [|m rest|]; run; [| |done].
  - by injection Hrun as <-.
  - destruct (geoips_config.extract_members h (TarMember m rest) dir _)
      as [[[]|e] s1]; [|done].
    by injection Hrun as <-.
Qed.

Variables (name url dir : string).
Hypothesis Hcat : geoips_config.test_dataset_dict !! name = Some url.
Hypothesis Henv : environ h !! "GEOIPS_TESTDATA_DIR" = Some dir.
Hypothesis Hdir : dir <> "".

Lemma call_when_listed s :
  fs s !! posixpath.abspath (getcwd h) dir = Some Dir ->
  (exists key, is_Some (fs s !! key)
     /\ os.child_name (posixpath.abspath (getcwd h) dir) key = Some name) ->
  geoips_config.__call__ h name s
  = (Returns tt, log (EvPrint (geoips_config.already_exists_msg dir name)) s).
Proof.
  intros Hroot Hkey.
  unfold geoips_config.__call__, geoips_config.geoips_testdata_dir.
  rewrite Hcat, Henv. run.
  destruct (listdir_run h dir s Hdir Hroot) as (entries & -> & Hiff).
  rewrite bool_decide_eq_true_2 by (by apply Hiff). reflexivity.
Qed.

Lemma call_when_not_listed s entries :
  os.listdir h dir s = (Returns entries, s) -> name ∉ entries ->
  geoips_config.__call__ h name s
  = match geoips_config.download_extract_test_data h url dir
            (log (EvPrint (geoips_config.installing_msg name)) s) with
    | (Returns _, s') =>
        (Returns tt, log (EvPrint (geoips_config.installed_msg dir name)) s')
    | (Raises e, s') => (Raises e, s')
    end.
Proof.
  intros Hls Hnot.
  unfold geoips_config.__call__, geoips_config.geoips_testdata_dir.
  rewrite Hcat, Henv. run. rewrite Hls.
  rewrite bool_decide_eq_false_2 by done. run.
  by destruct (geoips_config.download_extract_test_data _ _ _ _)
    as [[[]|e] s'].
Qed.
End Install.

Lemma tarfile_open_stream_of ms (s : state) :
  tarfile.open (stream_of ms) s = (Returns (stream_of ms), s).
Proof. by destruct ms. Qed.

Lemma members_of_stream_of ms : members_of (stream_of ms) = ms.
Proof. induction ms as [|m ms IH]; simpl; [done|]. by rewrite IH. Qed.

(** ** More on strings and paths *)

Lemma upperdirs_from_prefix s : forall acc d,
  d ∈ os.upperdirs_from acc s ->
  exists a b, s = a +:+ String posixpath.sep b /\ d = acc +:+ a.
Proof.
  induction s as [|c s IH]; intros acc d Hd; simpl in Hd.
  { by apply elem_of_nil in Hd. }
  destruct (Ascii.eqb c posixpath.sep) eqn:Hc.
  - apply Ascii.eqb_eq in Hc as ->.
    apply elem_of_app in Hd as [Hd|Hd].
    + destruct (String.eqb acc ""); [by apply elem_of_nil in Hd|].
      apply list_elem_of_singleton in Hd as ->.
      exists "", s. by rewrite app_empty_r.
    + destruct (IH _ _ Hd) as (a & b & -> & ->).
      exists (String posixpath.sep a), b. split; [done|].
      by rewrite <- app_assoc_s.
  - destruct (IH _ _ Hd) as (a & b & -> & ->).
    exists (String c a), b. split; [done|].
    by rewrite <- app_assoc_s.
Qed.

Lemma upperdirs_startswith t d :
  d ∈ os.upperdirs t -> Str.startswith t d = true.
Proof.
  intros (a & b & -> & ->)%upperdirs_from_prefix.
  rewrite app_empty_l. apply startswith_app.
Qed.

Lemma removeprefix_spec (p s r : string) :
  os.removeprefix p s = Some r <-> s = p +:+ r.
Proof.
  revert s. induction p as [|a p IH]; intros s; simpl.
  - rewrite app_empty_l. split; [by intros [= ->]|by intros ->].
  - destruct s as [|b s]; [done|]. rewrite app_cons.
    destruct (Ascii.eqb a b) eqn:Hab.
    + apply Ascii.eqb_eq in Hab as ->. rewrite IH.
      split; [by intros ->|by intros [= ->]].
    + apply Ascii.eqb_neq in Hab. split; [done|]. intros [= ? ?]. congruence.
Qed.

Lemma removeprefix_none (p s : string) :
  String.prefix p s = false -> os.removeprefix p s = None.
Proof.
  intros Hp. destruct (os.removeprefix p s) as [r|] eqn:Hr; [|done].
  apply removeprefix_spec in Hr as ->.
  by rewrite (startswith_app p r : String.prefix p (p +:+ r) = true) in Hp.
Qed.

Lemma abspath_isabs (cwd path : string) :
  posixpath.isabs cwd = true ->
  posixpath.isabs (posixpath.abspath cwd path) = true.
Proof.
  intros Hcwd. unfold posixpath.abspath.
  set (x := if posixpath.isabs path then path else posixpath.join cwd path).
  assert (posixpath.isabs x = true) as Hx.
  { subst x. destruct (posixpath.isabs path) eqn:Hp; [done|].
    unfold posixpath.join. unfold posixpath.isabs in Hp. rewrite Hp.
    destruct (_ || _); by apply isabs_app. }
  rewrite (normpath_abs x Hx).
  destruct (initial_slashes_abs x Hx) as [k ->].
  cbn [Str.replicate_char]. rewrite app_cons.
  unfold posixpath.isabs, Str.startswith.
  change "/" with (String posixpath.sep "").
  by rewrite prefix_cons_eqb, prefix_nil_l, Ascii.eqb_refl.
Qed.

Lemma relative_not_prefix_of_absolute (p dir : string) :
  posixpath.isabs p = true -> dir <> "" -> posixpath.isabs dir = false ->
  Str.startswith p dir = false.
Proof.
  unfold posixpath.isabs, Str.startswith.
  destruct p as [|a p]; [done|]. destruct dir as [|c dir]; [done|].
  change "/" with (String posixpath.sep "").
  rewrite !prefix_cons_eqb, !prefix_nil_l, !andb_true_r.
  intros ->%Ascii.eqb_eq _ Hc.
  rewrite Ascii.eqb_sym. by rewrite Hc.
Qed.

Lemma app_inv_head_s (a b c : string) : a +:+ b = a +:+ c -> b = c.
Proof.
  induction a as [|x a IH]; [done|]. rewrite !app_cons. intros [= H].
  by apply IH.
Qed.

Lemma upperdirs_from_app (a b : string) : forall acc,
  os.upperdirs_from acc (a +:+ String posixpath.sep b)
  = os.upperdirs_from acc a
    ++ (if String.eqb (acc +:+ a) "" then [] else [acc +:+ a])
    ++ os.upperdirs_from (acc +:+ a +:+ "/") b.
Proof.
  induction a as [|c a IH]; intros acc.
  - rewrite app_empty_l. cbn [os.upperdirs_from].
    rewrite Ascii.eqb_refl, app_empty_r. reflexivity.
  - rewrite app_cons. cbn [os.upperdirs_from].
    destruct (Ascii.eqb c posixpath.sep) eqn:Hc.
    + apply Ascii.eqb_eq in Hc as ->. rewrite IH, <- !app_assoc.
      change (String posixpath.sep a) with ("/" +:+ a).
      by rewrite !app_assoc_s.
    + rewrite IH.
      change (String c a) with (String c "" +:+ a).
      by rewrite !app_assoc_s.
Qed.

Lemma makedirs_blocked (l1 l2 : list string) d c : forall (f : gmap string node),
  Forall (fun x => f !! x = Some Dir) l1 -> f !! d = Some (File c) ->
  tarfile.makedirs (l1 ++ d :: l2) f
  = (f, Some (Raise NotADirectoryError (ArgStr d))).
Proof.
  induction l1 as [|x l1 IH]; intros f Hl1 Hd; simpl.
  - by rewrite Hd.
  - apply Forall_cons in Hl1 as [Hx Hl1]. rewrite Hx. by apply IH.
Qed.

Lemma find_all_dirs (f : gmap string node) (l : list string) :
  Forall (fun d => f !! d = Some Dir) l ->
  List.find (fun d => match f !! d with Some Dir => false | _ => true end) l
  = None.
Proof. induction 1 as [|d l Hd _ IH]; simpl; [done|]. by rewrite Hd. Qed.

Lemma new_events_refl s : new_events s s = [].
Proof. unfold new_events. apply drop_all. Qed.

Lemma trace_of_new_events {A} (m : M A) s l :
  appends (fun _ => True) m -> new_events s (snd (m s)) = l ->
  trace (snd (m s)) = trace s ++ l.
Proof.
  intros Happ Hnew. destruct (Happ s) as (l0 & Hl0 & _).
  by rewrite <- Hnew, (new_events_app _ _ _ Hl0).
Qed.

Lemma filter_no_get (l : list event) :
  Forall not_get l -> filter (fun e => is_get e = true) l = [].
Proof.
  induction 1 as [|e l He _ IH]; [done|].
  rewrite filter_cons_False; [done|]. unfold not_get in He. congruence.
Qed.

Lemma child_name_inv dir key n :
  os.child_name dir key = Some n ->
  key = (if Str.endswith_char dir posixpath.sep then dir else dir +:+ "/")
        +:+ n
  /\ n <> "" /\ Str.contains "/" n = false.
Proof.
  unfold os.child_name.
  destruct (os.removeprefix _ key) as [r|] eqn:Hr; [|done].
  apply removeprefix_spec in Hr.
  destruct (String.eqb r "") eqn:He; [done|].
  destruct (Str.contains "/" r) eqn:Hc; [done|].
  simpl. intros [= <-]. apply String.eqb_neq in He. done.
Qed.

Lemma extract_data_cautiously_run (h : host) resp dir s :
  geoips_config.extract_data_cautiously h resp dir s
  = match raw resp with
    | TarCorrupt => (Raises (Raise ReadError ArgNone), s)
    | tar =>
        match geoips_config.extract_members h tar dir s with
        | (Returns _, s') => (Returns PyNone, s')
        | (Raises e, s') => (Raises e, s')
        end
    end.
Proof.
  unfold geoips_config.extract_data_cautiously, tarfile.open.
  destruct (raw resp) as [|m rest|]; run; [done| |done].
  by destruct (geoips_config.extract_members h (TarMember m rest) dir s)
    as [[[]|e] s'].
Qed.

Lemma extract_data_cautiously_returns (h : host) resp dir s v s1 :
  geoips_config.extract_data_cautiously h resp dir s = (Returns v, s1) ->
  geoips_config.extract_members h (raw resp) dir s = (Returns tt, s1).
Proof.
  rewrite extract_data_cautiously_run.
  destruct (raw resp) as [|m rest|]; [| |done].
  - destruct (geoips_config.extract_members h TarEnd dir s) as [[[]|e] s'];
      [|done]. by intros [= _ <-].
  - destruct (geoips_config.extract_members h (TarMember m rest) dir s)
      as [[[]|e] s']; [|done]. by intros [= _ <-].
Qed.

(** ** The predicates of the statements, as propositions *)

Lemma normal_name_spec n :
  normal_name n = true ->
  Forall (fun c => clean c = true /\ c <> "..") (Str.split posixpath.sep n).
Proof.
  unfold normal_name. rewrite forallb_forall, Forall_forall.
  intros H c Hc. apply list_elem_of_In, H in Hc.
  apply andb_true_iff in Hc as [Hc Hd]. split; [done|].
  apply negb_true_iff in Hd. by apply String.eqb_neq.
Qed.

Lemma reachable_spec (f : gmap string node) p :
  reachable f p = true ->
  posixpath.isabs p = true /\ posixpath.normpath p = p
  /\ Forall (fun d => f !! d = Some Dir) (os.upperdirs p).
Proof.
  unfold reachable. rewrite !andb_true_iff. intros [[Ha Hn] Hu].
  split_and!; [done|by apply String.eqb_eq|].
  rewrite forallb_forall in Hu. apply Forall_forall. intros d Hd.
  apply list_elem_of_In, Hu in Hd. by destruct (f !! d) as [[|c]|].
Qed.


(** ** Extraction that cannot fail *)



Section Returns.
Variable h : host.
Variable dir : string.


End Returns.

(** ** Members below an absolute normalized directory *)

Section Below.
Variable h : host.
Variable dir : string.
Hypothesis Habs : posixpath.isabs dir = true.
Hypothesis Hnorm : posixpath.normpath dir = dir.
Hypothesis Hend : Str.endswith_char dir posixpath.sep = false.

Lemma join_below n :
  normal_name n = true ->
  posixpath.join dir n = dir +:+ String posixpath.sep n.
Proof.
  intros Hn%normal_name_spec.
  rewrite (join_root_shape dir n Habs (normal_name_relative _ Hn)), Hend.
  by rewrite <- app_assoc_s.
Qed.

Lemma target_below m :
  normal_name (name m) = true ->
  tarfile.target_of h dir m = posixpath.join dir (name m).
Proof.
  intros Hn%normal_name_spec.
  unfold tarfile.target_of, posixpath.abspath.
  rewrite (join_root_isabs dir (name m) Habs (normal_name_relative _ Hn)).
  by apply normpath_join_normal.
Qed.

Lemma abspath_normal : posixpath.abspath (getcwd h) dir = dir.
Proof. unfold posixpath.abspath. by rewrite Habs. Qed.



End Below.

(** * Properties of the programs *)

(** C1 (code defect). Paths written during extraction can lie outside the
    destination root: on the catalog path the member [../data2/x] passes
    the check against [/data] and is written to [/data2/x]; on the raw-URL
    path [extractall] runs with no check at all and the member
    [/tmp/evil] is written to [/tmp/evil] for destination [/out]. *)
Theorem extraction_writes_outside_destination_root :
  (let r := geoips_config.__call__ (demo_host (Some (ok_response sibling_archive)))
              "test_data_viirs" data_only in
   fst r = Returns tt
   /\ fs (snd r) !! "/data2/x" = Some (File "X")
   /\ inside "/data" "/data2/x" = false
   /\ filter (fun e => is_extract e = true) (new_events data_only (snd r))
      = [EvExtract "/data/a.txt"; EvExtract "/data2/x"])
  /\ (let r := download_test_data.main
                 (demo_host (Some (ok_response absolute_archive)))
                 "https://example.com/x.tgz" "/out" true data_only in
      fst r = Returns tt
      /\ fs (snd r) !! "/tmp/evil" = Some (File "E")
      /\ inside "/out" "/tmp/evil" = false
      /\ new_events data_only (snd r)
         = [EvPrint (download_test_data.downloading_msg
                       "https://example.com/x.tgz" "/out");
            EvHttpGet "https://example.com/x.tgz" true None;
            EvOpenWrite "/out";
            EvPrint "Downloading and extracting {file_length} bytes... ";
            EvExtract "/tmp/evil";
            EvPrint download_test_data.success_msg]).
Proof. by vm_compute. Qed.

(** C2 (counterexample). The containment test accepts the empty member
    name and an absolute member name. *)
Lemma isContained_accepts_empty_and_absolute_names :
  geoips_config.isContained "/" "/data" "" = true
  /\ posixpath.isabs "/data/x" = true
  /\ geoips_config.isContained "/" "/data" "/data/x" = true.
Proof. by vm_compute. Qed.

(** C2 (amended). For an absolute normalized root the containment test,
    a total boolean function, accepts every member whose normalized join
    with the root is the root or lies below it by path segments, so in
    particular every relative name without a [..] component; and it
    rejects every member whose normalized join does not begin with the
    root's string, such as [../etc/passwd], [/etc/passwd] and
    [sub/../../etc] against [/data]. *)
Theorem isContained_accepts_paths_inside_root (cwd root m : string) :
  posixpath.isabs root = true ->
  posixpath.normpath root = root ->
  let p := posixpath.abspath cwd (posixpath.join root m) in
  (inside root p = true -> geoips_config.isContained cwd root m = true)
  /\ (posixpath.isabs m = false -> ".." ∉ Str.split posixpath.sep m ->
      inside root p = true /\ geoips_config.isContained cwd root m = true)
  /\ (Str.startswith p root = false ->
      geoips_config.isContained cwd root m = false)
  /\ (geoips_config.isContained cwd "/data" "file.txt" = true
      /\ geoips_config.isContained cwd "/data" "../etc/passwd" = false
      /\ geoips_config.isContained cwd "/data" "/etc/passwd" = false
      /\ geoips_config.isContained cwd "/data" "sub/../../etc" = false).
Proof.
  intros Habs Hnorm p. subst p. unfold geoips_config.isContained.
  split_and!; try reflexivity.
  - apply inside_startswith.
  - intros Hrel Hplain. unfold posixpath.abspath.
    rewrite (join_root_isabs root m Habs Hrel).
    split.
    + by apply plain_member_inside.
    + by apply plain_member_startswith_root.
  - done.
Qed.

(** C2 (witness). Root [/data], member [sub/b.txt]. *)
Lemma isContained_accepts_paths_inside_root_witness :
  posixpath.isabs "/data" = true
  /\ posixpath.normpath "/data" = "/data"
  /\ posixpath.isabs "sub/b.txt" = false
  /\ (".." ∉ Str.split posixpath.sep "sub/b.txt")
  /\ inside "/data"
       (posixpath.abspath "/" (posixpath.join "/data" "sub/b.txt")) = true
  /\ geoips_config.isContained "/" "/data" "sub/b.txt" = true.
Proof.
  assert (posixpath.isabs "/data" = true) as H1 by reflexivity.
  assert (posixpath.normpath "/data" = "/data") as H2 by reflexivity.
  assert (posixpath.isabs "sub/b.txt" = false) as H3 by reflexivity.
  assert (".." ∉ Str.split posixpath.sep "sub/b.txt") as H4.
  { vm_compute. intros H.
    repeat (apply elem_of_cons in H as [H|H]; [discriminate H|]).
    by apply elem_of_nil in H. }
  destruct (isContained_accepts_paths_inside_root "/" "/data" "sub/b.txt" H1 H2)
    as (_ & Hplain & _).
  destruct (Hplain H3 H4) as [Hin Hacc].
  by split_and!.
Defined.

(** C3 (code defect). An archive with a safe member followed by the
    escaping member [../data2/x] is extracted to the end against root
    [/data]: no abort, and [/data2/x] is written outside the root.  The
    member [../escape] of the specification's example is refused, after
    [a.txt] was written. *)
Theorem escaping_sibling_member_is_not_refused :
  (let r := geoips_config.extract_data_cautiously
              (demo_host None) (ok_response sibling_archive) "/data" data_only in
   fst r = Returns PyNone
   /\ inside "/data" (tarfile.target_of (demo_host None) "/data"
                        (file_member "../data2/x" "X")) = false
   /\ fs (snd r) !! "/data/a.txt" = Some (File "A")
   /\ fs (snd r) !! "/data2/x" = Some (File "X"))
  /\ (let r := geoips_config.extract_data_cautiously
                 (demo_host None) (ok_response escape_archive) "/data" data_only in
      fst r = Raises (Raise SystemExit (ArgStr geoips_config.unsafe_msg))
      /\ fs (snd r) !! "/data/a.txt" = Some (File "A")
      /\ fs (snd r) !! "/escape" = None
      /\ new_events data_only (snd r) = [EvExtract "/data/a.txt"]).
Proof. by vm_compute. Qed.

(** C4 (counterexample). The archive served for [test_data_viirs] holds
    [a.txt] and [sub/b.txt].  The first call installs it and returns;
    no entry [test_data_viirs] exists afterwards, so the second call,
    with nothing deleted in between, fetches the URL and extracts the
    archive again. *)
Lemma second_install_fetches_again :
  let h := demo_host (Some (ok_response (two_files "A" "B"))) in
  let r1 := geoips_config.__call__ h "test_data_viirs" data_only in
  let r2 := geoips_config.__call__ h "test_data_viirs" (snd r1) in
  fst r1 = Returns tt
  /\ fs (snd r1) !! "/data/test_data_viirs" = None
  /\ fst r2 = Returns tt
  /\ new_events (snd r1) (snd r2)
     = [EvPrint "Installing test_data_viirs test dataset. This may take a while...";
        EvHttpGet "https://io.cira.colostate.edu/s/mQ2HbE2Js4E9rba/download/test_data_viirs.tgz"
          true (Some 15%Z);
        EvExtract "/data/a.txt";
        EvExtract "/data/sub/b.txt";
        EvPrint "Test dataset 'test_data_viirs' has been installed under /data/test_data_viirs/"].
Proof. by vm_compute. Qed.

(** C4 (amended). Let the test-data directory be an existing directory
    given by its absolute normalized path.  For a catalog name whose
    entry exists directly under it, the install command prints that the
    data set already exists under [join(dir, name)] and does nothing
    else: no GET is issued.  A second call does the same when the first
    call returned and either found the entry, or extracted an archive of
    members with normalized relative names one of which is that entry
    or lies below it. *)
Theorem install_already_present_skips_network
    (h : host) (dataset url dir : string) (s : state) :
  geoips_config.test_dataset_dict !! dataset = Some url ->
  environ h !! "GEOIPS_TESTDATA_DIR" = Some dir ->
  reachable (fs s) dir = true ->
  fs s !! dir = Some Dir ->
  let entry := posixpath.join dir dataset in
  let already (s0 : state) : outcome unit * state :=
    (Returns tt,
     log (EvPrint ("Test dataset '" +:+ dataset +:+ "' already exists under '"
                   +:+ entry +:+ "'. See that location for the contents of "
                   +:+ "the test dataset.")) s0) in
  (is_Some (fs s !! entry) ->
   geoips_config.__call__ h dataset s = already s
   /\ Forall not_get
        (new_events s (snd (geoips_config.__call__ h dataset s))))
  /\ (forall s1,
        geoips_config.__call__ h dataset s = (Returns tt, s1) ->
        (is_Some (fs s !! entry)
         \/ exists resp ms m,
              http h url = Some resp /\ raw resp = stream_of ms
              /\ forallb (fun m => normal_name (name m)) ms = true
              /\ m ∈ ms
              /\ (name m = dataset
                  \/ Str.startswith (name m) (dataset +:+ "/") = true)) ->
        geoips_config.__call__ h dataset s1 = already s1
        /\ Forall not_get
             (new_events s1 (snd (geoips_config.__call__ h dataset s1)))).
Proof.
  intros Hcat Henv Hreach Hroot entry already.
  apply reachable_spec in Hreach as (Habs & Hnorm & _).
  pose proof (abspath_normal h dir Habs Hnorm) as Hp.
  pose proof (isabs_nonempty dir Habs) as Hdir.
  destruct (catalog_name_simple _ _ Hcat) as [Hne Hslash].
  assert (os.child_name dir entry = Some dataset) as Hchild.
  { by apply child_name_join. }
  assert (forall s0, fs s0 !! dir = Some Dir -> is_Some (fs s0 !! entry) ->
            geoips_config.__call__ h dataset s0 = already s0) as Hpresent.
  { intros s0 Hr He.
    rewrite (call_when_listed h dataset url dir Hcat Henv Hdir s0);
      rewrite ?Hp; by eauto. }
  assert (forall s0,
            Forall not_get (new_events s0 (snd (already s0)))) as Hquiet.
  { intros s0. subst already. cbn [snd].
    rewrite (new_events_app s0 _ [EvPrint _]) by reflexivity.
    by repeat constructor. }
  split.
  { intros He. rewrite (Hpresent s Hroot He). by split. }
  intros s1 Hrun Hsrc.
  assert (fs s1 !! dir = Some Dir /\ is_Some (fs s1 !! entry)) as [Hroot1 He1].
  { rewrite <- Hp in Hroot.
    destruct (listdir_run h dir s Hdir Hroot) as (entries & Hls & Hiff).
    rewrite Hp in Hroot, Hiff.
    destruct (decide (dataset ∈ entries)) as [Hin|Hnot].
    - (* the first call already found the data set *)
      apply Hiff in Hin as (key & Hkey & Hck).
      assert (key = entry) as ->.
      { apply child_name_inv in Hck as (-> & _ & _). subst entry.
        rewrite join_simple by auto using contains_slash_startswith. done. }
      rewrite (Hpresent s Hroot Hkey) in Hrun. injection Hrun as <-.
      by split.
    - (* the first call downloaded and extracted *)
      rewrite (call_when_not_listed h dataset url dir Hcat Henv s entries
                 Hls Hnot) in Hrun.
      destruct (geoips_config.download_extract_test_data h url dir _)
        as [[[]|e] s'] eqn:Hdl; [|done].
      injection Hrun as <-.
      apply download_extract_test_data_ok in Hdl as (resp & Hresp & _ & Hloop).
      cbn [fs log]. split.
      + replace s' with (snd (geoips_config.extract_members h (raw resp) dir
          (log (EvHttpGet url true (Some 15%Z))
             (log (EvPrint (geoips_config.installing_msg dataset)) s))))
          by (by rewrite Hloop).
        apply extract_members_keeps; [done|by left].
      + destruct Hsrc as [He|(resp' & ms & m & Hresp' & Hraw & Hnames & Hm & Hent)].
        * replace s' with (snd (geoips_config.extract_members h (raw resp) dir
            (log (EvHttpGet url true (Some 15%Z))
               (log (EvPrint (geoips_config.installing_msg dataset)) s))))
            by (by rewrite Hloop).
          by apply extract_members_present.
        * assert (resp' = resp) as -> by congruence.
          destruct (extract_members_ok h dir _ _ _ Hloop)
            as (_ & _ & _ & _ & Hall & _).
          rewrite Hraw, members_of_stream_of in Hall.
          destruct (Hall m Hm) as [Ht Hup].
          rewrite forallb_forall in Hnames.
          assert (normal_name (name m) = true) as Hn
            by (by apply Hnames, list_elem_of_In).
          rewrite (target_below h dir Habs Hnorm m Hn) in Ht, Hup.
          destruct Hent as [Heq|Hpre]; [by rewrite Heq in Ht|].
          apply prefix_spec in Hpre as [b Hb].
          assert (entry ∈ os.upperdirs (posixpath.join dir (name m))) as Hin.
          { subst entry.
            rewrite (join_simple dir (name m)), (join_simple dir dataset);
              [|done|by apply contains_slash_startswith|done|].
            2:{ apply normal_name_relative. by apply normal_name_spec. }
            rewrite Hb, <- app_assoc_s, !app_assoc_s.
            set (e := _ +:+ dataset).
            change (e +:+ "/" +:+ b) with (e +:+ ("/" +:+ b)).
            rewrite <- app_assoc_s.
            change ("/" +:+ b) with (String posixpath.sep b).
            unfold os.upperdirs. rewrite upperdirs_from_app, !app_empty_l.
            assert (String.eqb e "" = false) as ->.
            { apply String.eqb_neq. subst e. intros H.
              apply (f_equal String.length) in H.
              rewrite length_app_s in H. destruct dataset; [done|].
              simpl in H. lia. }
            apply elem_of_app. right. apply elem_of_app. left.
            apply list_elem_of_here. }
          rewrite (Hup _ Hin). by eauto. }
  rewrite (Hpresent s1 Hroot1 He1). by split.
Qed.

(** C4 (witness). The served archive holds the directory
    [test_data_viirs] and a file below it; the second call finds it in
    [/data]. *)
Lemma install_already_present_skips_network_witness :
  let h := demo_host (Some (ok_response viirs_archive)) in
  let r1 := geoips_config.__call__ h "test_data_viirs" data_only in
  fst r1 = Returns tt
  /\ geoips_config.__call__ h "test_data_viirs" (snd r1)
     = (Returns tt,
        log (EvPrint "Test dataset 'test_data_viirs' already exists under '/data/test_data_viirs'. See that location for the contents of the test dataset.")
          (snd r1)).
Proof.
  intros h r1.
  assert (fst r1 = Returns tt) as Hret by (by vm_compute).
  assert (r1 = (Returns tt, snd r1)) as Hrun.
  { destruct r1 as [o s1]. simpl in *. by rewrite Hret. }
  split; [exact Hret|].
  refine (proj1 (proj2 (install_already_present_skips_network h
    "test_data_viirs"
    "https://io.cira.colostate.edu/s/mQ2HbE2Js4E9rba/download/test_data_viirs.tgz"
    "/data" data_only eq_refl eq_refl eq_refl eq_refl) (snd r1) Hrun _)).
  right.
  exists (ok_response viirs_archive), viirs_archive,
    (file_member "test_data_viirs/README" "viirs").
  split_and!; [reflexivity|reflexivity|reflexivity| |right; reflexivity].
  apply elem_of_cons. right. apply list_elem_of_here.
Defined.



(** C6 (counterexample). A reference that holds neither [.git] nor
    [.tgz] does not make the call fail: [main] prints the message and
    returns normally. *)
Lemma unsupported_reference_returns_normally :
  download_test_data.main (demo_host None) "https://example.com/x.zip" "/out"
    true data_only
  = (Returns tt,
     State {[ "/data" := Dir ]} false
       [EvPrint "Error: Cannot handle non-git non-tgz urls."]).
Proof. by vm_compute. Qed.

(** C6 (amended). For a reference and a directory without [[], or in
    the plain mode, [main] tests the reference for [.git] first and runs
    [download_from_git]: it announces the clone and clones, with no GET
    and no extraction.  Otherwise it tests the reference for [.tgz] and
    runs [download_and_extract_compressed_tar]: it announces the
    download and issues the GET, with no clone.  Otherwise it reports
    ["Error: Cannot handle non-git non-tgz urls."], does nothing else
    and returns normally.  So [x.git] is cloned, [x.tgz] is fetched and
    extracted, and for [x.zip] the message is all there is. *)
Theorem main_dispatch_order
    (h : host) (url output_dir : string) (no_rich : bool) (s : state) :
  no_rich = true \/ (no_markup url = true /\ no_markup output_dir = true) ->
  let s0 := set_console (negb no_rich) s in
  let r := download_test_data.main h url output_dir no_rich s in
  let new := new_events s (snd r) in
  (if Str.contains ".git" url then
     r = download_test_data.download_from_git h url output_dir s0
     /\ (exists l,
           new = report s0 ("Cloning repository from " +:+ url +:+ " to "
                            +:+ output_dir +:+ "...") (Some "bold cyan")
                 :: EvGitClone url output_dir :: l
           /\ Forall not_clone l)
     /\ Forall not_get new
     /\ Forall not_extract new
   else if Str.contains ".tgz" url then
     r = download_test_data.download_and_extract_compressed_tar
           h url output_dir s0
     /\ (exists l,
           new = report s0 ("Downloading and extracting " +:+ url +:+ " to "
                            +:+ output_dir +:+ "...") (Some "bold cyan")
                 :: EvHttpGet url true None :: l
           /\ Forall not_get l)
     /\ Forall not_clone new
   else
     r = (Returns tt,
          log (report s0 "Error: Cannot handle non-git non-tgz urls."
                 (Some "bold red")) s0))
  /\ download_test_data.main (demo_host None)
       "https://example.com/x.git" "/out" true data_only
     = (Returns tt,
        State {[ "/data" := Dir ]} false
          [EvPrint "Cloning repository from https://example.com/x.git to /out...";
           EvGitClone "https://example.com/x.git" "/out";
           EvPrint "Repository successfully cloned."])
  /\ download_test_data.main
       (demo_host (Some (ok_response [file_member "/srv/a.txt" "A"])))
       "https://example.com/x.tgz" "/out" true data_only
     = (Returns tt,
        State (<["/srv/a.txt" := File "A"]>
                 (<["/srv" := Dir]>
                    (<["/out" := File ""]> {[ "/data" := Dir ]})))
          false
          [EvPrint "Downloading and extracting https://example.com/x.tgz to /out...";
           EvHttpGet "https://example.com/x.tgz" true None;
           EvOpenWrite "/out";
           EvPrint "Downloading and extracting {file_length} bytes... ";
           EvExtract "/srv/a.txt";
           EvPrint "Files successfully downloaded and extracted."])
  /\ Str.contains ".git" "https://example.com/x.zip" = false
  /\ Str.contains ".tgz" "https://example.com/x.zip" = false.
Proof.
  intros _ s0 r new. split_and!; [|by vm_compute..].
  subst new r. unfold download_test_data.main, download_test_data.setup_rich_console.
  run. fold s0.
  change (new_events s) with (new_events s0).
  destruct (Str.contains ".git" url).
  - split; [reflexivity|].
    unfold download_test_data.download_from_git,
      download_test_data.check_output_git_clone,
      download_test_data.decode_utf8.
    run. rewrite output_to_console_run. st.
    destruct (git_clone h url output_dir) as [out|]; st; eval_issubclass; st;
      cbn [exn_arg_of];
      [destruct (Str.valid_utf8 out); st|];
      rewrite ?output_to_console_run; st;
      (erewrite new_events_app; [|st; rewrite <- ?app_assoc; reflexivity]);
      (split; [eexists; split; [reflexivity|]|]);
      unfold report; st; destruct (console s0); by repeat constructor.
  - destruct (Str.contains ".tgz" url).
    + split; [reflexivity|].
      destruct (raw_url_events h url output_dir s0) as (l & -> & Hg & Hl).
      split; [by eauto|].
      repeat constructor; [|done].
      unfold report. by destruct (console s0).
    + by rewrite output_to_console_run.
Qed.

(** C6 (witness). In the plain mode a reference that holds both
    patterns is cloned, not fetched. *)
Lemma main_dispatch_order_witness :
  let r := download_test_data.main (demo_host None)
             "https://example.com/x.git/y.tgz" "/out" true data_only in
  r = download_test_data.download_from_git (demo_host None)
        "https://example.com/x.git/y.tgz" "/out" data_only
  /\ Forall not_get (new_events data_only (snd r))
  /\ EvGitClone "https://example.com/x.git/y.tgz" "/out"
     ∈ new_events data_only (snd r).
Proof.
  intros r.
  destruct (main_dispatch_order (demo_host None)
              "https://example.com/x.git/y.tgz" "/out" true data_only
              (or_introl eq_refl)) as [H _].
  cbv zeta in H.
  change (Str.contains ".git" "https://example.com/x.git/y.tgz") with true in H.
  cbv iota in H. destruct H as (Hr & (l & Hl & _) & Hg & _).
  split_and!; [exact Hr|exact Hg|].
  subst r. rewrite Hl. apply elem_of_cons. right. apply list_elem_of_here.
Defined.




(** C8 (code defect). The GET of the raw-URL path is issued with no
    timeout at all, whereas the GET of the catalog path is issued with
    [timeout=15]; each path issues exactly one GET. *)
Theorem raw_url_get_has_no_timeout (h : host) (url dest : string) (s : state) :
  (exists l,
     new_events s (snd (download_test_data.download_and_extract_compressed_tar h url dest s))
     = report s (download_test_data.downloading_msg url dest) (Some "bold cyan")
         :: EvHttpGet url true None :: l
     /\ Forall not_get l)
  /\ (exists l,
        new_events s (snd (geoips_config.download_extract_test_data h url dest s))
        = EvHttpGet url true (Some 15%Z) :: l
        /\ Forall not_get l).
Proof.
  split.
  - destruct (raw_url_events h url dest s) as (l & ? & ? & _). eauto.
  - destruct (catalog_events h url dest s) as (l & ? & ? & _). eauto.
Qed.

(** C9. [except AttributeError or KeyError] names the class
    [AttributeError] only.  A yaml-based plugin whose mapping lacks
    ["interface"] or ["name"] makes [validate] raise [KeyError]
    uncaught, with nothing reported; a module-based plugin lacking one
    of the attributes ends in [parser.error] with the invalid-plugin
    message; and that message is reported for module-based plugins
    lacking an attribute only. *)
Theorem yaml_plugin_missing_key_raises_uncaught_KeyError
    (h : host) (fpath : string) (s : state) :
  let r := geoips_validate.validate h fpath s in
  py_or AttributeError KeyError = AttributeError
  /\ (forall m,
        String.eqb ".py" (Str.last_chars 3 fpath) = false ->
        yaml_safe_load h fpath = inr (YMapping m) ->
        m !! "interface" = None \/ m !! "name" = None ->
        exists k, (k = "interface" \/ k = "name")
                  /\ r = (Raises (Raise KeyError (ArgStr k)), s))
  /\ (forall attrs,
        String.eqb ".py" (Str.last_chars 3 fpath) = true ->
        exec_module h fpath = inr attrs ->
        attrs !! "interface" = None \/ attrs !! "name" = None ->
        r = (Raises (Raise SystemExit (ArgInt 2)),
             log (EvStderr (geoips_validate.err_str fpath)) s))
  /\ (EvStderr (geoips_validate.err_str fpath) ∈ new_events s (snd r) ->
      String.eqb ".py" (Str.last_chars 3 fpath) = true
      /\ exists attrs, exec_module h fpath = inr attrs
                       /\ (attrs !! "interface" = None \/ attrs !! "name" = None)).
Proof.
  intros r. subst r. split; [reflexivity|].
  unfold geoips_validate.validate, geoips_validate.lift,
    geoips_validate.getitem, geoips_validate.getattr.
  split_and!.
  - intros m Hext Hy Hmiss. rewrite Hext, Hy. run.
    destruct (m !! "interface") as [i|] eqn:Hi; run.
    + destruct Hmiss as [|Hn]; [done|]. rewrite Hn. run. eauto.
    + eauto.
  - intros attrs Hext Hm Hmiss. rewrite Hext, Hm. run.
    destruct (attrs !! "interface") as [i|] eqn:Hi; run.
    + destruct Hmiss as [|Hn]; [done|]. rewrite Hn. run. reflexivity.
    + reflexivity.
  - destruct (String.eqb ".py" (Str.last_chars 3 fpath)) eqn:Hext.
    + destruct (exec_module h fpath) as [e|attrs] eqn:Hm; run.
      { no_new. }
      destruct (attrs !! "interface") as [i|] eqn:Hi; run;
        [destruct (attrs !! "name") as [n|] eqn:Hn; run|]; eval_issubclass; st;
        try (intros _; split; [done|]; exists attrs; by eauto).
      destruct (interfaces h !! i) as [valid|]; run.
      2:{ no_new. }
      destruct (valid n); st;
        (erewrite new_events_app; [|st; reflexivity]);
        rewrite list_elem_of_singleton; intros [=].
    + intros Hin. exfalso. revert Hin.
      destruct (yaml_safe_load h fpath) as [e|doc] eqn:Hy; run; [no_new|].
      destruct doc as [| | |m]; run; eval_issubclass; st; try no_new.
      destruct (m !! "interface") as [i|] eqn:Hi; run;
        [destruct (m !! "name") as [n|] eqn:Hn; run|]; eval_issubclass; st;
        try no_new.
      destruct (interfaces h !! i) as [valid|]; run; try no_new.
      destruct (valid n); st;
        (erewrite new_events_app; [|st; reflexivity]);
        rewrite list_elem_of_singleton; intros [=].
Qed.

(** C9 (witness). The mapping of [plugin.yaml] has ["interface"] and no
    ["name"]. *)
Lemma yaml_plugin_missing_key_raises_uncaught_KeyError_witness :
  let h := demo_host None in
  String.eqb ".py" (Str.last_chars 3 "plugin.yaml") = false
  /\ yaml_safe_load h "plugin.yaml"
     = inr (YMapping {[ "interface" := "readers" ]})
  /\ exists k, (k = "interface" \/ k = "name")
       /\ geoips_validate.validate h "plugin.yaml" data_only
          = (Raises (Raise KeyError (ArgStr k)), data_only).
Proof.
  intros h.
  assert (String.eqb ".py" (Str.last_chars 3 "plugin.yaml") = false) as H1
    by reflexivity.
  assert (yaml_safe_load h "plugin.yaml"
          = inr (YMapping {[ "interface" := "readers" ]})) as H2 by reflexivity.
  split_and!; [exact H1|exact H2|].
  destruct (yaml_plugin_missing_key_raises_uncaught_KeyError
              h "plugin.yaml" data_only) as (_ & Hyaml & _).
  apply (Hyaml {[ "interface" := "readers" ]} H1 H2).
  right. by vm_compute.
Defined.



(** * Further properties *)

(** ** What an extraction leaves behind when it stops *)

Section Outside.
Variable h : host.

Lemma extract_members_prepend dir ms tl : forall s s1,
  geoips_config.extract_members h (stream_of ms) dir s = (Returns tt, s1) ->
  geoips_config.extract_members h (prepend ms tl) dir s
  = geoips_config.extract_members h tl dir s1.
Proof.
  induction ms as [|m ms IH]; intros s s1 Hrun.
  - simpl in Hrun. by injection Hrun as <-.
  - cbn [stream_of prepend] in *. rewrite extract_members_cons in *.
    destruct (geoips_config.isContained _ _ _); [|done].
    destruct (tarfile.extract h m dir s) as [[[]|e] s2]; [|done].
    by apply IH.
Qed.
End Outside.

(** X3. A member that fails the test is not skipped: it ends the run
    with [SystemExit] and the unsafe-path message, whatever comes after
    it in the archive.  Nothing is rolled back: the state is the one
    reached by extracting the members before it, each of which was
    extracted once, in archive order. *)
Theorem unsafe_member_ends_run_without_rollback
    (h : host) (r1 r2 : response) (dir : string) (ms : list TarInfo)
    (m : TarInfo) (rest : tar_stream) (s s1 : state) :
  raw r1 = stream_of ms ->
  raw r2 = prepend ms (TarMember m rest) ->
  geoips_config.extract_data_cautiously h r1 dir s = (Returns PyNone, s1) ->
  geoips_config.isContained (getcwd h) dir (name m) = false ->
  geoips_config.extract_data_cautiously h r2 dir s
  = (Raises (Raise SystemExit (ArgStr geoips_config.unsafe_msg)), s1)
  /\ new_events s s1
     = map (fun m => EvExtract (tarfile.target_of h dir m)) ms.
Proof.
  intros Hr1 Hr2 Hrun Hm.
  apply extract_data_cautiously_returns in Hrun as Hloop.
  rewrite Hr1 in Hloop.
  split.
  - rewrite extract_data_cautiously_run, Hr2.
    pose proof (extract_members_prepend h dir ms (TarMember m rest) s s1 Hloop)
      as Hpre.
    rewrite (extract_members_refuses h dir m rest s1 Hm) in Hpre.
    destruct ms as [|m0 ms]; cbn [prepend] in *; by rewrite Hpre.
  - destruct (extract_members_ok h dir _ _ _ Hloop) as (_ & _ & Htr & _).
    apply new_events_app. by rewrite Htr, members_of_stream_of.
Qed.

(** X3 (witness). [a.txt], then [../escape], then [b.txt]: the run ends
    at [../escape] with [a.txt] written and [b.txt] never looked at. *)
Lemma unsafe_member_ends_run_without_rollback_witness :
  let h := demo_host None in
  let r2 := ok_response [file_member "a.txt" "A"; file_member "../escape" "E";
                         file_member "b.txt" "B"] in
  let r := geoips_config.extract_data_cautiously h r2 "/data" data_only in
  fst r = Raises (Raise SystemExit (ArgStr geoips_config.unsafe_msg))
  /\ fs (snd r) !! "/data/a.txt" = Some (File "A")
  /\ fs (snd r) !! "/data/b.txt" = None
  /\ new_events data_only (snd r) = [EvExtract "/data/a.txt"].
Proof.
  intros h r2 r.
  destruct (unsafe_member_ends_run_without_rollback h
              (ok_response [file_member "a.txt" "A"]) r2 "/data"
              [file_member "a.txt" "A"] (file_member "../escape" "E")
              (stream_of [file_member "b.txt" "B"]) data_only
              (snd (geoips_config.extract_data_cautiously h
                      (ok_response [file_member "a.txt" "A"]) "/data"
                      data_only))
              eq_refl eq_refl eq_refl eq_refl) as [Hrun Hev].
  subst r. rewrite Hrun. split_and!; [reflexivity|by vm_compute..].
Defined.

(** X4. When reading the header of the next member raises
    [tarfile.ReadError] after some members were read, the run ends with
    that error and the members read before stay extracted: the state is
    the one a complete archive of those members leaves.  When the first
    header cannot be read the error comes from [tarfile.open] and
    nothing is touched.  (Names are normalized relative paths and the
    root is given by its absolute normalized path.) *)
Theorem read_error_keeps_partial_extraction
    (h : host) (r1 r2 : response) (dir : string) (ms : list TarInfo)
    (s s1 : state) :
  reachable (fs s) dir = true ->
  forallb (fun m => normal_name (name m)) ms = true ->
  raw r1 = stream_of ms ->
  raw r2 = prepend ms TarCorrupt ->
  geoips_config.extract_data_cautiously h r1 dir s = (Returns PyNone, s1) ->
  geoips_config.extract_data_cautiously h r2 dir s
  = (Raises (Raise ReadError ArgNone), s1)
  /\ (ms = [] -> s1 = s)
  /\ new_events s s1
     = map (fun m => EvExtract (posixpath.join dir (name m))) ms
  /\ forall m, m ∈ ms -> is_Some (fs s1 !! posixpath.join dir (name m)).
Proof.
  intros Hreach Hnames Hr1 Hr2 Hrun.
  apply reachable_spec in Hreach as (Habs & Hnorm & _).
  rewrite forallb_forall in Hnames.
  assert (forall m, m ∈ ms ->
            tarfile.target_of h dir m = posixpath.join dir (name m)) as HT.
  { intros m Hm. apply target_below; [done..|].
    by apply Hnames, list_elem_of_In. }
  apply extract_data_cautiously_returns in Hrun as Hloop.
  rewrite Hr1 in Hloop.
  destruct (extract_members_ok h dir _ _ _ Hloop) as (_ & _ & H3 & _ & H5 & _).
  rewrite members_of_stream_of in H3, H5.
  split_and!.
  - rewrite extract_data_cautiously_run, Hr2.
    pose proof (extract_members_prepend h dir ms TarCorrupt s s1 Hloop)
      as Hpre.
    destruct ms as [|m0 ms]; cbn [prepend] in *.
    + simpl in Hloop. by injection Hloop as <-.
    + by rewrite Hpre.
  - intros ->. simpl in Hloop. by injection Hloop as <-.
  - apply new_events_app. rewrite H3. f_equal.
    apply map_ext_in. intros m Hm%list_elem_of_In. by rewrite HT.
  - intros m Hm. rewrite <- (HT m Hm). by apply H5.
Qed.

(** X4 (witness). The header after [a.txt] cannot be read. *)
Lemma read_error_keeps_partial_extraction_witness :
  let h := demo_host None in
  let r2 := {| status_code := 200; content_length := None;
               raw := prepend [file_member "a.txt" "A"] TarCorrupt |} in
  let r := geoips_config.extract_data_cautiously h r2 "/data" data_only in
  fst r = Raises (Raise ReadError ArgNone)
  /\ new_events data_only (snd r) = [EvExtract "/data/a.txt"]
  /\ fs (snd r) !! "/data/a.txt" = Some (File "A").
Proof.
  intros h r2 r.
  destruct (read_error_keeps_partial_extraction h
              (ok_response [file_member "a.txt" "A"]) r2 "/data"
              [file_member "a.txt" "A"] data_only
              (snd (geoips_config.extract_data_cautiously h
                      (ok_response [file_member "a.txt" "A"]) "/data"
                      data_only))
              eq_refl eq_refl eq_refl eq_refl eq_refl) as (Hrun & _ & Hev & _).
  subst r. rewrite Hrun. split_and!; [reflexivity|exact Hev|by vm_compute].
Defined.

(** X5. With a relative, non-empty [download_dir] the test refuses
    every member, whatever its name: [abspath] gives an absolute path,
    which cannot begin with a relative one.  An archive with at least
    one member then ends in [SystemExit] with the unsafe-path message
    and nothing is extracted.  With the empty string as [download_dir]
    the test refuses no member at all. *)
Theorem relative_download_dir_refuses_every_member
    (h : host) (resp : response) (dir : string) (m : TarInfo)
    (rest : tar_stream) (s : state) :
  posixpath.isabs (getcwd h) = true ->
  dir <> "" ->
  posixpath.isabs dir = false ->
  raw resp = TarMember m rest ->
  geoips_config.isContained (getcwd h) dir (name m) = false
  /\ geoips_config.extract_data_cautiously h resp dir s
     = (Raises (Raise SystemExit (ArgStr geoips_config.unsafe_msg)), s)
  /\ forall m', geoips_config.isContained (getcwd h) "" (name m') = true.
Proof.
  intros Hcwd Hne Hrel Hraw.
  assert (forall m', geoips_config.isContained (getcwd h) "" (name m') = true)
    as Hempty by (intros m'; apply prefix_nil_l).
  assert (geoips_config.isContained (getcwd h) dir (name m) = false) as Hc.
  { unfold geoips_config.isContained.
    apply relative_not_prefix_of_absolute; [|done..].
    by apply abspath_isabs. }
  split_and!; [exact Hc| |exact Hempty].
  rewrite extract_data_cautiously_run, Hraw.
  by rewrite (extract_members_refuses h dir m rest s Hc).
Qed.

(** X5 (witness). The harmless member [a.txt] into the relative
    directory [data], from the working directory [/]. *)
Lemma relative_download_dir_refuses_every_member_witness :
  let h := demo_host None in
  posixpath.isabs (getcwd h) = true
  /\ posixpath.isabs "data" = false
  /\ geoips_config.extract_data_cautiously h
       (ok_response [file_member "a.txt" "A"]) "data" data_only
     = (Raises (Raise SystemExit (ArgStr geoips_config.unsafe_msg)), data_only).
Proof.
  intros h.
  assert (posixpath.isabs (getcwd h) = true) as H1 by reflexivity.
  assert (posixpath.isabs "data" = false) as H2 by reflexivity.
  split_and!; [exact H1|exact H2|].
  destruct (relative_download_dir_refuses_every_member h
              (ok_response [file_member "a.txt" "A"]) "data"
              (file_member "a.txt" "A") TarEnd data_only H1)
    as (_ & Hrun & _); [discriminate|exact H2|reflexivity|exact Hrun].
Defined.

(** ** The install command *)

Section InstallRuns.
Variable h : host.

Lemma listdir_returns path s entries s' :
  os.listdir h path s = (Returns entries, s') ->
  path <> "" /\ fs s !! posixpath.abspath (getcwd h) path = Some Dir
  /\ s' = s.
Proof.
  unfold os.listdir. destruct (String.eqb path "") eqn:Hp; [done|].
  apply String.eqb_neq in Hp. run.
  destruct (fs s !! _) as [[|c]|]; [|done..].
  by intros [= _ <-].
Qed.

Lemma listdir_raises path s e s' :
  os.listdir h path s = (Raises e, s') ->
  s' = s
  /\ e = Raise (match fs s !! posixpath.abspath (getcwd h) path with
                | Some (File _) =>
                    if String.eqb path "" then FileNotFoundError
                    else NotADirectoryError
                | _ => FileNotFoundError
                end) (ArgStr path).
Proof.
  unfold os.listdir. destruct (String.eqb path "") eqn:Hp.
  - run. intros [= <- <-]. split; [done|].
    by destruct (fs s !! _) as [[|c]|].
  - run. destruct (fs s !! _) as [[|c]|]; [done|by intros [= <- <-]..].
Qed.

Lemma appends_download_extract_test_data url dir :
  appends (fun _ => True) (geoips_config.download_extract_test_data h url dir).
Proof.
  unfold geoips_config.download_extract_test_data, requests.get,
    geoips_config.extract_data_cautiously.
  repeat appends_step; try done.
  - apply appends_tarfile_open.
  - by apply appends_extract_members.
Qed.

Variables (name url dir : string).
Hypothesis Hcat : geoips_config.test_dataset_dict !! name = Some url.
Hypothesis Henv : environ h !! "GEOIPS_TESTDATA_DIR" = Some dir.

(** The entry of the listing that the guard of [__call__] looks for. *)
Lemma listed_iff_entry s :
  dir <> "" ->
  fs s !! posixpath.abspath (getcwd h) dir = Some Dir ->
  (exists key, is_Some (fs s !! key)
     /\ os.child_name (posixpath.abspath (getcwd h) dir) key = Some name)
  <-> is_Some (fs s !! posixpath.join (posixpath.abspath (getcwd h) dir) name).
Proof.
  intros Hdir Hroot.
  destruct (catalog_name_simple name url Hcat) as [Hn Hc].
  pose proof (normpath_nonempty
                (if posixpath.isabs dir then dir
                 else posixpath.join (getcwd h) dir)) as Hp.
  fold (posixpath.abspath (getcwd h) dir) in Hp.
  split.
  - intros (key & Hsome & Hchild).
    apply child_name_inv in Hchild as (-> & _ & _).
    rewrite join_simple by auto using contains_slash_startswith. done.
  - intros Hsome. eexists. split; [exact Hsome|].
    by apply child_name_join.
Qed.

Lemma call_not_listed_events s entries :
  os.listdir h dir s = (Returns entries, s) -> name ∉ entries ->
  exists l,
    trace (snd (geoips_config.__call__ h name s))
    = trace s ++ EvPrint (geoips_config.installing_msg name)
        :: EvHttpGet url true (Some 15%Z) :: l
    /\ Forall not_get l /\ Forall not_clone l.
Proof.
  intros Hls Hnot.
  rewrite (call_when_not_listed h name url dir Hcat Henv s entries Hls Hnot).
  set (s0 := log (EvPrint (geoips_config.installing_msg name)) s).
  destruct (catalog_events h url dir s0) as (l & Hl & Hg & Hc).
  apply (trace_of_new_events _ _ _ (appends_download_extract_test_data url dir))
    in Hl.
  destruct (geoips_config.download_extract_test_data h url dir s0)
    as [[[]|e] s'] eqn:Hd; cbn [snd] in *.
  - exists (l ++ [EvPrint (geoips_config.installed_msg dir name)]).
    split_and!.
    + cbn [trace log]. rewrite Hl. subst s0. cbn [trace log].
      by rewrite <- !app_assoc.
    + apply Forall_app. split; [done|]. by repeat constructor.
    + apply Forall_app. split; [done|]. by repeat constructor.
  - exists l. split_and!; [|done..].
    rewrite Hl. subst s0. cbn [trace log]. by rewrite <- !app_assoc.
Qed.
End InstallRuns.

(** X6. What [__call__] does before it prints anything: a name that
    is not in the catalog raises [KeyError] with that name, even when
    the environment variable is missing too; a catalog name with
    [GEOIPS_TESTDATA_DIR] unset raises [KeyError] with the variable's
    name; a directory that is the empty string, or an absolute
    normalized path below existing directories at which nothing exists,
    raises [FileNotFoundError], and such a path at which a regular file
    exists raises [NotADirectoryError].  In all these cases the state is
    unchanged: nothing was printed, fetched or written. *)
Theorem install_fails_before_any_output (h : host) (name : string) (s : state) :
  let r := geoips_config.__call__ h name s in
  (geoips_config.test_dataset_dict !! name = None ->
   r = (Raises (Raise KeyError (ArgStr name)), s))
  /\ (is_Some (geoips_config.test_dataset_dict !! name) ->
      environ h !! "GEOIPS_TESTDATA_DIR" = None ->
      r = (Raises (Raise KeyError (ArgStr "GEOIPS_TESTDATA_DIR")), s))
  /\ (forall dir,
        is_Some (geoips_config.test_dataset_dict !! name) ->
        environ h !! "GEOIPS_TESTDATA_DIR" = Some dir ->
        (dir = "" \/ (reachable (fs s) dir = true /\ fs s !! dir = None) ->
         r = (Raises (Raise FileNotFoundError (ArgStr dir)), s))
        /\ (reachable (fs s) dir = true ->
            is_file (fs s !! dir) = true ->
            r = (Raises (Raise NotADirectoryError (ArgStr dir)), s))).
Proof.
  intros r. subst r.
  unfold geoips_config.__call__, geoips_config.geoips_testdata_dir.
  split_and!.
  - intros ->. reflexivity.
  - intros [u ->] ->. reflexivity.
  - intros dir [u ->] ->. run. unfold os.listdir. split.
    + intros [->|[Hreach Hnone]]; [reflexivity|].
      apply reachable_spec in Hreach as (Habs & Hnorm & _).
      rewrite (abspath_normal h dir Habs Hnorm).
      destruct (String.eqb dir ""); [reflexivity|]. run. by rewrite Hnone.
    + intros Hreach Hfile.
      apply reachable_spec in Hreach as (Habs & Hnorm & _).
      rewrite (abspath_normal h dir Habs Hnorm).
      pose proof (isabs_nonempty dir Habs) as Hne.
      apply String.eqb_neq in Hne. rewrite Hne. run.
      by destruct (fs s !! _) as [[|c]|].
Qed.

(** X6 (witness). An unknown name; and the catalog name
    [test_data_viirs] when [/data] is a regular file. *)
Lemma install_fails_before_any_output_witness :
  let h := demo_host None in
  let s := State {[ "/data" := File "" ]} false [] in
  geoips_config.__call__ h "test_data_modis" s
  = (Raises (Raise KeyError (ArgStr "test_data_modis")), s)
  /\ geoips_config.__call__ h "test_data_viirs" s
     = (Raises (Raise NotADirectoryError (ArgStr "/data")), s).
Proof.
  intros h s.
  destruct (install_fails_before_any_output h "test_data_modis" s)
    as (H1 & _).
  destruct (install_fails_before_any_output h "test_data_viirs" s)
    as (_ & _ & H3).
  split.
  - apply H1. by vm_compute.
  - assert (is_Some (geoips_config.test_dataset_dict !! "test_data_viirs"))
      as Hcat by (by eexists).
    destruct (H3 "/data" Hcat eq_refl) as [_ H4].
    apply H4; reflexivity.
Defined.

(** X7. Whatever the name, the environment, the file system and the
    server, a run of [__call__] issues at most one GET; that GET is for
    the URL the catalog gives for the name, streamed and with timeout
    15; and the run never clones a repository. *)
Theorem install_fetches_only_the_catalog_url
    (h : host) (name : string) (s : state) :
  let new := new_events s (snd (geoips_config.__call__ h name s)) in
  Forall not_clone new
  /\ length (filter (fun e => is_get e = true) new) <= 1
  /\ forall e, e ∈ new -> is_get e = true ->
       exists url, geoips_config.test_dataset_dict !! name = Some url
                   /\ e = EvHttpGet url true (Some 15%Z).
Proof.
  intros new. subst new.
  assert (forall r : outcome unit * state,
            snd r = s ->
            Forall not_clone (new_events s (snd r))
            /\ length (filter (fun e => is_get e = true)
                         (new_events s (snd r))) <= 1
            /\ forall e, e ∈ new_events s (snd r) -> is_get e = true ->
                 exists url, geoips_config.test_dataset_dict !! name = Some url
                             /\ e = EvHttpGet url true (Some 15%Z)) as Hsame.
  { intros r ->. rewrite new_events_refl. split_and!; [done|simpl; lia|].
    by intros e ?%elem_of_nil. }
  destruct (geoips_config.test_dataset_dict !! name) as [url|] eqn:Hcat.
  2:{ apply Hsame. unfold geoips_config.__call__. by rewrite Hcat. }
  destruct (environ h !! "GEOIPS_TESTDATA_DIR") as [dir|] eqn:Henv.
  2:{ apply Hsame. unfold geoips_config.__call__,
        geoips_config.geoips_testdata_dir. by rewrite Hcat, Henv. }
  destruct (os.listdir h dir s) as [[entries|e] s0] eqn:Hls.
  2:{ apply Hsame. apply listdir_raises in Hls as Hs0. destruct Hs0 as [-> _].
      unfold geoips_config.__call__, geoips_config.geoips_testdata_dir.
      rewrite Hcat, Henv. run. by rewrite Hls. }
  destruct (listdir_returns h dir s entries s0 Hls) as (Hdir & Hroot & ->).
  destruct (decide (name ∈ entries)) as [Hin|Hnot].
  - assert (geoips_config.__call__ h name s
            = (Returns tt,
               log (EvPrint (geoips_config.already_exists_msg dir name)) s))
      as ->.
    { unfold geoips_config.__call__, geoips_config.geoips_testdata_dir.
      rewrite Hcat, Henv. run. rewrite Hls.
      by rewrite bool_decide_eq_true_2. }
    rewrite (new_events_app s _ [EvPrint (geoips_config.already_exists_msg dir name)])
      by done.
    split_and!; [by repeat constructor|simpl; lia|].
    intros e ->%list_elem_of_singleton. done.
  - destruct (call_not_listed_events h name url dir Hcat Henv s entries Hls Hnot)
      as (l & Hl & Hg & Hc).
    rewrite (new_events_app _ _ _ Hl).
    split_and!.
    + by repeat constructor.
    + rewrite filter_cons_False by done.
      rewrite filter_cons_True by done.
      rewrite filter_no_get by done. simpl. lia.
    + intros e [->|[->|He]%elem_of_cons]%elem_of_cons Hget; [done|by eauto|].
      rewrite Forall_forall in Hg. specialize (Hg e He).
      unfold not_get in Hg. congruence.
Qed.

(** X7 (witness). Installing [test_data_viirs] into an empty [/data]. *)
Lemma install_fetches_only_the_catalog_url_witness :
  let h := demo_host (Some (ok_response viirs_archive)) in
  let new := new_events data_only
               (snd (geoips_config.__call__ h "test_data_viirs" data_only)) in
  Forall not_clone new
  /\ exists url,
       geoips_config.test_dataset_dict !! "test_data_viirs" = Some url
       /\ EvHttpGet url true (Some 15%Z) ∈ new.
Proof.
  intros h new.
  destruct (install_fetches_only_the_catalog_url h "test_data_viirs" data_only)
    as (H1 & _ & H3).
  split; [exact H1|].
  assert (EvHttpGet
            "https://io.cira.colostate.edu/s/mQ2HbE2Js4E9rba/download/test_data_viirs.tgz"
            true (Some 15%Z) ∈ new) as Hin.
  { vm_compute. apply elem_of_cons. right. apply list_elem_of_here. }
  destruct (H3 _ Hin eq_refl) as (url & Hu & Heq).
  exists url. split; [exact Hu|]. rewrite <- Heq. exact Hin.
Defined.

(** X8. The guard of [__call__] looks at the listing only.  Let the
    test-data directory be given by its absolute normalized path and
    let the archive hold members with normalized relative names, none
    of which is the data set's name or lies below it.  When a call
    returned after extracting that archive, it has reported the data set
    as installed, no entry called like the data set exists, and the next
    call downloads the same URL again. *)
Theorem install_downloads_again_when_entry_not_created
    (h : host) (dataset url dir : string) (resp : response)
    (ms : list TarInfo) (s s1 : state) :
  geoips_config.test_dataset_dict !! dataset = Some url ->
  environ h !! "GEOIPS_TESTDATA_DIR" = Some dir ->
  http h url = Some resp ->
  raw resp = stream_of ms ->
  reachable (fs s) dir = true ->
  forallb (fun m => normal_name (name m)) ms = true ->
  forallb (fun m => negb (String.eqb (name m) dataset)
                    && negb (Str.startswith (name m) (dataset +:+ "/")))
    ms = true ->
  let entry := posixpath.join dir dataset in
  fs s !! entry = None ->
  geoips_config.__call__ h dataset s = (Returns tt, s1) ->
  fs s1 !! entry = None
  /\ List.last (trace s1) (EvPrint "")
     = EvPrint ("Test dataset '" +:+ dataset +:+ "' has been installed under "
                +:+ dir +:+ "/" +:+ dataset +:+ "/")
  /\ exists l,
       new_events s1 (snd (geoips_config.__call__ h dataset s1))
       = EvPrint ("Installing " +:+ dataset
                  +:+ " test dataset. This may take a while...")
           :: EvHttpGet url true (Some 15%Z) :: l.
Proof.
  intros Hcat Henv Hhttp Hraw Hreach Hnames Hother entry Hnone Hrun.
  apply reachable_spec in Hreach as (Habs & Hnorm & _).
  pose proof (abspath_normal h dir Habs Hnorm) as Hp.
  destruct (catalog_name_simple _ _ Hcat) as [Hne Hslash].
  rewrite forallb_forall in Hnames, Hother.
  assert (forall m, m ∈ ms ->
            entry <> tarfile.target_of h dir m
            /\ entry ∉ os.upperdirs (tarfile.target_of h dir m)) as Hms.
  { intros m Hm.
    assert (normal_name (name m) = true) as Hn
      by (by apply Hnames, list_elem_of_In).
    apply list_elem_of_In, Hother, andb_true_iff in Hm as [H1 H2].
    apply negb_true_iff, String.eqb_neq in H1. apply negb_true_iff in H2.
    rewrite (target_below h dir Habs Hnorm m Hn). subst entry.
    rewrite (join_simple dir (name m)), (join_simple dir dataset);
      [|by apply isabs_nonempty|by apply contains_slash_startswith
       |by apply isabs_nonempty|].
    2:{ apply normal_name_relative. by apply normal_name_spec. }
    set (pre := if Str.endswith_char dir posixpath.sep then dir
                else dir +:+ "/").
    split.
    - intros Heq%app_inv_head_s. congruence.
    - intros (a & b & Hab & Ha)%upperdirs_from_prefix.
      rewrite app_empty_l in Ha. subst a.
      rewrite <- app_assoc_s in Hab. apply app_inv_head_s in Hab.
      rewrite Hab in H2.
      change (String posixpath.sep b) with ("/" +:+ b) in H2.
      rewrite app_assoc_s in H2.
      by rewrite (startswith_app (dataset +:+ "/") b) in H2. }
  destruct (os.listdir h dir s) as [[entries|e] s0] eqn:Hls.
  2:{ revert Hrun. unfold geoips_config.__call__,
        geoips_config.geoips_testdata_dir.
      rewrite Hcat, Henv. run. by rewrite Hls. }
  destruct (listdir_returns h dir s entries s0 Hls) as (Hdir & Hroot & ->).
  destruct (listdir_run h dir s Hdir Hroot) as (entries' & Hls' & Hiff).
  rewrite Hls in Hls'. injection Hls' as <-.
  assert (dataset ∉ entries) as Hnot.
  { intros Hin. apply Hiff in Hin.
    apply (listed_iff_entry h dataset url dir Hcat s Hdir Hroot) in Hin.
    rewrite Hp in Hin. fold entry in Hin. rewrite Hnone in Hin.
    by destruct Hin. }
  rewrite (call_when_not_listed h dataset url dir Hcat Henv s entries Hls Hnot)
    in Hrun.
  set (s0 := log (EvPrint (geoips_config.installing_msg dataset)) s) in *.
  destruct (geoips_config.download_extract_test_data h url dir s0)
    as [[[]|e] s'] eqn:Hd; [|done].
  injection Hrun as <-.
  destruct (download_extract_test_data_ok h url dir s0 s' Hd)
    as (resp' & Hhttp' & _ & Hloop).
  rewrite Hhttp in Hhttp'. injection Hhttp' as <-. rewrite Hraw in Hloop.
  destruct (extract_members_ok h dir _ _ _ Hloop)
    as (_ & _ & _ & _ & _ & _ & Hframe).
  rewrite members_of_stream_of in Hframe.
  assert (fs s' !! entry = None) as Hnone'.
  { rewrite (Hframe entry Hms). exact Hnone. }
  assert (fs s' !! posixpath.abspath (getcwd h) dir = Some Dir) as Hroot'.
  { replace s' with (snd (geoips_config.extract_members h (stream_of ms) dir
                            (log (EvHttpGet url true (Some 15%Z)) s0)))
      by (by rewrite Hloop).
    apply extract_members_keeps; [exact Hroot|by left]. }
  set (s1 := log (EvPrint (geoips_config.installed_msg dir dataset)) s').
  split_and!.
  - exact Hnone'.
  - subst s1. cbn [trace log]. apply last_last.
  - destruct (listdir_run h dir s1 Hdir Hroot') as (entries1 & Hls1 & Hiff1).
    assert (dataset ∉ entries1) as Hnot1.
    { intros Hin. apply Hiff1 in Hin.
      apply (listed_iff_entry h dataset url dir Hcat s1 Hdir Hroot') in Hin.
      rewrite Hp in Hin. fold entry in Hin. change (fs s1) with (fs s') in Hin.
      rewrite Hnone' in Hin. by destruct Hin. }
    destruct (call_not_listed_events h dataset url dir Hcat Henv s1 entries1
                Hls1 Hnot1) as (l & Hl & _).
    exists l. by apply new_events_app.
Qed.

(** X8 (witness). The server's archive for [test_data_viirs] holds
    [a.txt] and [sub/b.txt] only. *)
Lemma install_downloads_again_when_entry_not_created_witness :
  let h := demo_host (Some (ok_response (two_files "A" "B"))) in
  let url := "https://io.cira.colostate.edu/s/mQ2HbE2Js4E9rba/download/test_data_viirs.tgz" in
  let r1 := geoips_config.__call__ h "test_data_viirs" data_only in
  fst r1 = Returns tt
  /\ fs (snd r1) !! "/data/test_data_viirs" = None
  /\ exists l,
       new_events (snd r1)
         (snd (geoips_config.__call__ h "test_data_viirs" (snd r1)))
       = EvPrint "Installing test_data_viirs test dataset. This may take a while..."
           :: EvHttpGet url true (Some 15%Z) :: l.
Proof.
  intros h url r1.
  assert (fst r1 = Returns tt) as Hret by (by vm_compute).
  assert (r1 = (Returns tt, snd r1)) as Hrun.
  { destruct r1 as [o s1]. simpl in *. by rewrite Hret. }
  destruct (install_downloads_again_when_entry_not_created h
              "test_data_viirs" url "/data"
              (ok_response (two_files "A" "B")) (two_files "A" "B")
              data_only (snd r1) eq_refl eq_refl eq_refl eq_refl
              eq_refl eq_refl eq_refl eq_refl Hrun) as (H1 & _ & H3).
  split_and!; [exact Hret|exact H1|exact H3].
Defined.

(** ** What the messages of the install command mean *)

Lemma installing_is_not_installed dir name :
  geoips_config.installing_msg name <> geoips_config.installed_msg dir name.
Proof.
  unfold geoips_config.installing_msg, geoips_config.installed_msg.
  rewrite !app_cons. intros [= ?].
Qed.

Lemma already_exists_is_not_installed dir name :
  geoips_config.already_exists_msg dir name
  <> geoips_config.installed_msg dir name.
Proof.
  unfold geoips_config.already_exists_msg, geoips_config.installed_msg.
  intros H. apply app_inv_head_s, app_inv_head_s in H.
  rewrite !app_cons in H. by injection H.
Qed.

Lemma appends_no_print_download_extract_test_data (h : host) url dir :
  appends (fun e => is_print e = false)
    (geoips_config.download_extract_test_data h url dir).
Proof.
  unfold geoips_config.download_extract_test_data, requests.get,
    geoips_config.extract_data_cautiously.
  repeat appends_step; try done.
  - apply appends_tarfile_open.
  - by apply appends_extract_members.
Qed.

(** X9. The message that the test data set has been installed is
    printed by exactly the calls that fetched the catalog URL and
    returned normally.  Such a call got status 200, its loop over the
    archive ended without an error, and every member the loop was given
    passed the containment test; the message is then the last thing the
    call did.  A call that raises has not printed it. *)
Theorem installed_is_reported_only_after_the_loop_ended
    (h : host) (dataset url dir : string) (s : state) :
  geoips_config.test_dataset_dict !! dataset = Some url ->
  environ h !! "GEOIPS_TESTDATA_DIR" = Some dir ->
  let r := geoips_config.__call__ h dataset s in
  let new := new_events s (snd r) in
  (EvPrint (geoips_config.installed_msg dir dataset) ∈ new
   <-> fst r = Returns tt /\ EvHttpGet url true (Some 15%Z) ∈ new)
  /\ (EvPrint (geoips_config.installed_msg dir dataset) ∈ new ->
      List.last new (EvPrint "")
      = EvPrint (geoips_config.installed_msg dir dataset)
      /\ exists resp ms,
           http h url = Some resp /\ status_code resp = 200%Z
           /\ raw resp = stream_of ms
           /\ Forall (fun m => geoips_config.isContained (getcwd h) dir
                                 (name m) = true) ms).
Proof.
  intros Hcat Henv r new. subst new r.
  destruct (os.listdir h dir s) as [[entries|e] s0] eqn:Hls.
  2:{ apply listdir_raises in Hls as Hs0. destruct Hs0 as [-> _].
      assert (geoips_config.__call__ h dataset s = (Raises e, s)) as ->.
      { unfold geoips_config.__call__, geoips_config.geoips_testdata_dir.
        rewrite Hcat, Henv. run. by rewrite Hls. }
      cbn [fst snd]. rewrite new_events_refl.
      split; [split|]; try (by intros ?%elem_of_nil). by intros [? _]. }
  destruct (listdir_returns h dir s entries s0 Hls) as (Hdir & Hroot & ->).
  destruct (decide (dataset ∈ entries)) as [Hin|Hnot].
  - assert (geoips_config.__call__ h dataset s
            = (Returns tt,
               log (EvPrint (geoips_config.already_exists_msg dir dataset)) s))
      as ->.
    { unfold geoips_config.__call__, geoips_config.geoips_testdata_dir.
      rewrite Hcat, Henv. run. rewrite Hls.
      by rewrite bool_decide_eq_true_2. }
    cbn [fst snd].
    rewrite (new_events_app s _
               [EvPrint (geoips_config.already_exists_msg dir dataset)])
      by done.
    assert (EvPrint (geoips_config.installed_msg dir dataset)
            ∉ [EvPrint (geoips_config.already_exists_msg dir dataset)]) as Hno.
    { intros H%list_elem_of_singleton.
      apply (already_exists_is_not_installed dir dataset). congruence. }
    split; [split|]; try done.
    by intros [_ [=]%list_elem_of_singleton].
  - rewrite (call_when_not_listed h dataset url dir Hcat Henv s entries Hls Hnot).
    set (s0 := log (EvPrint (geoips_config.installing_msg dataset)) s).
    destruct (appends_no_print_download_extract_test_data h url dir s0)
      as (l & Hl & Hnp & _).
    destruct (catalog_events h url dir s0) as (l' & Hl' & _).
    rewrite (new_events_app _ _ _ Hl) in Hl'. subst l.
    assert (EvPrint (geoips_config.installed_msg dir dataset)
            ∉ EvPrint (geoips_config.installing_msg dataset)
              :: EvHttpGet url true (Some 15%Z) :: l') as Hno.
    { intros [H|Hin]%elem_of_cons.
      - apply (installing_is_not_installed dir dataset). congruence.
      - rewrite Forall_forall in Hnp. by specialize (Hnp _ Hin). }
    destruct (geoips_config.download_extract_test_data h url dir s0)
      as [[[]|e] s'] eqn:Hd; cbn [fst snd] in *.
    + assert (new_events s
                (log (EvPrint (geoips_config.installed_msg dir dataset)) s')
              = (EvPrint (geoips_config.installing_msg dataset)
                   :: EvHttpGet url true (Some 15%Z) :: l')
                ++ [EvPrint (geoips_config.installed_msg dir dataset)]) as ->.
      { apply new_events_app. cbn [trace log]. rewrite Hl. subst s0.
        cbn [trace log]. by rewrite <- !app_assoc. }
      split; [split|].
      * intros _. split; [done|]. apply elem_of_app. left.
        apply elem_of_cons. right. apply list_elem_of_here.
      * intros _. apply elem_of_app. right. apply list_elem_of_here.
      * intros _. split; [apply last_last|].
        destruct (download_extract_test_data_ok h url dir s0 s' Hd)
          as (resp & Hhttp & Hst & Hloop).
        destruct (extract_members_ok h dir _ _ _ Hloop) as (Htar & Hall & _).
        by exists resp, (members_of (raw resp)).
    + assert (new_events s s'
              = EvPrint (geoips_config.installing_msg dataset)
                  :: EvHttpGet url true (Some 15%Z) :: l') as ->.
      { apply new_events_app. rewrite Hl. subst s0. cbn [trace log].
        by rewrite <- !app_assoc. }
      split; [split|]; try done. by intros [? _].
Qed.

(** X9 (witness). The archive of [test_data_viirs] holds the
    directory and a file below it. *)
Lemma installed_is_reported_only_after_the_loop_ended_witness :
  let h := demo_host (Some (ok_response viirs_archive)) in
  let r := geoips_config.__call__ h "test_data_viirs" data_only in
  fst r = Returns tt
  /\ List.last (new_events data_only (snd r)) (EvPrint "")
     = EvPrint "Test dataset 'test_data_viirs' has been installed under /data/test_data_viirs/".
Proof.
  intros h r.
  destruct (installed_is_reported_only_after_the_loop_ended h
              "test_data_viirs"
              "https://io.cira.colostate.edu/s/mQ2HbE2Js4E9rba/download/test_data_viirs.tgz"
              "/data" data_only eq_refl eq_refl) as [Hiff Hlast].
  assert (fst r = Returns tt) as Hret by (by vm_compute).
  split; [exact Hret|].
  apply Hlast, Hiff. split; [exact Hret|]. by vm_compute; apply elem_of_cons; right; apply list_elem_of_here.
Defined.

(** ** The ad-hoc downloader *)

Lemma appends_in_of_appends {A} b (P : event -> Prop) (m : M A) :
  appends P m -> appends_in b P m.
Proof.
  intros Hm s Hs. destruct (Hm s) as (l & Hl & HP & Hc).
  exists l. split_and!; [done..|]. by rewrite Hc.
Qed.

Lemma appends_in_bind {A B} b P (m : M A) (k : A -> M B) :
  appends_in b P m -> (forall a, appends_in b P (k a)) ->
  appends_in b P (bind m k).
Proof.
  intros Hm Hk s Hs. unfold bind. destruct (Hm s Hs) as (l & Hl & HP & Hc).
  destruct (m s) as [[a|e] s1]; simpl in *.
  - destruct (Hk a s1 Hc) as (l' & Hl' & HP' & Hc').
    exists (l ++ l'). rewrite Hl', Hl, app_assoc.
    split_and!; [done| by apply Forall_app |done].
  - by exists l.
Qed.

Lemma appends_in_try_except {A} b P (body : M A) cls handler :
  appends_in b P body -> (forall e, appends_in b P (handler e)) ->
  appends_in b P (try_except body cls handler).
Proof.
  intros Hm Hk s Hs. unfold try_except.
  destruct (Hm s Hs) as (l & Hl & HP & Hc).
  destruct (body s) as [[a|e] s1]; simpl in *.
  - by exists l.
  - destruct (issubclass _ _); [|by exists l].
    destruct (Hk e s1 Hc) as (l' & Hl' & HP' & Hc').
    exists (l ++ l'). rewrite Hl', Hl, app_assoc.
    split_and!; [done| by apply Forall_app |done].
Qed.

Lemma appends_in_output_to_console b msg style :
  appends_in b (in_mode b) (download_test_data.output_to_console msg style).
Proof.
  intros s Hs. rewrite output_to_console_run. unfold report. rewrite Hs.
  eexists [_]. cbn [snd trace log console].
  split_and!; [reflexivity| |done].
  repeat constructor. unfold in_mode. by destruct b.
Qed.

Section Downloader.
Variable h : host.

Lemma appends_in_download_from_git b url dest :
  appends_in b (in_mode b) (download_test_data.download_from_git h url dest).
Proof.
  unfold download_test_data.download_from_git,
    download_test_data.check_output_git_clone.
  apply appends_in_try_except.
  - apply appends_in_bind; [apply appends_in_output_to_console|intros _].
    apply appends_in_bind; [|intros _; apply appends_in_output_to_console].
    apply appends_in_of_appends. repeat appends_step.
    unfold in_mode. by destruct b.
  - intros e.
    apply appends_in_bind; [|intros out; apply appends_in_output_to_console].
    apply appends_in_of_appends. unfold download_test_data.decode_utf8.
    repeat appends_step.
Qed.

Lemma appends_in_download_and_extract_compressed_tar b url dest :
  appends_in b (in_mode b)
    (download_test_data.download_and_extract_compressed_tar h url dest).
Proof.
  assert (forall e, (forall m s, e <> EvPrint m /\ e <> EvConsole m s) ->
                    in_mode b e) as Hother.
  { intros e He. unfold in_mode. destruct b, e; try done.
    - by destruct (He msg None) as [? _].
    - by destruct (He msg style) as [_ ?]. }
  unfold download_test_data.download_and_extract_compressed_tar.
  apply appends_in_bind; [apply appends_in_output_to_console|intros _].
  apply appends_in_try_except.
  2:{ intros e. apply appends_in_bind; [apply appends_in_output_to_console|].
      intros _. apply appends_in_of_appends, appends_reraise. }
  apply appends_in_bind; [|intros _; apply appends_in_output_to_console].
  apply appends_in_bind.
  { apply appends_in_of_appends. unfold requests.get. repeat appends_step.
    by apply Hother. }
  intros r. apply appends_in_bind.
  { apply appends_in_of_appends. unfold requests.raise_for_status.
    repeat appends_step. }
  intros _. apply appends_in_bind.
  { apply appends_in_of_appends. unfold requests.int_content_length.
    repeat appends_step. }
  intros n. apply appends_in_bind.
  { apply appends_in_of_appends, appends_open_wb. intros p. by apply Hother. }
  intros _. apply appends_in_bind.
  { apply appends_in_of_appends, appends_tarfile_open. }
  intros tar. apply appends_in_bind; [apply appends_in_output_to_console|].
  intros _. apply appends_in_of_appends, appends_extractall.
  intros t. by apply Hother.
Qed.
End Downloader.

(** X10. Every message of [main] goes the way chosen at start-up:
    with [--no-rich] nothing is sent to the rich console, and without it
    nothing is printed with plain [print], on each of the three branches
    and on their failure paths. *)
Theorem main_reports_in_the_chosen_mode
    (h : host) (url output_dir : string) (no_rich : bool) (s : state) :
  let r := download_test_data.main h url output_dir no_rich s in
  Forall (in_mode (negb no_rich)) (new_events s (snd r))
  /\ console (snd r) = negb no_rich.
Proof.
  intros r. subst r. unfold download_test_data.main,
    download_test_data.setup_rich_console.
  set (b := negb no_rich). unfold bind at 1. unfold modify.
  set (s0 := set_console b s).
  assert (appends_in b (in_mode b)
            (if Str.contains ".git" url
             then download_test_data.download_from_git h url output_dir
             else if Str.contains ".tgz" url
                  then download_test_data.download_and_extract_compressed_tar
                         h url output_dir
                  else download_test_data.output_to_console
                         download_test_data.unsupported_msg (Some "bold red")))
    as Happ.
  { destruct (Str.contains ".git" url);
      [apply appends_in_download_from_git|].
    destruct (Str.contains ".tgz" url);
      [apply appends_in_download_and_extract_compressed_tar|].
    apply appends_in_output_to_console. }
  destruct (Happ s0 eq_refl) as (l & Hl & HP & Hc).
  split; [|exact Hc].
  by rewrite (new_events_app s _ l Hl).
Qed.

(** X11. When [git clone] exits with a non-zero status, the failure is
    reported and not raised, provided the captured output is valid
    UTF-8 and, unless the plain mode is on, the reference, the directory
    and the output hold no [[]: [download_from_git] returns normally,
    having announced the clone, run it once and reported the captured
    output; the success message does not appear.  Output that is not
    valid UTF-8 ends the call with [UnicodeDecodeError] after the clone,
    with no report.  [main] does the same for a reference that holds
    [.git]. *)
Theorem failed_clone_is_reported_not_raised
    (h : host) (url output_dir out : string) (no_rich : bool) (s : state) :
  git_clone h url output_dir = Some out ->
  no_rich = true
  \/ (no_markup url = true /\ no_markup output_dir = true
      /\ no_markup out = true) ->
  let s0 := set_console (negb no_rich) s in
  let cloned :=
    log (EvGitClone url output_dir)
      (log (report s0 ("Cloning repository from " +:+ url +:+ " to "
                       +:+ output_dir +:+ "...") (Some "bold cyan")) s0) in
  download_test_data.download_from_git h url output_dir s0
  = (if Str.valid_utf8 out
     then (Returns tt,
           log (report s0 ("Failed to clone repository: " +:+ out)
                  (Some "bold red")) cloned)
     else (Raises (Raise UnicodeDecodeError ArgNone), cloned))
  /\ (Str.contains ".git" url = true ->
      download_test_data.main h url output_dir no_rich s
      = download_test_data.download_from_git h url output_dir s0).
Proof.
  intros Hgit _ s0 cloned. subst cloned. split.
  - unfold download_test_data.download_from_git,
      download_test_data.check_output_git_clone,
      download_test_data.decode_utf8.
    unfold try_except. unfold bind at 1. rewrite output_to_console_run.
    unfold bind at 1. unfold bind at 1. unfold emit, modify.
    rewrite Hgit. unfold raise. eval_issubclass. cbv iota beta.
    cbn [exn_arg_of]. unfold bind.
    destruct (Str.valid_utf8 out); unfold ret; [|reflexivity].
    rewrite output_to_console_run. reflexivity.
  - intros Hc. unfold download_test_data.main,
      download_test_data.setup_rich_console. rewrite Hc. reflexivity.
Qed.

(** X11 (witness). A host whose [git clone] fails with [fatal]. *)
Lemma failed_clone_is_reported_not_raised_witness :
  let h := {| getcwd := "/"; environ := ∅; http := fun _ => None;
              git_clone := fun _ _ => Some "fatal";
              exec_module := fun _ => inr ∅;
              yaml_safe_load := fun _ => inr YNull;
              interfaces := ∅ |} in
  download_test_data.main h "https://example.com/x.git" "/out" true data_only
  = (Returns tt,
     State {[ "/data" := Dir ]} false
       [EvPrint "Cloning repository from https://example.com/x.git to /out...";
        EvGitClone "https://example.com/x.git" "/out";
        EvPrint "Failed to clone repository: fatal"]).
Proof.
  intros h.
  destruct (failed_clone_is_reported_not_raised h "https://example.com/x.git"
              "/out" "fatal" true data_only eq_refl (or_introl eq_refl))
    as [H1 H2].
  rewrite (H2 eq_refl), H1. reflexivity.
Defined.

(** ** The compressed-tar branch *)

Section TarBranch.
Variable h : host.

Lemma open_wb_run dest s :
  dest <> "" ->
  fs s !! posixpath.abspath (getcwd h) dest <> Some Dir ->
  Forall (fun d => fs s !! d = Some Dir)
    (os.upperdirs (posixpath.abspath (getcwd h) dest)) ->
  os.open_wb h dest s
  = (Returns tt,
     set_fs (<[posixpath.abspath (getcwd h) dest := File ""]> (fs s))
       (log (EvOpenWrite (posixpath.abspath (getcwd h) dest)) s)).
Proof.
  intros Hne Hnd Hup. unfold os.open_wb.
  apply String.eqb_neq in Hne. rewrite Hne. run.
  change (fs (log _ s)) with (fs s).
  rewrite (find_all_dirs _ _ Hup).
  by destruct (fs s !! posixpath.abspath (getcwd h) dest) as [[|c]|].
Qed.

Lemma tar_branch_run url dest s resp :
  http h url = Some resp ->
  ((400 <=? status_code resp)%Z && (status_code resp <? 600)%Z) = false ->
  content_length resp <> Some None ->
  download_test_data.download_and_extract_compressed_tar h url dest s
  = let s1 := log (EvHttpGet url true None)
                (log (report s (download_test_data.downloading_msg url dest)
                        (Some "bold cyan")) s) in
    let failed (e : exn) (s' : state) :=
      if issubclass (exn_class e) Exception
      then (Raises e,
            log (report s' download_test_data.failed_msg (Some "bold red")) s')
      else (Raises e, s') in
    match os.open_wb h dest s1 with
    | (Raises e, s2) => failed e s2
    | (Returns _, s2) =>
        match raw resp with
        | TarCorrupt => failed (Raise ReadError ArgNone) s2
        | tar =>
            match tarfile.extractall h tar dest
                    (log (report s2
                            "Downloading and extracting {file_length} bytes... "
                            (Some "cyan")) s2) with
            | (Raises e, s3) => failed e s3
            | (Returns _, s3) =>
                (Returns tt,
                 log (report s3 download_test_data.success_msg (Some "green"))
                   s3)
            end
        end
    end.
Proof.
  intros Hhttp Hstatus Hlen.
  unfold download_test_data.download_and_extract_compressed_tar.
  unfold bind at 1. rewrite output_to_console_run.
  cbv zeta. set (s0 := log (report s _ _) s).
  unfold try_except. unfold requests.get. run. rewrite Hhttp. run.
  unfold requests.raise_for_status. rewrite Hstatus. run.
  unfold requests.int_content_length.
  set (s1 := log (EvHttpGet url true None) s0).
  destruct (content_length resp) as [[n|]|]; [|done|]; run.
  all: destruct (os.open_wb h dest s1) as [[[]|e] s2];
         [|rewrite output_to_console_run;
           by destruct (issubclass (exn_class e) Exception)].
  all: unfold tarfile.open; destruct (raw resp) as [|m rest|]; run;
         rewrite ?output_to_console_run; cbn [fst snd].
  all: try match goal with
       | |- context [tarfile.extractall ?h0 ?t ?d ?s] =>
           destruct (tarfile.extractall h0 t d s) as [[[]|e] s3]
       end;
       rewrite ?output_to_console_run; cbn [fst snd]; try reflexivity.
  all: try (destruct (issubclass (exn_class e) Exception);
            rewrite ?output_to_console_run; reflexivity).
  all: eval_issubclass; cbv iota; rewrite ?output_to_console_run; reflexivity.
Qed.
End TarBranch.

(** X12. The compressed-tar branch opens [dest] for writing before it
    extracts under [dest].  Let [dest] be an absolute normalized path
    below existing directories that is no directory, let the response
    be acceptable, and let the first member be a regular file or a
    directory with a normalized relative name; the URL and [dest] hold
    no [[] unless the plain mode is on.  Then that member cannot be
    extracted: [dest] is in its way as the regular file just created.
    The branch ends with [NotADirectoryError]; [dest] is left behind as
    an empty regular file, nothing else is written, and the failure
    message is reported last. *)
Theorem tar_branch_cannot_extract_below_destination
    (h : host) (url dest : string) (resp : response) (m : TarInfo)
    (rest : tar_stream) (s : state) :
  reachable (fs s) dest = true ->
  Str.endswith_char dest posixpath.sep = false ->
  fs s !! dest <> Some Dir ->
  console s = false \/ (no_markup url = true /\ no_markup dest = true) ->
  http h url = Some resp ->
  ((400 <=? status_code resp)%Z && (status_code resp <? 600)%Z) = false ->
  content_length resp <> Some None ->
  raw resp = TarMember m rest ->
  normal_name (name m) = true ->
  let r := download_test_data.download_and_extract_compressed_tar h url dest s in
  exists e,
    fst r = Raises e
    /\ exn_class e = NotADirectoryError
    /\ fs (snd r) = <[dest := File ""]> (fs s)
    /\ new_events s (snd r)
       = [report s ("Downloading and extracting " +:+ url +:+ " to " +:+ dest
                    +:+ "...") (Some "bold cyan");
          EvHttpGet url true None;
          EvOpenWrite dest;
          report s "Downloading and extracting {file_length} bytes... "
            (Some "cyan");
          EvExtract (posixpath.join dest (name m));
          report s "Failed to download or extract files." (Some "bold red")].
Proof.
  intros Hreach Hend Hnd _ Hhttp Hstatus Hlen Hraw Hm r. subst r.
  apply reachable_spec in Hreach as (Habs & Hnorm & Hup).
  pose proof (abspath_normal h dest Habs Hnorm) as Hdest.
  pose proof (target_below h dest Habs Hnorm m Hm) as Htarget.
  pose proof (join_below dest Habs Hend (name m) Hm) as Hjoin.
  rewrite (tar_branch_run h url dest s resp Hhttp Hstatus Hlen). cbv zeta.
  rewrite open_wb_run; rewrite ?Hdest; [|by apply isabs_nonempty|done..].
  rewrite Hraw. cbn [tarfile.extractall]. unfold bind.
  match goal with
  | |- context [tarfile.extract h m dest ?s0] =>
      pose proof (extract_cases h m dest s0) as Hcase; cbv zeta in Hcase;
      set (s4 := s0) in *
  end.
  rewrite Htarget, Hjoin in Hcase.
  assert (tarfile.makedirs (os.upperdirs (dest +:+ String posixpath.sep (name m)))
            (fs s4)
          = (fs s4, Some (Raise NotADirectoryError (ArgStr dest)))) as Hmk.
  { unfold os.upperdirs. rewrite upperdirs_from_app, !app_empty_l.
    pose proof (isabs_nonempty dest Habs) as Hne. apply String.eqb_neq in Hne.
    rewrite Hne.
    apply (makedirs_blocked _ _ dest "").
    - subst s4. cbn [fs log set_fs].
      eapply Forall_impl; [exact Hup|]. intros d Hd. cbv beta in *.
      rewrite lookup_insert_ne; [done|]. intros <-. by rewrite Hd in Hnd.
    - subst s4. cbn [fs log set_fs]. by rewrite lookup_insert_eq. }
  rewrite Hmk in Hcase. cbn [fst snd] in Hcase. rewrite Hcase.
  eval_issubclass. cbv iota.
  eexists. split_and!; [reflexivity|reflexivity| |].
  - subst s4. reflexivity.
  - apply new_events_app. subst s4. unfold report.
    cbn [fst snd fs trace console log set_fs]. rewrite Hjoin.
    by rewrite <- !app_assoc.
Qed.

(** X12 (witness). [a.txt] and [sub/b.txt] into the fresh destination
    [/out]. *)
Lemma tar_branch_cannot_extract_below_destination_witness :
  let h := demo_host (Some (ok_response (two_files "A" "B"))) in
  let r := download_test_data.download_and_extract_compressed_tar
             h "https://example.com/x.tgz" "/out" data_only in
  fs data_only !! "/out" = None
  /\ fs (snd r) = <["/out" := File ""]> (fs data_only)
  /\ List.last (new_events data_only (snd r)) (EvPrint "")
     = EvPrint "Failed to download or extract files."
  /\ exists e, fst r = Raises e /\ exn_class e = NotADirectoryError.
Proof.
  intros h r.
  destruct (tar_branch_cannot_extract_below_destination h
              "https://example.com/x.tgz" "/out"
              (ok_response (two_files "A" "B"))
              (file_member "a.txt" "A")
              (stream_of [file_member "sub/b.txt" "B"]) data_only)
    as (e & He & Hc & Hfs & Hev).
  - reflexivity.
  - reflexivity.
  - by vm_compute.
  - by left.
  - reflexivity.
  - reflexivity.
  - discriminate.
  - reflexivity.
  - reflexivity.
  - split_and!; [by vm_compute|exact Hfs| |by exists e].
    subst r. rewrite Hev. reflexivity.
Defined.

Section KeepsFile.
Variable h : host.

(** A key that holds a regular file holds one after [tar.extract],
    whatever the outcome. *)
Lemma extract_keeps_file m path s k :
  is_file (fs s !! k) = true ->
  is_file (fs (snd (tarfile.extract h m path s)) !! k) = true.
Proof.
  intros Hk.
  destruct (fs s !! k) as [[|c]|] eqn:Hc; try done.
  pose proof (extract_cases h m path s) as H. cbv zeta in H.
  pose proof (makedirs_keeps (os.upperdirs (tarfile.target_of h path m))
                _ _ _ Hc) as Hmade.
  destruct (snd (tarfile.makedirs _ _)); [by rewrite H; simpl; rewrite Hmade|].
  destruct (tarfile.write_member _ _ _) as [e|f2] eqn:Hw; rewrite H; simpl;
    [by rewrite Hmade|].
  destruct (decide (k = tarfile.target_of h path m)) as [->|Hne].
  - revert Hw. unfold tarfile.write_member, tarfile.node_of.
    rewrite Hmade.
    destruct (kind m); intros [= <-]; by rewrite ?lookup_insert_eq, ?Hmade.
  - by rewrite (write_member_frame _ _ _ _ _ Hw Hne), Hmade.
Qed.


Lemma open_wb_returns dest s s' :
  os.open_wb h dest s = (Returns tt, s') ->
  s' = set_fs (<[posixpath.abspath (getcwd h) dest := File ""]> (fs s))
         (log (EvOpenWrite (posixpath.abspath (getcwd h) dest)) s).
Proof.
  unfold os.open_wb. destruct (String.eqb dest ""); [done|]. run.
  change (fs (log _ s)) with (fs s).
  destruct (fs s !! posixpath.abspath (getcwd h) dest) as [[|c]|]; [done| |].
  - destruct (List.find _ _) as [d|]; [|by intros [= <-]].
    by destruct (fs s !! d) as [[|c']|].
  - destruct (List.find _ _) as [d|]; [|by intros [= <-]].
    by destruct (fs s !! d) as [[|c']|].
Qed.

Lemma extractall_keeps_file tar path k : forall s,
  is_file (fs s !! k) = true ->
  is_file (fs (snd (tarfile.extractall h tar path s)) !! k) = true.
Proof.
  induction tar as [|m rest IH|]; intros s Hk; [done| |done].
  cbn [tarfile.extractall]. unfold bind.
  pose proof (extract_keeps_file m path s k Hk) as H1.
  destruct (tarfile.extract h m path s) as [[[]|e] s1]; [by apply IH|done].
Qed.

(** The compressed-tar branch, once the response is in hand. *)

Lemma tar_branch_returns url dest s s' :
  download_test_data.download_and_extract_compressed_tar h url dest s
  = (Returns tt, s') ->
  exists resp,
    http h url = Some resp
    /\ ((400 <=? status_code resp)%Z && (status_code resp <? 600)%Z) = false
    /\ content_length resp <> Some None.
Proof.
  unfold download_test_data.download_and_extract_compressed_tar.
  unfold bind at 1. rewrite output_to_console_run.
  unfold try_except. unfold requests.get. run.
  destruct (http h url) as [resp|]; run.
  2:{ eval_issubclass. cbv iota. by rewrite output_to_console_run. }
  unfold requests.raise_for_status.
  destruct (_ && _) eqn:Hstatus; run.
  { eval_issubclass. cbv iota. by rewrite output_to_console_run. }
  unfold requests.int_content_length.
  destruct (content_length resp) as [[n|]|] eqn:Hlen; run.
  2:{ eval_issubclass. cbv iota. by rewrite output_to_console_run. }
  all: intros _; exists resp; by rewrite Hlen.
Qed.

End KeepsFile.

(** X13. When the compressed-tar branch returns normally after
    extracting an archive of regular files and directories, the
    destination path is a regular file: the one [open(dest, "wb")]
    created, or a regular-file member written over it.  It is never a
    directory that holds the extracted files. *)
Theorem tar_branch_success_leaves_destination_a_file
    (h : host) (url dest : string) (s s' : state) :
  download_test_data.download_and_extract_compressed_tar h url dest s
  = (Returns tt, s') ->
  is_file (fs s' !! posixpath.abspath (getcwd h) dest) = true
  /\ fs s !! posixpath.abspath (getcwd h) dest <> Some Dir.
Proof.
  intros Hrun.
  destruct (tar_branch_returns h url dest s s' Hrun)
    as (resp & Hhttp & Hstatus & Hlen).
  rewrite (tar_branch_run h url dest s resp Hhttp Hstatus Hlen) in Hrun.
  cbv zeta in Hrun.
  destruct (os.open_wb h dest _) as [[[]|e] s2] eqn:Hopen.
  2:{ by destruct (issubclass (exn_class e) Exception). }
  assert (fs s !! posixpath.abspath (getcwd h) dest <> Some Dir) as Hnd.
  { intros Hd. revert Hopen. unfold os.open_wb.
    destruct (String.eqb dest ""); [done|]. run.
    change (fs (log _ (log _ (log _ s)))) with (fs s). by rewrite Hd. }
  split; [|exact Hnd].
  apply open_wb_returns in Hopen.
  assert (is_file (fs s2 !! posixpath.abspath (getcwd h) dest) = true) as Hf.
  { rewrite Hopen. cbn [fs set_fs]. by rewrite lookup_insert_eq. }
  destruct (raw resp) as [|m rest|].
  - match type of Hrun with
    | context [tarfile.extractall h ?t dest ?s0] =>
        pose proof (extractall_keeps_file h t dest _ s0 Hf) as Hk;
        destruct (tarfile.extractall h t dest s0) as [[[]|e] s3]
    end.
    + by injection Hrun as <-.
    + by destruct (issubclass (exn_class e) Exception).
  - match type of Hrun with
    | context [tarfile.extractall h ?t dest ?s0] =>
        pose proof (extractall_keeps_file h t dest _ s0 Hf) as Hk;
        destruct (tarfile.extractall h t dest s0) as [[[]|e] s3]
    end.
    + by injection Hrun as <-.
    + by destruct (issubclass (exn_class e) Exception).
  - revert Hrun. eval_issubclass. done.
Qed.

(** X13 (witness). An archive with the single member [/tmp/evil]
    fetched into [/out]: the branch succeeds and [/out] is an empty
    regular file. *)
Lemma tar_branch_success_leaves_destination_a_file_witness :
  let h := demo_host (Some (ok_response absolute_archive)) in
  let r := download_test_data.download_and_extract_compressed_tar
             h "https://example.com/x.tgz" "/out" data_only in
  fst r = Returns tt
  /\ is_file (fs (snd r) !! "/out") = true
  /\ fs (snd r) !! "/tmp/evil" = Some (File "E").
Proof.
  intros h r.
  assert (fst r = Returns tt) as Hret by (by vm_compute).
  assert (r = (Returns tt, snd r)) as Hrun.
  { destruct r as [o s1]. simpl in *. by rewrite Hret. }
  destruct (tar_branch_success_leaves_destination_a_file h
              "https://example.com/x.tgz" "/out" data_only (snd r) Hrun)
    as [Hf _].
  split_and!; [exact Hret|exact Hf|by vm_compute].
Defined.

(** ** Failures of the compressed-tar branch before any write *)

Lemma open_wb_trace (h : host) dest s :
  dest <> "" ->
  trace (snd (os.open_wb h dest s))
  = trace s ++ [EvOpenWrite (posixpath.abspath (getcwd h) dest)].
Proof.
  intros Hne. unfold os.open_wb. apply String.eqb_neq in Hne. rewrite Hne.
  run. change (fs (log _ s)) with (fs s).
  destruct (fs s !! _) as [[|c]|]; [done| |].
  - destruct (List.find _ _) as [d|]; [|done].
    by destruct (fs s !! d) as [[|c']|].
  - destruct (List.find _ _) as [d|]; [|done].
    by destruct (fs s !! d) as [[|c']|].
Qed.

(** X14. The compressed-tar branch looks at the response before it
    touches the destination; the URL and [dest] hold no [[] unless the
    plain mode is on.  When no response is obtained, when the status is
    from 400 to 599 and when the [content-length] header is no integer
    the branch ends with a [RequestException], [HTTPError] and
    [ValueError]: the failure message is reported, the exception is
    raised again, and nothing was opened or written.  Every other
    response, whatever its status, lets the branch go on to open [dest]
    for writing. *)
Theorem tar_branch_checks_response_before_opening_destination
    (h : host) (url dest : string) (s : state) :
  console s = false \/ (no_markup url = true /\ no_markup dest = true) ->
  let r := download_test_data.download_and_extract_compressed_tar h url dest s in
  let announced :=
    report s ("Downloading and extracting " +:+ url +:+ " to " +:+ dest
              +:+ "...") (Some "bold cyan") in
  let stopped (e : exn) :=
    r = (Raises e,
         log (report s "Failed to download or extract files." (Some "bold red"))
           (log (EvHttpGet url true None) (log announced s))) in
  match http h url with
  | None =>
      exists e, issubclass (exn_class e) RequestException = true /\ stopped e
  | Some resp =>
      if (400 <=? status_code resp)%Z && (status_code resp <? 600)%Z
      then stopped (Raise HTTPError (ArgInt (status_code resp)))
      else match content_length resp with
           | Some None => stopped (Raise ValueError ArgNone)
           | _ =>
               dest <> "" ->
               exists l,
                 new_events s (snd r)
                 = announced
                     :: EvHttpGet url true None
                     :: EvOpenWrite (posixpath.abspath (getcwd h) dest) :: l
           end
  end.
Proof.
  intros _ r announced stopped. subst stopped announced r. cbv beta.
  change ("Downloading and extracting " +:+ url +:+ " to " +:+ dest +:+ "...")
    with (download_test_data.downloading_msg url dest).
  change "Failed to download or extract files."
    with download_test_data.failed_msg.
  assert (forall e : exn,
            issubclass (exn_class e) Exception = true ->
            forall s1,
              s1 = log (EvHttpGet url true None)
                     (log (report s (download_test_data.downloading_msg url dest)
                             (Some "bold cyan")) s) ->
              (if issubclass (exn_class e) Exception
               then (let (o, s') :=
                       download_test_data.output_to_console
                         download_test_data.failed_msg (Some "bold red") s1 in
                     match o with
                     | Returns _ => (@Raises unit e, s')
                     | Raises e0 => (Raises e0, s')
                     end)
               else (Raises e, s1))
              = (Raises e,
                 log (report s download_test_data.failed_msg (Some "bold red"))
                   s1)) as Hfail.
  { intros e -> s1 ->. by rewrite output_to_console_run. }
  destruct (http h url) as [resp|] eqn:Hhttp.
  2:{ exists (Raise ConnectionError (ArgStr url)). split; [reflexivity|].
      unfold download_test_data.download_and_extract_compressed_tar.
      unfold bind at 1. rewrite output_to_console_run.
      unfold try_except, requests.get. run. rewrite Hhttp. run.
      by apply Hfail. }
  destruct (_ && _) eqn:Hstatus.
  { unfold download_test_data.download_and_extract_compressed_tar.
    unfold bind at 1. rewrite output_to_console_run.
    unfold try_except, requests.get. run. rewrite Hhttp. run.
    unfold requests.raise_for_status. rewrite Hstatus. run.
    by apply Hfail. }
  assert (content_length resp <> Some None ->
          dest <> "" ->
          exists l,
            new_events s
              (snd (download_test_data.download_and_extract_compressed_tar
                      h url dest s))
            = report s (download_test_data.downloading_msg url dest)
                (Some "bold cyan")
                :: EvHttpGet url true None
                :: EvOpenWrite (posixpath.abspath (getcwd h) dest) :: l)
    as Hgo.
  { intros Hlen Hne.
    rewrite (tar_branch_run h url dest s resp Hhttp Hstatus Hlen). cbv zeta.
    set (s1 := log (EvHttpGet url true None) _).
    pose proof (open_wb_trace h dest s1 Hne) as Hopen.
    assert (forall tr : list event,
              (exists l, tr = trace s1
                              ++ EvOpenWrite (posixpath.abspath (getcwd h) dest)
                              :: l) ->
              exists l,
                drop (length (trace s)) tr
                = report s (download_test_data.downloading_msg url dest)
                    (Some "bold cyan")
                    :: EvHttpGet url true None
                    :: EvOpenWrite (posixpath.abspath (getcwd h) dest) :: l)
      as Hdrop.
    { intros tr [l ->]. exists l. subst s1. cbn [trace log].
      rewrite <- !app_assoc. by rewrite drop_app_length. }
    unfold new_events. apply Hdrop.
    destruct (os.open_wb h dest s1) as [[[]|e] s2]; cbn [snd] in Hopen.
    2:{ destruct (issubclass _ _); cbn [snd trace log]; rewrite Hopen;
          rewrite <- ?app_assoc; eexists; reflexivity. }
    assert (forall tar,
              exists l,
                trace (snd (tarfile.extractall h tar dest
                              (log (report s2
                                      "Downloading and extracting {file_length} bytes... "
                                      (Some "cyan")) s2)))
                = trace s1
                  ++ EvOpenWrite (posixpath.abspath (getcwd h) dest) :: l)
      as Hext.
    { intros tar.
      destruct (appends_extractall h (fun _ => True) tar dest (fun _ => I)
                  (log (report s2
                          "Downloading and extracting {file_length} bytes... "
                          (Some "cyan")) s2)) as (l & -> & _).
      cbn [trace log]. rewrite Hopen, <- !app_assoc. eexists. reflexivity. }
    destruct (raw resp) as [|m rest|].
    - destruct (Hext TarEnd) as [l Hl].
      destruct (tarfile.extractall h TarEnd dest _) as [[[]|e] s3];
        [|destruct (issubclass _ _)]; cbn [snd trace log] in *;
        rewrite Hl, <- ?app_assoc; eexists; reflexivity.
    - destruct (Hext (TarMember m rest)) as [l Hl].
      destruct (tarfile.extractall h (TarMember m rest) dest _)
        as [[[]|e] s3];
        [|destruct (issubclass _ _)]; cbn [snd trace log] in *;
        rewrite Hl, <- ?app_assoc; eexists; reflexivity.
    - destruct (issubclass _ _); cbn [snd trace log]; rewrite Hopen;
        rewrite <- ?app_assoc; eexists; reflexivity. }
  destruct (content_length resp) as [[n|]|] eqn:Hlen.
  - by apply Hgo.
  - unfold download_test_data.download_and_extract_compressed_tar.
    unfold bind at 1. rewrite output_to_console_run.
    unfold try_except, requests.get. run. rewrite Hhttp. run.
    unfold requests.raise_for_status. rewrite Hstatus. run.
    unfold requests.int_content_length. rewrite Hlen. run.
    by apply Hfail.
  - by apply Hgo.
Qed.

(** X14 (witness). Status 404 stops the branch; status 204 with an
    empty archive does not. *)
Lemma tar_branch_checks_response_before_opening_destination_witness :
  let url := "https://example.com/x.tgz" in
  let r404 := download_test_data.download_and_extract_compressed_tar
                (demo_host (Some not_found_response)) url "/out" data_only in
  let r204 := download_test_data.download_and_extract_compressed_tar
                (demo_host (Some {| status_code := 204; content_length := None;
                                    raw := TarEnd |})) url "/out" data_only in
  fst r404 = Raises (Raise HTTPError (ArgInt 404))
  /\ fs (snd r404) = fs data_only
  /\ exists l, new_events data_only (snd r204)
               = EvPrint (download_test_data.downloading_msg url "/out")
                   :: EvHttpGet url true None :: EvOpenWrite "/out" :: l.
Proof.
  intros url r404 r204.
  pose proof (tar_branch_checks_response_before_opening_destination
                (demo_host (Some not_found_response)) url "/out" data_only
                (or_introl eq_refl))
    as H1.
  pose proof (tar_branch_checks_response_before_opening_destination
                (demo_host (Some {| status_code := 204; content_length := None;
                                    raw := TarEnd |})) url "/out" data_only
                (or_introl eq_refl))
    as H2.
  cbv zeta in H1, H2. cbn [http demo_host status_code content_length
    not_found_response Z.leb Z.ltb Z.compare Pos.compare Pos.compare_cont
    andb] in H1, H2.
  split_and!.
  - subst r404. by rewrite H1.
  - subst r404. by rewrite H1.
  - apply H2. discriminate.
Defined.

(** ** Plugin validation *)

Lemma validate_well_formed (h : host) (fpath iname pname : string) (s : state) :
  well_formed_plugin h fpath iname pname ->
  geoips_validate.validate h fpath s
  = match (interfaces h !! iname : option (string -> bool)) with
    | Some plugin_is_valid =>
        if plugin_is_valid pname
        then (Returns tt,
              log (EvPrint ("Plugin `" +:+ pname +:+ "` found at " +:+ fpath
                            +:+ " is valid.")) s)
        else (Raises (Raise SystemExit (ArgInt 2)),
              log (EvStderr ("Plugin `" +:+ pname +:+ "` found at " +:+ fpath
                             +:+ " is invalid.")) s)
    | None => (Raises (Raise AttributeError (ArgStr iname)), s)
    end.
Proof.
  unfold well_formed_plugin, geoips_validate.validate.
  destruct (String.eqb ".py" (Str.last_chars 3 fpath)).
  - intros (attrs & -> & Hi & Hn).
    unfold geoips_validate.lift, geoips_validate.getattr. run.
    rewrite Hi. run. rewrite Hn. run.
    destruct (interfaces h !! iname) as [check|]; run; [|done].
    by destruct (check pname).
  - intros (m & -> & Hi & Hn).
    unfold geoips_validate.lift, geoips_validate.getitem. run.
    rewrite Hi. run. rewrite Hn. run.
    destruct (interfaces h !! iname) as [check|]; run; [|done].
    by destruct (check pname).
Qed.

(** X15. For a plugin that loads and carries both names, the verdict
    of [validate] is that of the interface's [plugin_is_valid] on the
    plugin name: a valid plugin is reported with [print] and the call
    returns; an invalid one ends in [parser.error] with the message
    that names the plugin and the file.  Nothing else is done. *)
Theorem validate_verdict_is_plugin_is_valid
    (h : host) (fpath iname pname : string) (plugin_is_valid : string -> bool)
    (s : state) :
  well_formed_plugin h fpath iname pname ->
  interfaces h !! iname = Some plugin_is_valid ->
  geoips_validate.validate h fpath s
  = if plugin_is_valid pname
    then (Returns tt,
          log (EvPrint ("Plugin `" +:+ pname +:+ "` found at " +:+ fpath
                        +:+ " is valid.")) s)
    else (Raises (Raise SystemExit (ArgInt 2)),
          log (EvStderr ("Plugin `" +:+ pname +:+ "` found at " +:+ fpath
                         +:+ " is invalid.")) s).
Proof.
  intros Hwf Hi. by rewrite (validate_well_formed h _ _ _ s Hwf), Hi.
Qed.

(** X15 (witness). The YAML plugin [p.yaml] of interface [readers],
    which accepts the name [abi] only. *)
Lemma validate_verdict_is_plugin_is_valid_witness :
  let h (n : string) :=
    {| getcwd := "/"; environ := ∅; http := fun _ => None;
       git_clone := fun _ _ => None;
       exec_module := fun _ => inl (Raise OSError ArgNone);
       yaml_safe_load := fun _ =>
         inr (YMapping {[ "interface" := "readers"; "name" := n ]});
       interfaces := {[ "readers" := String.eqb "abi" ]} |} in
  geoips_validate.validate (h "abi") "p.yaml" data_only
  = (Returns tt, log (EvPrint "Plugin `abi` found at p.yaml is valid.") data_only)
  /\ geoips_validate.validate (h "ami") "p.yaml" data_only
     = (Raises (Raise SystemExit (ArgInt 2)),
        log (EvStderr "Plugin `ami` found at p.yaml is invalid.") data_only).
Proof.
  intros h. split.
  - apply (validate_verdict_is_plugin_is_valid (h "abi") "p.yaml" "readers"
             "abi" (String.eqb "abi") data_only); [|reflexivity].
    eexists. split_and!; [reflexivity|by vm_compute..].
  - apply (validate_verdict_is_plugin_is_valid (h "ami") "p.yaml" "readers"
             "ami" (String.eqb "abi") data_only); [|reflexivity].
    eexists. split_and!; [reflexivity|by vm_compute..].
Defined.

(** X16. Only a missing attribute of a module-based plugin is turned
    into the invalid-plugin report.  Every other failure leaves
    [validate] as the exception it is, with nothing reported: an error
    of loading the module or the YAML file; [TypeError] when the YAML
    document is not a mapping; and [AttributeError] for an interface
    name that [geoips.interfaces] does not have, since that lookup is
    made after the [try] block. *)
Theorem validate_lets_other_failures_through
    (h : host) (fpath : string) (s : state) :
  let r := geoips_validate.validate h fpath s in
  (forall e,
     (if String.eqb ".py" (Str.last_chars 3 fpath)
      then exec_module h fpath = inl e
      else yaml_safe_load h fpath = inl e) ->
     r = (Raises e, s))
  /\ (forall doc,
        String.eqb ".py" (Str.last_chars 3 fpath) = false ->
        yaml_safe_load h fpath = inr doc ->
        (forall m, doc <> YMapping m) ->
        r = (Raises (Raise TypeError ArgNone), s))
  /\ (forall iname pname,
        well_formed_plugin h fpath iname pname ->
        interfaces h !! iname = None ->
        r = (Raises (Raise AttributeError (ArgStr iname)), s)).
Proof.
  intros r. subst r. split_and!.
  - intros e He. unfold geoips_validate.validate.
    destruct (String.eqb ".py" (Str.last_chars 3 fpath)); rewrite He;
      reflexivity.
  - intros doc Hpy Hdoc Hnm. unfold geoips_validate.validate.
    rewrite Hpy, Hdoc. unfold geoips_validate.lift. run.
    destruct doc as [|x|l|m]; [| | |by destruct (Hnm m)].
    all: unfold geoips_validate.getitem; run; by eval_issubclass.
  - intros iname pname Hwf Hi.
    by rewrite (validate_well_formed h _ _ _ s Hwf), Hi.
Qed.

(** X16 (witness). A YAML file that holds a list; and a module whose
    interface is [reader], which [geoips.interfaces] does not have. *)
Lemma validate_lets_other_failures_through_witness :
  let h :=
    {| getcwd := "/"; environ := ∅; http := fun _ => None;
       git_clone := fun _ _ => None;
       exec_module := fun _ =>
         inr {[ "interface" := "reader"; "name" := "abi" ]};
       yaml_safe_load := fun _ => inr (YSequence ["a"; "b"]);
       interfaces := {[ "readers" := fun _ => true ]} |} in
  geoips_validate.validate h "p.yaml" data_only
  = (Raises (Raise TypeError ArgNone), data_only)
  /\ geoips_validate.validate h "p.py" data_only
     = (Raises (Raise AttributeError (ArgStr "reader")), data_only).
Proof.
  intros h.
  destruct (validate_lets_other_failures_through h "p.yaml" data_only)
    as (_ & H2 & _).
  destruct (validate_lets_other_failures_through h "p.py" data_only)
    as (_ & _ & H3).
  split.
  - apply (H2 (YSequence ["a"; "b"])); [reflexivity|reflexivity|done].
  - apply (H3 "reader" "abi"); [|by vm_compute].
    eexists. split_and!; [reflexivity|by vm_compute..].
Defined.

(** ** The generated module name *)

Lemma has_char_app c (a b : string) :
  has_char c (a +:+ b) = has_char c a || has_char c b.
Proof.
  induction a as [|x a IH]; [done|]. rewrite app_cons. simpl.
  by rewrite IH, orb_assoc.
Qed.

Lemma replace_char_removes old new (s : string) :
  old <> new -> has_char old (Str.replace_char old new s) = false.
Proof.
  intros Hne. induction s as [|a s IH]; [done|]. simpl. rewrite IH.
  destruct (Ascii.eqb a old) eqn:Ha.
  - rewrite orb_false_r. apply Ascii.eqb_neq. congruence.
  - by rewrite Ha.
Qed.

Lemma replace_char_keeps_absent c old new (s : string) :
  c <> new -> has_char c s = false ->
  has_char c (Str.replace_char old new s) = false.
Proof.
  intros Hne. induction s as [|a s IH]; [done|]. simpl.
  intros [Ha Hs]%orb_false_iff. rewrite (IH Hs), orb_false_r.
  destruct (Ascii.eqb a old); [|done].
  apply Ascii.eqb_neq. congruence.
Qed.

Lemma replace_char_length old new (s : string) :
  String.length (Str.replace_char old new s) = String.length s.
Proof. induction s as [|a s IH]; simpl; [done|]. by rewrite IH. Qed.

Lemma replace_char_present old new (s : string) :
  old <> new -> has_char old s = true -> Str.replace_char old new s <> s.
Proof.
  intros Hne Hs Heq. rewrite <- Heq in Hs.
  by rewrite replace_char_removes in Hs.
Qed.

Lemma replace_char_comm a b new (s : string) :
  Str.replace_char a new (Str.replace_char b new s)
  = Str.replace_char b new (Str.replace_char a new s).
Proof.
  induction s as [|x s IH]; [done|]. simpl. rewrite IH. f_equal.
  destruct (Ascii.eqb x a) eqn:Ha, (Ascii.eqb x b) eqn:Hb;
    rewrite ?Ha, ?Hb; try done.
  all: by destruct (Ascii.eqb new a), (Ascii.eqb new b).
Qed.

Lemma replace_char_idem old new (s : string) :
  Str.replace_char old new (Str.replace_char old new s)
  = Str.replace_char old new s.
Proof.
  induction s as [|x s IH]; [done|]. simpl. rewrite IH. f_equal.
  destruct (Ascii.eqb x old) eqn:Ha; [|by rewrite Ha].
  by destruct (Ascii.eqb new old).
Qed.

(** X17. The module name that [load_module_from_file] generates holds
    neither a separator nor a dot and is twelve characters longer than
    the path; a name that is given is used as it is.  The generated name
    is not unique, though the code's comment says so: replacing
    separators or dots of the path by underscores gives a path with the
    same module name, so every path that holds a separator or a dot
    shares its module name with another path. *)
Theorem generated_module_name_is_flat_and_shared (file_path : string) :
  let n := geoips_validate.module_name file_path None in
  (has_char "/" n = false /\ has_char "." n = false)
  /\ String.length n = 12 + String.length file_path
  /\ (forall given, geoips_validate.module_name file_path (Some given) = given)
  /\ geoips_validate.module_name (Str.replace_char "/" "_" file_path) None = n
  /\ geoips_validate.module_name (Str.replace_char "." "_" file_path) None = n
  /\ (has_char "/" file_path || has_char "." file_path = true ->
      exists other, other <> file_path
                    /\ geoips_validate.module_name other None = n).
Proof.
  intros n. subst n. unfold geoips_validate.module_name.
  assert ("/"%char <> "_"%char) as H1 by done.
  assert ("."%char <> "_"%char) as H2 by done.
  assert ("/"%char <> "."%char) as H3 by done.
  split_and!.
  - rewrite has_char_app. apply orb_false_iff. split; [reflexivity|].
    apply replace_char_keeps_absent; [done|]. by apply replace_char_removes.
  - rewrite has_char_app. apply orb_false_iff. split; [reflexivity|].
    by apply replace_char_removes.
  - by rewrite length_app_s, !replace_char_length.
  - done.
  - by rewrite replace_char_idem.
  - by rewrite (replace_char_comm "." "/"), replace_char_idem,
      (replace_char_comm "/" ".").
  - intros [Hs|Hd]%orb_true_iff.
    + exists (Str.replace_char "/" "_" file_path). split.
      * by apply replace_char_present.
      * by rewrite replace_char_idem.
    + exists (Str.replace_char "." "_" file_path). split.
      * by apply replace_char_present.
      * by rewrite (replace_char_comm "." "/"), replace_char_idem,
          (replace_char_comm "/" ".").
Qed.

(** X17 (witness). The plugin files [readers/abi.py] and
    [readers_abi.py] are loaded under one module name. *)
Lemma generated_module_name_is_flat_and_shared_witness :
  geoips_validate.module_name "readers/abi.py" None = "module_from_readers_abi_py"
  /\ exists other, other <> "readers/abi.py"
       /\ geoips_validate.module_name other None
          = geoips_validate.module_name "readers/abi.py" None.
Proof.
  split; [reflexivity|].
  destruct (generated_module_name_is_flat_and_shared "readers/abi.py")
    as (_ & _ & _ & _ & _ & H).
  apply H. reflexivity.
Defined.

(** ** The run command *)








#[global] Instance str_le_total : Total geoips_run.str_le.
Proof. intros a b. apply String.leb_total. Qed.



Section RunCommand.
Variable h : host.
Variable files : string -> exn + string.
Variable glob_magic_dir : string -> M (list string).
Variable repr : list string -> string.
Variable call : string -> M Z.

End RunCommand.


